(** * gpu-charts: the API benchmark script (api_benchmark.py)

    A shallow embedding of the load-generation and regression engine of
    [api_benchmark.py]: the request executor [make_request], symbol
    discovery and the URL selection of [performance_benchmark], its result
    analysis, the projection written by [save_results], the comparator
    [_compare_with_file] and the compare-only branch of [main].

    Conventions.
    - Python numbers are rationals ([Qc]): the script only subtracts,
      multiplies, divides and compares them, and every comparison the
      script makes is exact on finite floats.  Rounding is not modelled.
    - A Python exception is a value of [exn]; fallible code lives in the
      error monad [res].
    - A Python dict with string keys is a [gmap string pyval]; a decoded
      JSON object, whose iteration order matters, is an association list. *)

From Stdlib Require Import QArith Qcanon Ascii.
From Stdlib Require Qcabs OrderedTypeEx.
From stdpp Require Import base numbers list list_numbers sorting strings gmap pretty.

Local Open Scope Qc_scope.

(** ** Python values, exceptions and the error monad *)

Inductive exn :=
  | ZeroDivisionError
  | IndexError
  | KeyError
  | TypeError
  | AttributeError
  | ValueError
  | StatisticsError
  | JSONDecodeError
  | OSError.

Inductive result (E A : Type) :=
  | Ok (a : A)
  | Raise (e : E).
Arguments Ok {E A} a.
Arguments Raise {E A} e.

Abbreviation res := (result exn).

Global Instance result_ret E : MRet (result E) := λ A a, Ok a.
Global Instance result_bind E : MBind (result E) := λ A B f m,
  match m with
  | Ok a => f a
  | Raise e => Raise e
  end.

(** [try: body except ...: handler] *)
Definition try_except {E A} (body : result E A) (handler : E → result E A)
    : result E A :=
  match body with
  | Ok a => Ok a
  | Raise e => handler e
  end.

(** Values that the script stores in dicts and reads back from JSON. *)
#[warnings="-register-all"]
Inductive pyval :=
  | PNone
  | PBool (b : bool)
  | PNum (q : Qc)
  | PStr (s : string)
  | PList (l : list pyval)
  | PDict (kv : list (string * pyval)).

Definition Qc_of_nat (n : nat) : Qc := Qc_of_Z (Z.of_nat n).

(** [a / b]: true division raises on a zero divisor. *)
Definition py_truediv (a b : Qc) : res Qc :=
  if decide (b = 0) then Raise ZeroDivisionError else Ok (a / b).

(** [a % b] on integers: floor modulo, raises on a zero modulus. *)
Definition py_mod (a b : Z) : res Z :=
  if decide (b = 0%Z) then Raise ZeroDivisionError else Ok (a `mod` b)%Z.

(** [l[i]] for an index that is not negative. *)
Definition py_index {A} (l : list A) (i : nat) : res A :=
  match l !! i with
  | Some x => Ok x
  | None => Raise IndexError
  end.

(** [min(l)] and [max(l)]: the first smallest, the first largest. *)
Definition py_min (l : list Qc) : res Qc :=
  match l with
  | [] => Raise ValueError
  | x :: xs => Ok (foldl (λ m y, if decide (y < m) then y else m) x xs)
  end.

Definition py_max (l : list Qc) : res Qc :=
  match l with
  | [] => Raise ValueError
  | x :: xs => Ok (foldl (λ m y, if decide (m < y) then y else m) x xs)
  end.

(** [d.get(key, default)] *)
Definition dict_get (d : gmap string pyval) (key : string) (default : pyval) : pyval :=
  match d !! key with
  | Some v => v
  | None => default
  end.

(** A value used as a number; [bool] is a subclass of [int]. *)
Definition as_number (v : pyval) : res Qc :=
  match v with
  | PNum q => Ok q
  | PBool b => Ok (if b then 1 else 0)
  | _ => Raise TypeError
  end.

(** ** The request outcome

    The dict returned by [make_request]. *)
Record outcome := {
  status : Z;
  latency_ms : Qc;
  bytes : nat;
  content : option (list Byte.byte);
  error : option string
}.

(** ** The statistics of the [statistics] module *)

Definition sorted (l : list Qc) : list Qc := merge_sort Qcle l.

Definition fsum (l : list Qc) : Qc := foldr Qcplus 0 l.

Definition statistics_mean (data : list Qc) : res Qc :=
  match data with
  | [] => Raise StatisticsError
  | _ => Ok (fsum data / Qc_of_nat (length data))
  end.

Definition statistics_median (data : list Qc) : res Qc :=
  let data := sorted data in
  let n := length data in
  if decide (n = 0)%nat then Raise StatisticsError
  else if decide (n `mod` 2 = 1)%nat then py_index data (n / 2)
  else
    let i := (n / 2)%nat in
    a ← py_index data (i - 1);
    b ← py_index data i;
    Ok ((a + b) / Qc_of_Z 2).

Section benchmark.

(** [math.sqrt] on floats has no rational counterpart: it is a parameter
    of the development. *)
Variable py_sqrt : Qc → Qc.

Definition statistics_variance (data : list Qc) : res Qc :=
  let n := length data in
  if decide (n < 2)%nat then Raise StatisticsError
  else
    let mean := fsum data / Qc_of_nat n in
    Ok (fsum ((λ x, (x - mean) * (x - mean)) <$> data) / Qc_of_nat (n - 1)).

Definition statistics_stdev (data : list Qc) : res Qc :=
  v ← statistics_variance data; Ok (py_sqrt v).

(** ** Result analysis of [performance_benchmark] (lines 462-496) *)

Definition analyze (results : list outcome) (total_time : Qc)
    : res (gmap string pyval) :=
  let successful := filter (λ r, status r = 200%Z) results in
  let failed := filter (λ r, status r ≠ 200%Z) results in
  let latencies := latency_ms <$> successful in
  let total_bytes := sum_list (bytes <$> results) in
  match latencies with
  | _ :: _ =>
    let latencies := sorted latencies in
    let n := length latencies in
    requests_per_sec ← py_truediv (Qc_of_nat (length results)) total_time;
    throughput_mbps ←
      py_truediv (Qc_of_nat (total_bytes * 8) / Qc_of_Z 1024 / Qc_of_Z 1024)
                 total_time;
    latency_min ← py_min latencies;
    latency_max ← py_max latencies;
    latency_mean ← statistics_mean latencies;
    latency_median ← statistics_median latencies;
    latency_p50 ← py_index latencies (n * 50 / 100);
    latency_p90 ← py_index latencies ((n * 90 / 100) `min` (n - 1));
    latency_p95 ← py_index latencies ((n * 95 / 100) `min` (n - 1));
    latency_p99 ← py_index latencies ((n * 99 / 100) `min` (n - 1));
    latency_stdev ←
      (if decide (1 < n)%nat then statistics_stdev latencies else Ok 0);
    Ok (<["total_requests" := PNum (Qc_of_nat (length results))]>
        (<["successful" := PNum (Qc_of_nat (length successful))]>
        (<["failed" := PNum (Qc_of_nat (length failed))]>
        (<["total_time_s" := PNum total_time]>
        (<["requests_per_sec" := PNum requests_per_sec]>
        (<["total_bytes" := PNum (Qc_of_nat total_bytes)]>
        (<["throughput_mbps" := PNum throughput_mbps]>
        (<["latency_min" := PNum latency_min]>
        (<["latency_max" := PNum latency_max]>
        (<["latency_mean" := PNum latency_mean]>
        (<["latency_median" := PNum latency_median]>
        (<["latency_p50" := PNum latency_p50]>
        (<["latency_p90" := PNum latency_p90]>
        (<["latency_p95" := PNum latency_p95]>
        (<["latency_p99" := PNum latency_p99]>
        (<["latency_stdev" := PNum latency_stdev]> ∅))))))))))))))))
  | [] =>
    Ok (<["total_requests" := PNum (Qc_of_nat (length results))]>
        (<["successful" := PNum 0]>
        (<["failed" := PNum (Qc_of_nat (length results))]>
        (<["error" := PStr "No successful requests"]> ∅))))
  end.

(** ** The request executor [make_request] (lines 38-71)

    The network and the clock are the environment.  [urlopen] answers with
    a response object or raises; [read] on the response may raise too.
    An exception is a [urllib.error.HTTPError], some other instance of
    [Exception] (carried with its [str]), or one that derives from
    [BaseException] only, such as [KeyboardInterrupt]. *)

Inductive urlopen_exc :=
  | HTTPError (code : Z) (reason : string)
  | OtherException (message : string)
  | NotAnException.

Record response := {
  getcode : Z;
  read : result urlopen_exc (list Byte.byte)
}.

Record world := {
  perf_counter_before : Qc;
  perf_counter_after : Qc;
  urlopen : string → Z → result urlopen_exc response
}.

Definition make_request (w : world) (url : string) (timeout : Z)
    : result urlopen_exc outcome :=
  let start_time := perf_counter_before w in
  try_except
    (response ← urlopen w url timeout;
     content ← read response;
     let elapsed := (perf_counter_after w - start_time) * Qc_of_Z 1000 in
     Ok {| status := getcode response;
           latency_ms := elapsed;
           bytes := length content;
           content := Some content;
           error := None |})
    (λ e,
      match e with
      | HTTPError code reason =>
        let elapsed := (perf_counter_after w - start_time) * Qc_of_Z 1000 in
        Ok {| status := code;
              latency_ms := elapsed;
              bytes := 0;
              content := None;
              error := Some ("HTTP " +:+ pretty code +:+ ": " +:+ reason) |}
      | OtherException message =>
        let elapsed := (perf_counter_after w - start_time) * Qc_of_Z 1000 in
        Ok {| status := 0;
              latency_ms := elapsed;
              bytes := 0;
              content := None;
              error := Some message |}
      | NotAnException => Raise e
      end).

(** ** Symbol discovery of [performance_benchmark] (lines 364-383)

    [json.loads] and the equality [==] of decoded values are Python
    built-ins: both are parameters. *)

Variable json_loads : list Byte.byte → res pyval.
Variable py_eq : pyval → pyval → bool.

Fixpoint is_substring (s t : string) : bool :=
  String.prefix s t ||
  match t with
  | EmptyString => false
  | String _ t' => is_substring s t'
  end.

Fixpoint assoc_get (kv : list (string * pyval)) (key : string) : option pyval :=
  match kv with
  | [] => None
  | (k, v) :: kv' => if decide (k = key) then Some v else assoc_get kv' key
  end.

(** [key in data] *)
Definition py_contains (key : string) (data : pyval) : res bool :=
  match data with
  | PDict kv => Ok (bool_decide (is_Some (assoc_get kv key)))
  | PList l => Ok (existsb (py_eq (PStr key)) l)
  | PStr s => Ok (is_substring key s)
  | _ => Raise TypeError
  end.

(** [data[key]] for a string key *)
Definition py_getitem (data : pyval) (key : string) : res pyval :=
  match data with
  | PDict kv =>
    match assoc_get kv key with
    | Some v => Ok v
    | None => Raise KeyError
    end
  | _ => Raise TypeError
  end.

(** [d.items()] *)
Definition py_items (d : pyval) : res (list (string * pyval)) :=
  match d with
  | PDict kv => Ok kv
  | _ => Raise AttributeError
  end.

Fixpoint chars (s : string) : list pyval :=
  match s with
  | EmptyString => []
  | String c s' => PStr (String c EmptyString) :: chars s'
  end.

(** The elements visited by [for symbol_info in symbol_list[:3]].  A dict
    cannot be sliced ([TypeError]; [KeyError] from Python 3.12 on). *)
Definition py_slice3 (symbol_list : pyval) : res (list pyval) :=
  match symbol_list with
  | PList l => Ok (take 3 l)
  | PStr s => Ok (take 3 (chars s))
  | _ => Raise TypeError
  end.

(** [symbol_info.get('symbol', symbol_info)] *)
Definition py_get (d : pyval) (key : string) (default : pyval) : res pyval :=
  match d with
  | PDict kv =>
    match assoc_get kv key with
    | Some v => Ok v
    | None => Ok default
    end
  | _ => Raise AttributeError
  end.

(** The loops append to the list [symbols] in place: what was appended
    before an exception stays.  Both loops return the list next to their
    result. *)
Fixpoint collect_symbols (infos : list pyval) (symbols : list pyval)
    : res () * list pyval :=
  match infos with
  | [] => (Ok (), symbols)
  | symbol_info :: rest =>
    match py_get symbol_info "symbol" symbol_info with
    | Raise e => (Raise e, symbols)
    | Ok symbol =>
      let symbols :=
        if existsb (py_eq symbol) symbols then symbols else symbols ++ [symbol] in
      if decide (5 ≤ length symbols)%nat then (Ok (), symbols)
      else collect_symbols rest symbols
    end
  end.

Fixpoint scan_exchanges (items : list (string * pyval)) (symbols : list pyval)
    : res () * list pyval :=
  match items with
  | [] => (Ok (), symbols)
  | (exchange, symbol_list) :: rest =>
    match py_slice3 symbol_list with
    | Raise e => (Raise e, symbols)
    | Ok infos =>
      match collect_symbols infos symbols with
      | (Raise e, symbols) => (Raise e, symbols)
      | (Ok _, symbols) =>
        if decide (5 ≤ length symbols)%nat then (Ok (), symbols)
        else scan_exchanges rest symbols
      end
    end
  end.

(** The body of the [try] block. *)
Definition discovery_body (result : outcome) (symbols : list pyval)
    : res () * list pyval :=
  match
    (match content result with
     | Some c => json_loads c
     | None => Raise TypeError
     end)
  with
  | Raise e => (Raise e, symbols)
  | Ok data =>
    match py_contains "exchanges" data with
    | Raise e => (Raise e, symbols)
    | Ok false => (Ok (), symbols)
    | Ok true =>
      match (exchanges ← py_getitem data "exchanges"; py_items exchanges) with
      | Raise e => (Raise e, symbols)
      | Ok items => scan_exchanges items symbols
      end
    end
  end.

(** [except: pass] drops the exception and keeps the list. *)
Definition discover_symbols (result : outcome) : list pyval :=
  let symbols := [PStr "BTC-USD"] in
  if decide (status result = 200%Z) then (discovery_body result symbols).2
  else symbols.

(** Line 389, [', '.join(symbols)], raises [TypeError] unless every entry
    is a string: the code after it sees a list of strings. *)
Fixpoint str_items (symbols : list pyval) : res (list string) :=
  match symbols with
  | [] => Ok []
  | PStr s :: rest => rest' ← str_items rest; Ok (s :: rest')
  | _ :: _ => Raise TypeError
  end.

(** ** URL selection (lines 392-445) *)

(** [l[i]] for any integer index: a negative index counts from the end. *)
Definition py_index_Z {A} (l : list A) (i : Z) : res A :=
  if decide (i < 0)%Z then
    if decide (i + Z.of_nat (length l) < 0)%Z then Raise IndexError
    else py_index l (Z.to_nat (i + Z.of_nat (length l)))
  else py_index l (Z.to_nat i).

(** The data query of one symbol over the hour that ends at [now], the
    value of [int(datetime.now().timestamp())]. *)
Definition data_url (base_url symbol : string) (now : Z) (columns : string)
    : string :=
  let end_time := now in
  let start_time := (end_time - 3600)%Z in
  base_url +:+ "/api/data?" +:+
  "symbol=" +:+ symbol +:+ "&type=MD&" +:+
  "start=" +:+ pretty start_time +:+ "&end=" +:+ pretty end_time +:+ "&" +:+
  "columns=" +:+ columns.

Definition warmup_count (requests : Z) : Z := (10 `max` (50 `min` (requests `div` 10)))%Z.

(** The URL of warmup request [i]. *)
Definition warmup_url (base_url mode : string) (symbols : list string)
    (now : Z) (i : Z) : res string :=
  if decide (mode = "symbols" ∨ (mode = "mixed" ∧ i `mod` 2 = 0)%Z) then
    Ok (base_url +:+ "/api/symbols")
  else
    k ← py_mod i (Z.of_nat (length symbols));
    symbol ← py_index_Z symbols k;
    Ok (data_url base_url symbol now "time,best_bid").

(** The URL that [worker(request_id)] hands to [make_request]. *)
Definition worker_url (base_url mode : string) (symbols : list string)
    (now : Z) (request_id : Z) : res string :=
  if decide (mode = "symbols") then
    Ok (base_url +:+ "/api/symbols")
  else if decide (mode = "api") then
    if decide (request_id `mod` 2 = 0)%Z then Ok (base_url +:+ "/api/symbols")
    else Ok (base_url +:+ "/api/status")
  else if decide (mode = "data") then
    k ← py_mod request_id (Z.of_nat (length symbols));
    symbol ← py_index_Z symbols k;
    Ok (data_url base_url symbol now "time,best_bid,best_ask")
  else
    let endpoint_choice := (request_id `mod` 3)%Z in
    if decide (endpoint_choice = 0)%Z then Ok (base_url +:+ "/api/symbols")
    else if decide (endpoint_choice = 1)%Z then Ok (base_url +:+ "/api/status")
    else
      k ← py_mod request_id (Z.of_nat (length symbols));
      symbol ← py_index_Z symbols k;
      Ok (data_url base_url symbol now "time,best_bid").

(** Discovery, the [join] of line 389, then the URL of every warmup and
    every timed request. *)
Definition benchmark_urls (base_url mode : string) (discovery : outcome)
    (now : Z) (requests : Z) : res (list string * list string) :=
  symbols ← str_items (discover_symbols discovery);
  warm ← mapM (warmup_url base_url mode symbols now)
              (seqZ 0 (warmup_count requests));
  timed ← mapM (worker_url base_url mode symbols now) (seqZ 0 requests);
  Ok (warm, timed).

(** ** The projection stored by [save_results] (lines 523-528) *)

(** [(d.get('successful', 0) / d.get('total_requests', 1) * 100)
     if 'error' not in d else 0], as written at lines 527 and 623. *)
Definition success_rate (d : gmap string pyval) : res Qc :=
  if decide (d !! "error" = None) then
    a ← as_number (dict_get d "successful" (PNum 0));
    b ← as_number (dict_get d "total_requests" (PNum 1));
    q ← py_truediv a b;
    Ok (q * Qc_of_Z 100)
  else Ok 0.

Definition performance_summary (perf_stats : gmap string pyval)
    : res (gmap string pyval) :=
  rate ← success_rate perf_stats;
  Ok (<["p99_latency_ms" := dict_get perf_stats "latency_p99" (PNum (Qc_of_Z (-1)))]>
      (<["mean_latency_ms" := dict_get perf_stats "latency_mean" (PNum (Qc_of_Z (-1)))]>
      (<["requests_per_sec" := dict_get perf_stats "requests_per_sec" (PNum 0)]>
      (<["success_rate" := PNum rate]> ∅)))).

(** ** The comparator [_compare_with_file] (lines 589-657) *)

Inductive flag := Improved | Worse | Unchanged.
Inductive arrow := Down | Up | Flat.
Inductive verdict := Regression | Improvement | Similar.

Record metric_line := {
  line_symbol : flag;
  line_name : string;
  line_prev : Qc;
  line_unit : string;
  line_curr : Qc;
  line_arrow : arrow;
  line_change : Qc
}.

(** name, key, unit, lower is better *)
Definition metrics : list (string * string * string * bool) :=
  [ ("P99 Latency", "latency_p99", "ms", true);
    ("Mean Latency", "latency_mean", "ms", true);
    ("Requests/sec", "requests_per_sec", "", false);
    ("Success Rate", "successful", "%", false) ].

(** [v > 0] *)
Definition py_gt0 (v : pyval) : res bool :=
  q ← as_number v; Ok (bool_decide (0 < q)).

(** The two values the loop reads for one metric (lines 620-626). *)
Definition metric_values (prev_perf curr_perf : gmap string pyval)
    (key : string) : res (pyval * pyval) :=
  if decide (key = "successful") then
    let prev_val := dict_get prev_perf "success_rate" (PNum 0) in
    curr_val ← success_rate curr_perf;
    Ok (prev_val, PNum curr_val)
  else
    let prev_val :=
      if decide (key ∈ ["requests_per_sec"]) then dict_get prev_perf key (PNum 0)
      else dict_get prev_perf (key +:+ "_ms") (dict_get prev_perf key (PNum 0)) in
    let curr_val := dict_get curr_perf key (PNum 0) in
    Ok (prev_val, curr_val).

(** One turn of the loop: [None] when the metric is skipped. *)
Definition compare_metric (prev_perf curr_perf : gmap string pyval)
    (is_baseline : bool) (m : string * string * string * bool)
    : res (option metric_line) :=
  let '(name, key, unit, lower_is_better) := m in
  vals ← metric_values prev_perf curr_perf key;
  let '(prev_val, curr_val) := vals in
  prev_pos ← py_gt0 prev_val;
  if (prev_pos : bool) then
    curr_pos ← py_gt0 curr_val;
    if (curr_pos : bool) then
      p ← as_number prev_val;
      c ← as_number curr_val;
      q ← py_truediv (c - p) p;
      let change := q * Qc_of_Z 100 in
      let improved :=
        if lower_is_better then bool_decide (change < 0)
        else bool_decide (0 < change) in
      let threshold := if is_baseline then Qc_of_Z 3 else Qc_of_Z 5 in
      let symbol :=
        if improved then Improved
        else if decide (threshold < Qcabs.Qcabs change) then Worse else Unchanged in
      let arrow :=
        if decide (change < 0) then Down
        else if decide (0 < change) then Up else Flat in
      Ok (Some {| line_symbol := symbol; line_name := name;
                  line_prev := p; line_unit := unit; line_curr := c;
                  line_arrow := arrow; line_change := change |})
    else Ok None
  else Ok None.

(** [((curr.get(ck, 0) - prev.get(pk, 0)) / prev.get(pk, 1) * 100)
     if prev.get(pk, 0) > 0 else 0] (lines 646-647) *)
Definition baseline_change (prev_perf curr_perf : gmap string pyval)
    (ck pk : string) : res Qc :=
  positive ← py_gt0 (dict_get prev_perf pk (PNum 0));
  if (positive : bool) then
    c ← as_number (dict_get curr_perf ck (PNum 0));
    p ← as_number (dict_get prev_perf pk (PNum 0));
    d ← as_number (dict_get prev_perf pk (PNum 1));
    q ← py_truediv (c - p) d;
    Ok (q * Qc_of_Z 100)
  else Ok 0.

Definition p99_change (prev_perf curr_perf : gmap string pyval) : res Qc :=
  baseline_change prev_perf curr_perf "latency_p99" "p99_latency_ms".

Definition rps_change (prev_perf curr_perf : gmap string pyval) : res Qc :=
  baseline_change prev_perf curr_perf "requests_per_sec" "requests_per_sec".

Definition verdict_of (p99_change rps_change : Qc) : verdict :=
  if decide (Qc_of_Z 10 < p99_change ∨ rps_change < Qc_of_Z (-10)) then Regression
  else if decide (p99_change < Qc_of_Z (-10) ∨ Qc_of_Z 10 < rps_change) then Improvement
  else Similar.

Record report := {
  report_lines : list metric_line;
  report_verdict : option verdict
}.

(** The body of the [try] block, after the file is read.  The printed
    lines are returned; the lines printed before an exception are not
    kept. *)
Definition compare_body (prev_perf curr_perf : gmap string pyval)
    (is_baseline : bool) : res report :=
  lines ← mapM (compare_metric prev_perf curr_perf is_baseline) metrics;
  v ← (if is_baseline then
         a ← p99_change prev_perf curr_perf;
         b ← rps_change prev_perf curr_perf;
         Ok (Some (verdict_of a b))
       else Ok None);
  Ok {| report_lines := omap id lines; report_verdict := v |}.

(** A decoded JSON object read as a dict; its keys are distinct. *)
Definition as_dict (v : pyval) : res (gmap string pyval) :=
  match v with
  | PDict kv => Ok (list_to_map kv)
  | _ => Raise AttributeError
  end.

(** [previous.get('performance_summary', {})] *)
Definition stored_summary (previous : pyval) : res (gmap string pyval) :=
  d ← as_dict previous;
  as_dict (dict_get d "performance_summary" (PDict [])).

(** [_compare_with_file]: [except Exception] turns any exception into a
    message, here [None]. *)
Definition compare_with_file (curr_perf : gmap string pyval)
    (compare_file : res pyval) (is_baseline : bool) : option report :=
  match
    (previous ← compare_file;
     prev_perf ← stored_summary previous;
     compare_body prev_perf curr_perf is_baseline)
  with
  | Ok r => Some r
  | Raise _ => None
  end.

(** ** Stored records and the compare-only branch of [main] (lines 914-980)

    The directory [results_dir] is given by the names of its files, a
    file by what [json.load] makes of it. *)

Definition str_le (a b : string) : Prop := String.leb a b = true.

Global Instance str_le_dec : RelDecision str_le.
Proof. intros a b. unfold str_le. apply _. Defined.

(** [fnmatch(name, "benchmark_*.json")] *)
Definition fnmatch_benchmark (name : string) : bool :=
  String.prefix "benchmark_" name &&
  String.prefix (String.rev ".json") (String.rev name) &&
  bool_decide (15 ≤ String.length name)%nat.

(** [glob.glob(f"{results_dir}/benchmark_*.json")] *)
Definition glob_benchmarks (results_dir : string) (listing : list string)
    : list string :=
  (λ name, results_dir +:+ "/" +:+ name) <$>
    filter (λ name, fnmatch_benchmark name = true) listing.

(** The records [compare_with_previous] compares with (lines 574-575). *)
Definition previous_files (results_dir : string) (listing : list string)
    (filename : string) : list string :=
  merge_sort str_le
    (filter (λ f, f ≠ filename ∧ is_substring "baseline" f = false)
            (glob_benchmarks results_dir listing)).

Record stored_run := {
  run_filename : string;
  run_timestamp : pyval;
  run_config : pyval;
  run_summary : pyval
}.

(** The body of the [try] in the loading loop (lines 934-942). *)
Definition load_run (fs : string → res pyval) (f : string) : res stored_run :=
  data ← fs f;
  timestamp ← py_getitem data "timestamp";
  config ← py_getitem data "test_configuration";
  summary ← py_getitem data "performance_summary";
  Ok {| run_filename := f; run_timestamp := timestamp;
        run_config := config; run_summary := summary |}.

(** [except: continue] skips a file that cannot be loaded. *)
Definition load_all (fs : string → res pyval) (files : list string)
    : list stored_run :=
  omap (λ f, match load_run fs f with Ok r => Some r | Raise _ => None end) files.

(** A value under a format with a width ([<8], [<6]). *)
Definition format_fill (v : pyval) : res pyval :=
  match v with
  | PStr _ | PNum _ | PBool _ => Ok v
  | _ => Raise TypeError
  end.

(** A value under a float format ([<10.2f]). *)
Definition format_float (v : pyval) : res Qc :=
  match v with
  | PStr _ => Raise ValueError
  | _ => as_number v
  end.

Record row := {
  row_mode : pyval;
  row_reqs : pyval;
  row_p99 : Qc;
  row_mean : Qc;
  row_rps : Qc
}.

(** One line of the table (lines 952-960); the text itself is not built. *)
Definition table_row (r : stored_run) : res row :=
  mode ← py_get (run_config r) "mode" (PStr "mixed");
  reqs ← py_get (run_config r) "requests" (PNum 0);
  p99 ← py_get (run_summary r) "p99_latency_ms" (PNum (Qc_of_Z (-1)));
  mean ← py_get (run_summary r) "mean_latency_ms" (PNum (Qc_of_Z (-1)));
  rps ← py_get (run_summary r) "requests_per_sec" (PNum 0);
  mode ← format_fill mode;
  reqs ← format_fill reqs;
  p99 ← format_float p99;
  mean ← format_float mean;
  rps ← format_float rps;
  Ok {| row_mode := mode; row_reqs := reqs;
        row_p99 := p99; row_mean := mean; row_rps := rps |}.

(** [((curr[k] - prev[k]) / prev[k] * 100) if prev[k] > 0 else 0] *)
Definition last_change (curr prev : pyval) (k : string) : res Qc :=
  pv ← py_getitem prev k;
  positive ← py_gt0 pv;
  if (positive : bool) then
    cv ← py_getitem curr k;
    c ← as_number cv;
    p ← as_number pv;
    q ← py_truediv (c - p) p;
    Ok (q * Qc_of_Z 100)
  else Ok 0.

Record last_vs_previous := {
  last_p99_change : Qc;
  last_p99_symbol : flag;
  last_rps_change : Qc;
  last_rps_symbol : flag
}.

(** What one compare-only run does: the code [sys.exit] is called with,
    whether the usage error was printed, the table and the comparison of
    the last two records. *)
Record compare_only_run := {
  exit_code : Z;
  usage_error : bool;
  table : list row;
  comparison : option last_vs_previous
}.

Definition compare_only (results_dir : string) (listing : list string)
    (fs : string → res pyval) : res compare_only_run :=
  let files := merge_sort str_le (glob_benchmarks results_dir listing) in
  if decide (length files < 2)%nat then
    Ok {| exit_code := 1; usage_error := true; table := []; comparison := None |}
  else
    let all_results := load_all fs (drop (length files - 5) files) in
    match all_results with
    | [] =>
      Ok {| exit_code := 0; usage_error := false; table := []; comparison := None |}
    | _ :: _ =>
      rows ← mapM table_row all_results;
      cmp ← (if decide (2 ≤ length all_results)%nat then
               last ← py_index_Z all_results (-1);
               before ← py_index_Z all_results (-2);
               let curr := run_summary last in
               let prev := run_summary before in
               p99_change ← last_change curr prev "p99_latency_ms";
               rps_change ← last_change curr prev "requests_per_sec";
               let p99_symbol :=
                 if decide (p99_change < 0) then Improved
                 else if decide (Qc_of_Z 5 < p99_change) then Worse else Unchanged in
               let rps_symbol :=
                 if decide (0 < rps_change) then Improved
                 else if decide (rps_change < Qc_of_Z (-5)) then Worse else Unchanged in
               Ok (Some {| last_p99_change := p99_change;
                           last_p99_symbol := p99_symbol;
                           last_rps_change := rps_change;
                           last_rps_symbol := rps_symbol |})
             else Ok None);
      Ok {| exit_code := 0; usage_error := false; table := rows; comparison := cmp |}
    end.

(** ** The functional test [test_error_handling] (lines 325-352) *)

(** The lists of [self.test_results] that the functional tests append to,
    and the mode that [performance_benchmark] records. *)
Record test_results := {
  passed : list string;
  failed : list string;
  test_mode : option string
}.

(** name, url, expected status *)
Definition error_test_cases (base_url : string) : list (string * string * Z) :=
  [ ("Invalid endpoint", base_url +:+ "/api/invalid", 404%Z);
    ("Missing symbol", base_url +:+ "/api/data?type=MD&start=1&end=2", 400%Z);
    ("Invalid time range",
     base_url +:+ "/api/data?symbol=TEST&type=MD&start=2&end=1", 400%Z) ].

(** The loop over the test cases, with [all_passed] and the lists it
    appends to. *)
Fixpoint run_error_cases (w : world) (cases : list (string * string * Z))
    (all_passed : bool) (tr : test_results)
    : result urlopen_exc (bool * test_results) :=
  match cases with
  | [] => Ok (all_passed, tr)
  | (test_name, url, expected_status) :: rest =>
    result ← make_request w url 5;
    if decide (status result = expected_status ∨
               (status result = 0%Z ∧ expected_status = 400%Z)) then
      run_error_cases w rest all_passed
        {| passed := passed tr ++ ["error_handling_" +:+ test_name];
           failed := failed tr;
           test_mode := test_mode tr |}
    else
      run_error_cases w rest false
        {| passed := passed tr;
           failed := failed tr ++ ["error_handling_" +:+ test_name];
           test_mode := test_mode tr |}
  end.

Definition test_error_handling (w : world) (base_url : string)
    (tr : test_results) : result urlopen_exc (bool * test_results) :=
  run_error_cases w (error_test_cases base_url) true tr.

(** ** The brace scan of [test_data_endpoint] (lines 178-192)

    The search for the end of the JSON header in the decoded body; the
    characters of the text are taken as 8-bit characters, the scan only
    compares them with the quote, the backslash and the two braces.
    [prev] is [text[i-1]], absent at index 0; the result is [json_end],
    [None] standing for -1.  The character 034 is the double quote. *)
Fixpoint find_json_end (text : string) (i : nat) (prev : option ascii)
    (brace_count : Z) (in_string : bool) : option nat :=
  match text with
  | EmptyString => None
  | String char rest =>
    if decide (char = "034"%char ∧ prev ≠ Some "\"%char) then
      find_json_end rest (S i) (Some char) brace_count (negb in_string)
    else if negb in_string then
      if decide (char = "{"%char) then
        find_json_end rest (S i) (Some char) (brace_count + 1) in_string
      else if decide (char = "}"%char) then
        if decide (brace_count - 1 = 0)%Z then Some i
        else find_json_end rest (S i) (Some char) (brace_count - 1) in_string
      else find_json_end rest (S i) (Some char) brace_count in_string
    else find_json_end rest (S i) (Some char) brace_count in_string
  end.

Definition json_end (text : string) : option nat :=
  find_json_end text 0 None 0 false.

(** ** The requirement check of [print_results] (lines 747-806) *)

(** A requirement: metric, threshold, name and the optional third
    component "lower is better". *)
Definition requirements (mode : option string)
    : list (string * (Qc * string * option bool)) :=
  if decide (default "data" mode = "data") then
    [ ("requests_per_sec", (Qc_of_Z 1500, "Requests/sec", None));
      ("latency_p99", (Qc_of_Z 9, "P99 latency (ms)", Some true));
      ("latency_p95", (Qc_of_Z 8, "P95 latency (ms)", Some true));
      ("latency_p90", (Qc_of_Z 7, "P90 latency (ms)", Some true));
      ("latency_mean", (Qc_of_Z 5, "Mean latency (ms)", Some true));
      ("latency_max", (Qc_of_Z 10, "Max latency (ms)", Some true));
      ("latency_stdev", (Qc_of_Z 3, "StdDev (ms)", Some true)) ]
  else if decide (default "mixed" mode = "mixed") then
    [ ("latency_p99", (Qc_of_Z 100, "P99 latency (ms)", Some true));
      ("latency_p95", (Qc_of_Z 50, "P95 latency (ms)", Some true));
      ("latency_mean", (Qc_of_Z 20, "Mean latency (ms)", Some true)) ]
  else if decide (default "api" mode = "api") then
    [ ("latency_p99", (Qc_of_Z 100, "P99 latency (ms)", Some true));
      ("latency_p95", (Qc_of_Z 50, "P95 latency (ms)", Some true));
      ("latency_p90", (Qc_of_Z 30, "P90 latency (ms)", Some true));
      ("latency_mean", (Qc_of_Z 15, "Mean latency (ms)", Some true));
      ("latency_max", (Qc_of_Z 200, "Max latency (ms)", Some true)) ]
  else
    [ ("latency_p99", (Qc_of_Z 10000, "P99 latency", Some true)) ].

(** An entry of [perf_issues]; the text of the entry is not built. *)
Record perf_issue := {
  issue_name : string;
  issue_value : Qc;
  issue_threshold : Qc;
  issue_above : bool
}.

(** One turn of the loop over the requirements. *)
Definition check_requirement (perf_stats : gmap string pyval)
    (r : string * (Qc * string * option bool)) : res (option perf_issue) :=
  let '(metric, (threshold, name, lower_better)) := r in
  value ← as_number (dict_get perf_stats metric (PNum 0));
  let is_lower_better := default false lower_better in
  if (is_lower_better : bool) then
    if decide (threshold < value) then
      Ok (Some {| issue_name := name; issue_value := value;
                  issue_threshold := threshold; issue_above := true |})
    else Ok None
  else
    if decide (value < threshold) then
      Ok (Some {| issue_name := name; issue_value := value;
                  issue_threshold := threshold; issue_above := false |})
    else Ok None.

(** [None] when the summary carries an error and nothing is checked,
    otherwise the list [perf_issues]. *)
Definition performance_check (tr : test_results)
    (perf_stats : gmap string pyval) : res (option (list perf_issue)) :=
  if decide (perf_stats !! "error" = None) then
    let reqs := requirements (test_mode tr) in
    a ← as_number (dict_get perf_stats "successful" (PNum 0));
    b ← as_number (dict_get perf_stats "total_requests" (PNum 1));
    q ← py_truediv a b;
    let success_rate := q * Qc_of_Z 100 in
    let reqs :=
      if decide (success_rate < Qc_of_Z 100) then
        reqs ++ [("success_rate", (Qc_of_Z 100, "Success rate %", None))]
      else reqs in
    issues ← mapM (check_requirement perf_stats) reqs;
    Ok (Some (omap id issues))
  else Ok None.

(** ** The record written by [save_results] (lines 511-536)

    The two renderings of the clock, [stamp] for the file name and
    [timestamp] for the record, are inputs.  A dict is written with its
    entries in the order of [map_to_list]; no reader depends on it. *)
Definition save_record (base_url : string) (tr : test_results)
    (timestamp : string) (perf_stats test_config : gmap string pyval)
    : res pyval :=
  summary ← performance_summary perf_stats;
  Ok (PDict
    [ ("timestamp", PStr timestamp);
      ("server_url", PStr base_url);
      ("test_configuration", PDict (map_to_list test_config));
      ("functional_tests",
       PDict [ ("passed", PNum (Qc_of_nat (length (passed tr))));
               ("failed", PNum (Qc_of_nat (length (failed tr))));
               ("passed_tests", PList (PStr <$> passed tr));
               ("failed_tests", PList (PStr <$> failed tr)) ]);
      ("performance_metrics",
       if decide (perf_stats !! "error" = None) then PDict (map_to_list perf_stats)
       else PDict [("error", dict_get perf_stats "error" (PStr "Unknown error"))]);
      ("performance_summary", PDict (map_to_list summary)) ]).

(** The file name of the record and the file system after the write. *)
Definition save_results (results_dir stamp : string) (record : pyval)
    (fs : string → res pyval) : string * (string → res pyval) :=
  let filename := results_dir +:+ "/benchmark_" +:+ stamp +:+ ".json" in
  (filename, λ f, if decide (f = filename) then Ok record else fs f).

(** ** The historical trend [_show_historical_trend] (lines 659-683)

    A point keeps the file it comes from in place of the label cut out of
    the file name.  The bars printed from the points (lines 685-698) are
    floating-point arithmetic and are left out. *)
Record trends := {
  p99_trend : list (string * Qc);
  rps_trend : list (string * Qc)
}.

(** The body of the [try] for one file; [except: continue] keeps what was
    appended before the exception. *)
Definition trend_point (fs : string → res pyval) (t : trends) (file : string)
    : trends :=
  match
    (data ← fs file;
     perf ← py_get data "performance_summary" (PDict []);
     p99 ← py_get perf "p99_latency_ms" (PNum (Qc_of_Z (-1)));
     rps ← py_get perf "requests_per_sec" (PNum 0);
     Ok (p99, rps))
  with
  | Raise _ => t
  | Ok (p99, rps) =>
    match as_number p99 with
    | Raise _ => t
    | Ok p =>
      let t :=
        if decide (0 < p) then
          {| p99_trend := p99_trend t ++ [(file, p)]; rps_trend := rps_trend t |}
        else t in
      match as_number rps with
      | Raise _ => t
      | Ok r =>
        if decide (0 < r) then
          {| p99_trend := p99_trend t; rps_trend := rps_trend t ++ [(file, r)] |}
        else t
      end
    end
  end.

Definition collect_trends (fs : string → res pyval)
    (previous_files : list string) (current_file : string) : trends :=
  let recent_files :=
    drop (length previous_files - 4) previous_files ++ [current_file] in
  foldl (trend_point fs) {| p99_trend := []; rps_trend := [] |} recent_files.

(** ** [compare_with_previous] (lines 538-587)

    [exists] answers [os.path.exists]; [listing] gives the names of the
    files of a directory. *)
Record comparisons := {
  baseline_file : option string;
  baseline_report : option report;
  latest_previous : option string;
  previous_report : option report;
  trend : option trends
}.

Definition compare_with_previous (exists_ : string → bool)
    (listing : string → list string) (fs : string → res pyval)
    (current_stats : gmap string pyval) (filename : string) : comparisons :=
  let results_dir :=
    if exists_ "server/benchmark_results" then "server/benchmark_results"
    else "benchmark_results" in
  let baseline_locations :=
    [ results_dir +:+ "/benchmark_baseline.json";
      "benchmark_baseline.json";
      "server/benchmark_baseline.json" ] in
  let found := head (filter (λ location, exists_ location = true)
                            baseline_locations) in
  let from_baseline :=
    match found with
    | Some baseline => compare_with_file current_stats (fs baseline) true
    | None => None
    end in
  let previous := previous_files results_dir (listing results_dir) filename in
  match last previous with
  | None =>
    {| baseline_file := found; baseline_report := from_baseline;
       latest_previous := None; previous_report := None; trend := None |}
  | Some latest =>
    {| baseline_file := found; baseline_report := from_baseline;
       latest_previous := Some latest;
       previous_report := compare_with_file current_stats (fs latest) false;
       trend := Some (collect_trends fs previous filename) |}
  end.

(** ** Notions of the specification *)

(** The latencies of the successful outcomes, in completion order. *)
Definition successful_latencies (results : list outcome) : list Qc :=
  latency_ms <$> filter (λ r, status r = 200%Z) results.

(** Nearest-rank percentile: the value at index [floor (n * p / 100)] of
    the ascending list, the index clamped to [n - 1]. *)
Definition nearest_rank (l : list Qc) (p : nat) : option Qc :=
  let s := merge_sort Qcle l in
  let n := length s in
  s !! ((n * p / 100) `min` (n - 1))%nat.

(** The exception that ends the transport of one request, if any. *)
Definition transport_failure (w : world) (url : string) (timeout : Z)
    : option urlopen_exc :=
  match urlopen w url timeout with
  | Raise e => Some e
  | Ok response =>
    match read response with
    | Raise e => Some e
    | Ok _ => None
    end
  end.

(** The endpoints of the service and their URLs. *)
Inductive endpoint :=
  | Symbols
  | Status
  | Data (symbol : string).

Definition endpoint_url (base_url : string) (now : Z) (columns : string)
    (e : endpoint) : string :=
  match e with
  | Symbols => base_url +:+ "/api/symbols"
  | Status => base_url +:+ "/api/status"
  | Data symbol => data_url base_url symbol now columns
  end.

(** Mixed mode as the specification words it: the index modulo 3 picks
    the endpoint, the index modulo the number of symbols the symbol. *)
Definition mixed_route (symbols : list string) (i : Z) : option endpoint :=
  if decide (i `mod` 3 = 0)%Z then Some Symbols
  else if decide (i `mod` 3 = 1)%Z then Some Status
  else Data <$> symbols !! Z.to_nat (i `mod` Z.of_nat (length symbols)).

(** The check that [test_symbols_endpoint] makes on every exchange
    (lines 99-108): a symbol list that is not empty starts with a string. *)
Definition symbols_test_accepts (exchanges : list (string * pyval)) : bool :=
  forallb (λ p : string * pyval,
    match p.2 with
    | PList (PStr _ :: _) => true
    | PList (_ :: _) => false
    | _ => true
    end) exchanges.

(** The current format of a symbol list: a list of plain strings. *)
Definition string_list (v : pyval) : Prop :=
  ∃ names : list string, v = PList (PStr <$> names).

(** Discovery that fails or meets no entry at all: a status other than
    200, a body that does not decode, a document without a usable
    ["exchanges"] dict, or exchanges whose lists are empty.  An answer
    whose lists hold entries that are not usable is not among these cases;
    [unusable_entry_kept] says what the code does with it. *)
Inductive finds_no_entry (result : outcome) : Prop :=
  | bad_status :
      status result ≠ 200%Z → finds_no_entry result
  | no_body :
      content result = None → finds_no_entry result
  | bad_json c e :
      content result = Some c → json_loads c = Raise e →
      finds_no_entry result
  | no_exchanges c data :
      content result = Some c → json_loads c = Ok data →
      py_contains "exchanges" data ≠ Ok true →
      finds_no_entry result
  | bad_exchanges c data e :
      content result = Some c → json_loads c = Ok data →
      (exchanges ← py_getitem data "exchanges"; py_items exchanges) = Raise e →
      finds_no_entry result
  | no_symbols c data items :
      content result = Some c → json_loads c = Ok data →
      (exchanges ← py_getitem data "exchanges"; py_items exchanges) = Ok items →
      Forall (λ p : string * pyval, p.2 = PList []) items →
      finds_no_entry result.

(** A computation that does not end in [ZeroDivisionError]. *)
Definition no_zero_division {A} (r : res A) : Prop :=
  r ≠ Raise ZeroDivisionError.

(** What [save_results] stores for a run without a success. *)
Definition degraded_projection : gmap string pyval :=
  <["p99_latency_ms" := PNum (Qc_of_Z (-1))]>
  (<["mean_latency_ms" := PNum (Qc_of_Z (-1))]>
  (<["requests_per_sec" := PNum 0]>
  (<["success_rate" := PNum 0]> ∅))).

(** The example of the specification: a baseline with p99 10 and 1000
    requests per second, a run with p99 12 and 950 requests per second. *)
Definition baseline_example : gmap string pyval :=
  <["p99_latency_ms" := PNum (Qc_of_Z 10)]>
  (<["requests_per_sec" := PNum (Qc_of_Z 1000)]> ∅).

Definition current_example : gmap string pyval :=
  <["latency_p99" := PNum (Qc_of_Z 12)]>
  (<["requests_per_sec" := PNum (Qc_of_Z 950)]> ∅).

(** The stored records of a results directory: the benchmark files other
    than the baseline. *)
Definition stored_records (results_dir : string) (listing : list string)
    : list string :=
  filter (λ f, is_substring "baseline" f = false)
         (glob_benchmarks results_dir listing).

(** A results directory with one record and the baseline. *)
Definition example_listing : list string :=
  ["benchmark_20240101_120000.json"; "benchmark_baseline.json"].

Definition example_file (p99 mean rps : Z) : pyval :=
  PDict [("timestamp", PStr "2024-01-01T12:00:00");
         ("test_configuration",
          PDict [("connections", PNum (Qc_of_Z 20));
                 ("requests", PNum (Qc_of_Z 2000));
                 ("mode", PStr "data")]);
         ("performance_summary",
          PDict [("p99_latency_ms", PNum (Qc_of_Z p99));
                 ("mean_latency_ms", PNum (Qc_of_Z mean));
                 ("requests_per_sec", PNum (Qc_of_Z rps));
                 ("success_rate", PNum (Qc_of_Z 100))])].

Definition example_fs (f : string) : res pyval :=
  if decide (f = "benchmark_results/benchmark_20240101_120000.json") then
    Ok (example_file 12 5 950)
  else if decide (f = "benchmark_results/benchmark_baseline.json") then
    Ok (example_file 10 4 1000)
  else Raise OSError.


(** No entry of the list is equal, for [==], to an entry before it. *)
Definition pairwise_unequal (l : list pyval) : Prop :=
  ∀ i j x y, (i < j)%nat → l !! i = Some x → l !! j = Some y →
             py_eq y x = false.

(** A trend of at most [n] points, all of them positive. *)
Definition trend_within (n : nat) (trend : list (string * Qc)) : Prop :=
  (length trend ≤ n)%nat ∧ Forall (λ point : string * Qc, 0 < point.2) trend.

(** The number a record file stores under [key] of its performance
    summary, [default] when the key is absent; an exception when the file
    cannot be read or does not hold a number there. *)
Definition stored_metric (fs : string → res pyval) (file key : string)
    (default : pyval) : res Qc :=
  data ← fs file;
  perf ← py_get data "performance_summary" (PDict []);
  v ← py_get perf key default;
  as_number v.

(** The point a file gives to the p99 trend: its stored p99 when that is
    a positive number. *)
Definition p99_point (fs : string → res pyval) (file : string)
    : option (string * Qc) :=
  match stored_metric fs file "p99_latency_ms" (PNum (Qc_of_Z (-1))) with
  | Ok p => if decide (0 < p) then Some (file, p) else None
  | Raise _ => None
  end.

(** The point a file gives to the throughput trend: its stored requests
    per second when that is a positive number and the stored p99 is a
    number. *)
Definition rps_point (fs : string → res pyval) (file : string)
    : option (string * Qc) :=
  match stored_metric fs file "p99_latency_ms" (PNum (Qc_of_Z (-1))),
        stored_metric fs file "requests_per_sec" (PNum 0) with
  | Ok _, Ok r => if decide (0 < r) then Some (file, r) else None
  | _, _ => None
  end.

(** A transport that raises instances of [Exception] only, whatever the
    url, for requests with the given timeout. *)
Definition exceptions_only (w : world) (timeout : Z) : Prop :=
  ∀ url, transport_failure w url timeout ≠ Some NotAnException.

(** A server that cannot be reached: every [urlopen] raises. *)
Definition unreachable (w : world) : Prop :=
  ∀ url timeout, ∃ message, urlopen w url timeout = Raise (OtherException message).

(** The line of a metric whose two values are both [v]. *)
Definition unchanged_line (name unit : string) (v : Qc) : metric_line :=
  {| line_symbol := Unchanged; line_name := name; line_prev := v;
     line_unit := unit; line_curr := v; line_arrow := Flat; line_change := 0 |}.

(** ** Concrete inputs *)

Definition outcome_of (code latency : Z) : outcome :=
  {| status := code; latency_ms := Qc_of_Z latency; bytes := 10;
     content := None; error := None |}.

(** Ten successes with the latencies 1..10, in completion order. *)
Definition ten_outcomes : list outcome :=
  outcome_of 200 <$> [3; 1; 2; 10; 9; 8; 7; 6; 5; 4]%Z.

(** A success, an error response and a transport failure. *)
Definition mixed_outcomes : list outcome :=
  [outcome_of 200 7; outcome_of 500 3; outcome_of 0 30000].

(** Failures only. *)
Definition failed_outcomes : list outcome :=
  [outcome_of 500 3; outcome_of 0 30000].

(** A network that refuses every connection; the clock moves by a second. *)
Definition refusing_world : world :=
  {| perf_counter_before := Qc_of_Z 5;
     perf_counter_after := Qc_of_Z 6;
     urlopen := λ _ _, Raise (OtherException "Connection refused") |}.

(** The symbols endpoint in its current format. *)
Definition strings_document : pyval :=
  PDict [("exchanges",
          PDict [("coinbase", PList (PStr <$> ["BTC-USD"; "ETH-USD"; "SOL-USD"]));
                 ("kraken", PList (PStr <$> ["XBT/USD"]))])].

Definition loads_strings (body : list Byte.byte) : res pyval :=
  Ok strings_document.

Definition loads_nothing (body : list Byte.byte) : res pyval :=
  Raise JSONDecodeError.

Definition never_equal (a b : pyval) : bool := false.

Definition identity_sqrt (x : Qc) : Qc := x.

Definition answer_200 : outcome :=
  {| status := 200; latency_ms := Qc_of_Z 4; bytes := 0;
     content := Some []; error := None |}.

(** The outcomes of [mixed_outcomes] in another completion order. *)
Definition swapped_outcomes : list outcome :=
  [outcome_of 500 3; outcome_of 200 7; outcome_of 0 30000].

(** The test results before the first test, in data mode. *)
Definition fresh_results : test_results :=
  {| passed := []; failed := []; test_mode := Some "data" |}.

(** A header whose only value is a string that holds a closing brace,
    five characters long. *)
Definition quoted_brace : string :=
  String "{" (String "034" (String "}" (String "034" (String "}" EmptyString)))).

(** The summary of a run of 2000 requests, all successful, with p99 12,
    mean 5 and 950 requests per second. *)
Definition example_run : gmap string pyval :=
  <["total_requests" := PNum (Qc_of_Z 2000)]>
  (<["successful" := PNum (Qc_of_Z 2000)]>
  (<["requests_per_sec" := PNum (Qc_of_Z 950)]>
  (<["latency_mean" := PNum (Qc_of_Z 5)]>
  (<["latency_p99" := PNum (Qc_of_Z 12)]> ∅)))).

(** An answer of the symbols endpoint whose only entry is an object
    without a ['symbol']. *)
Definition unusable_document : pyval :=
  PDict [("exchanges", PDict [("coinbase", PList [PDict [("id", PStr "x")]])])].

Definition loads_unusable (body : list Byte.byte) : res pyval :=
  Ok unusable_document.

(** * Properties *)

(** ** Lists, sorting, minimum and maximum *)

Lemma py_index_lt {A} (l : list A) (i : nat) :
  (i < length l)%nat → ∃ x, py_index l i = Ok x ∧ l !! i = Some x.
Proof.
  intros Hi. destruct (lookup_lt_is_Some_2 l i Hi) as [x Hx].
  exists x. unfold py_index. by rewrite Hx.
Qed.

Lemma length_sorted (l : list Qc) : length (sorted l) = length l.
Proof. unfold sorted. by rewrite merge_sort_Permutation. Qed.

Lemma sorted_StronglySorted (l : list Qc) : StronglySorted Qcle (sorted l).
Proof. apply StronglySorted_merge_sort; apply _. Qed.

Lemma StronglySorted_lookup_le (s : list Qc) (i j : nat) (a b : Qc) :
  StronglySorted Qcle s → (i ≤ j)%nat →
  s !! i = Some a → s !! j = Some b → a ≤ b.
Proof.
  intros Hs. revert i j. induction Hs as [|x s Hs IH Hx]; intros i j Hij Hi Hj.
  - by rewrite lookup_nil in Hi.
  - destruct i as [|i], j as [|j]; simpl in *.
    + simplify_eq. apply Qcle_refl.
    + simplify_eq. rewrite Forall_forall in Hx. apply Hx.
      by eapply list_elem_of_lookup_2.
    + lia.
    + eapply IH; [|done..]. lia.
Qed.

Lemma foldl_min_le (xs : list Qc) (m : Qc) :
  let r := foldl (λ m y, if decide (y < m) then y else m) m xs in
  r ≤ m ∧ ∀ y, y ∈ xs → r ≤ y.
Proof.
  revert m. induction xs as [|a xs IH]; intros m; simpl.
  - split; [apply Qcle_refl|]. intros y Hy. by apply elem_of_nil in Hy.
  - destruct (IH (if decide (a < m) then a else m)) as [H1 H2].
    assert ((if decide (a < m) then a else m) ≤ m ∧
            (if decide (a < m) then a else m) ≤ a) as [Hm Ha].
    { case_decide; split; try apply Qcle_refl.
      - by apply Qclt_le_weak.
      - by apply Qcnot_lt_le. }
    split; [by eapply Qcle_trans|].
    intros y [->|Hy]%elem_of_cons; [by eapply Qcle_trans|by apply H2].
Qed.

Lemma foldl_max_ge (xs : list Qc) (m : Qc) :
  let r := foldl (λ m y, if decide (m < y) then y else m) m xs in
  m ≤ r ∧ ∀ y, y ∈ xs → y ≤ r.
Proof.
  revert m. induction xs as [|a xs IH]; intros m; simpl.
  - split; [apply Qcle_refl|]. intros y Hy. by apply elem_of_nil in Hy.
  - destruct (IH (if decide (m < a) then a else m)) as [H1 H2].
    assert (m ≤ (if decide (m < a) then a else m) ∧
            a ≤ (if decide (m < a) then a else m)) as [Hm Ha].
    { case_decide; split; try apply Qcle_refl.
      - by apply Qclt_le_weak.
      - by apply Qcnot_lt_le. }
    split; [by eapply Qcle_trans|].
    intros y [->|Hy]%elem_of_cons; [by eapply Qcle_trans|by apply H2].
Qed.

Lemma py_min_le (l : list Qc) (m y : Qc) : py_min l = Ok m → y ∈ l → m ≤ y.
Proof.
  destruct l as [|x xs]; [done|]. simpl. intros [= <-] Hy.
  destruct (foldl_min_le xs x) as [H1 H2].
  apply elem_of_cons in Hy as [->|Hy]; auto.
Qed.

Lemma py_max_ge (l : list Qc) (m y : Qc) : py_max l = Ok m → y ∈ l → y ≤ m.
Proof.
  destruct l as [|x xs]; [done|]. simpl. intros [= <-] Hy.
  destruct (foldl_max_ge xs x) as [H1 H2].
  apply elem_of_cons in Hy as [->|Hy]; auto.
Qed.

(** ** The analysis returns a summary *)

Lemma py_truediv_ok (a b : Qc) : b ≠ 0 → py_truediv a b = Ok (a / b).
Proof. intros Hb. unfold py_truediv. by case_decide. Qed.

Lemma bind_Ok {E A B} (a : A) (f : A → result E B) : (Ok a ≫= f) = f a.
Proof. reflexivity. Qed.

Lemma bind_Ok_inv {E A B} (m : result E A) (f : A → result E B) (b : B) :
  m ≫= f = Ok b → ∃ a, m = Ok a ∧ f a = Ok b.
Proof. destruct m as [a|e]; [|done]. intros H. by exists a. Qed.

Lemma bind_Raise {E A B} (e : E) (f : A → result E B) :
  (Raise e ≫= f) = Raise e.
Proof. reflexivity. Qed.

Lemma py_min_ok (l : list Qc) : l ≠ [] → ∃ m, py_min l = Ok m.
Proof. destruct l; [done|]. by eexists. Qed.

Lemma py_max_ok (l : list Qc) : l ≠ [] → ∃ m, py_max l = Ok m.
Proof. destruct l; [done|]. by eexists. Qed.

Lemma statistics_mean_ok (l : list Qc) : l ≠ [] → ∃ m, statistics_mean l = Ok m.
Proof. destruct l; [done|]. by eexists. Qed.

Lemma statistics_median_ok (l : list Qc) :
  l ≠ [] → ∃ m, statistics_median l = Ok m.
Proof.
  intros Hl. unfold statistics_median.
  assert (0 < length (sorted l))%nat as Hn.
  { rewrite length_sorted. destruct l; [done|simpl; lia]. }
  set (s := sorted l) in *. set (n := length s) in *.
  case_decide; [lia|]. case_decide.
  - destruct (py_index_lt s (n / 2)) as (m & -> & _); [|by eexists].
    apply Nat.div_lt; lia.
  - destruct (py_index_lt s (n / 2 - 1)) as (a & -> & _).
    { pose proof (Nat.div_lt n 2). lia. }
    destruct (py_index_lt s (n / 2)) as (b & -> & _).
    { apply Nat.div_lt; lia. }
    by eexists.
Qed.

Lemma statistics_stdev_ok (l : list Qc) :
  (1 < length l)%nat → ∃ sd, statistics_stdev l = Ok sd.
Proof.
  intros Hl. unfold statistics_stdev, statistics_variance.
  case_decide; [lia|]. by eexists.
Qed.

Lemma percentile_index_lt (n p : nat) :
  (0 < n)%nat → ((n * p / 100) `min` (n - 1) < n)%nat.
Proof. lia. Qed.

Lemma percentile_index_mono (n p q : nat) :
  (p ≤ q)%nat →
  ((n * p / 100) `min` (n - 1) ≤ (n * q / 100) `min` (n - 1))%nat.
Proof.
  intros Hpq. apply Nat.min_le_compat_r, Nat.Div0.div_le_mono.
  by apply Nat.mul_le_mono_l.
Qed.

Lemma p50_index_clamped (n : nat) :
  (0 < n)%nat → (n * 50 / 100 = (n * 50 / 100) `min` (n - 1))%nat.
Proof.
  intros Hn. assert (n * 50 / 100 < n)%nat; [|lia].
  apply Nat.Div0.div_lt_upper_bound. lia.
Qed.

(** With a non-zero elapsed time and one success at least, every step of
    the analysis returns and the summary holds what the steps computed. *)
Lemma analyze_success (results : list outcome) (total_time : Qc) :
  total_time ≠ 0 → successful_latencies results ≠ [] →
  let lat := sorted (successful_latencies results) in
  let n := length lat in
  ∃ stats mn mx p50 p90 p95 p99,
    analyze results total_time = Ok stats ∧
    py_min lat = Ok mn ∧ py_max lat = Ok mx ∧
    lat !! ((n * 50 / 100) `min` (n - 1))%nat = Some p50 ∧
    lat !! ((n * 90 / 100) `min` (n - 1))%nat = Some p90 ∧
    lat !! ((n * 95 / 100) `min` (n - 1))%nat = Some p95 ∧
    lat !! ((n * 99 / 100) `min` (n - 1))%nat = Some p99 ∧
    stats !! "total_requests" = Some (PNum (Qc_of_nat (length results))) ∧
    stats !! "successful" =
      Some (PNum (Qc_of_nat (length (filter (λ r, status r = 200%Z) results)))) ∧
    stats !! "failed" =
      Some (PNum (Qc_of_nat (length (filter (λ r, status r ≠ 200%Z) results)))) ∧
    stats !! "requests_per_sec" =
      Some (PNum (Qc_of_nat (length results) / total_time)) ∧
    stats !! "latency_min" = Some (PNum mn) ∧
    stats !! "latency_max" = Some (PNum mx) ∧
    stats !! "latency_p50" = Some (PNum p50) ∧
    stats !! "latency_p90" = Some (PNum p90) ∧
    stats !! "latency_p95" = Some (PNum p95) ∧
    stats !! "latency_p99" = Some (PNum p99) ∧
    stats !! "error" = None.
Proof.
  intros Ht Hne lat n.
  assert (0 < n)%nat as Hn.
  { unfold n, lat. rewrite length_sorted.
    destruct (successful_latencies results); [done|simpl; lia]. }
  assert (lat ≠ []) as Hlne.
  { intros E. unfold n in Hn. rewrite E in Hn. simpl in Hn. lia. }
  destruct (py_min_ok lat Hlne) as [mn Hmn].
  destruct (py_max_ok lat Hlne) as [mx Hmx].
  destruct (statistics_mean_ok lat Hlne) as [mean Hmean].
  destruct (statistics_median_ok lat Hlne) as [med Hmed].
  destruct (py_index_lt lat _ (percentile_index_lt n 50 Hn)) as (p50 & E50 & H50).
  destruct (py_index_lt lat _ (percentile_index_lt n 90 Hn)) as (p90 & E90 & H90).
  destruct (py_index_lt lat _ (percentile_index_lt n 95 Hn)) as (p95 & E95 & H95).
  destruct (py_index_lt lat _ (percentile_index_lt n 99 Hn)) as (p99 & E99 & H99).
  rewrite <-(p50_index_clamped n Hn) in E50.
  assert (∃ sd, (if decide (1 < n)%nat then statistics_stdev lat else Ok 0)
                = Ok sd) as [sd Hsd].
  { case_decide; [by apply statistics_stdev_ok|by eexists]. }
  unfold analyze. cbv zeta.
  change (latency_ms <$> filter _ results) with (successful_latencies results).
  destruct (successful_latencies results) as [|x xs] eqn:Hlat; [done|].
  fold lat. fold n.
  rewrite !py_truediv_ok by done. rewrite !bind_Ok.
  rewrite Hmn, bind_Ok, Hmx, bind_Ok, Hmean, bind_Ok, Hmed, bind_Ok.
  rewrite E50, bind_Ok, E90, bind_Ok, E95, bind_Ok, E99, bind_Ok, Hsd, bind_Ok.
  eexists _, mn, mx, p50, p90, p95, p99.
  split; [reflexivity|].
  repeat split; try done.
Qed.

(** ** The statistics engine *)

(** C1: with at least one success (and a non-zero elapsed time, without
    which no summary is produced), the summary's p50, p90, p95 and p99 are
    the nearest-rank percentiles of the successful latencies: the element
    of the ascending list at index [floor (n * p / 100)] clamped to
    [n - 1].  When the ascending latencies are 1, 2, ..., 10, p90 is 10
    and p50 is 6. *)
Theorem percentile_at_rank (results : list outcome) (total_time : Qc) :
  total_time ≠ 0 → successful_latencies results ≠ [] →
  ∃ stats v50 v90 v95 v99,
    analyze results total_time = Ok stats ∧
    nearest_rank (successful_latencies results) 50 = Some v50 ∧
    nearest_rank (successful_latencies results) 90 = Some v90 ∧
    nearest_rank (successful_latencies results) 95 = Some v95 ∧
    nearest_rank (successful_latencies results) 99 = Some v99 ∧
    stats !! "latency_p50" = Some (PNum v50) ∧
    stats !! "latency_p90" = Some (PNum v90) ∧
    stats !! "latency_p95" = Some (PNum v95) ∧
    stats !! "latency_p99" = Some (PNum v99) ∧
    (sorted (successful_latencies results)
       = Qc_of_Z <$> [1; 2; 3; 4; 5; 6; 7; 8; 9; 10]%Z →
     v90 = Qc_of_Z 10 ∧ v50 = Qc_of_Z 6).
Proof.
  intros Ht Hne.
  destruct (analyze_success results total_time Ht Hne)
    as (stats & mn & mx & p50 & p90 & p95 & p99 & Hs & _ & _ &
        H50 & H90 & H95 & H99 & _ & _ & _ & _ & _ & _ & L50 & L90 & L95 & L99 & _).
  exists stats, p50, p90, p95, p99.
  repeat (split; [done|]).
  intros Hten. unfold sorted in *. rewrite Hten in H50, H90.
  simpl in H50, H90. by simplify_eq.
Qed.

(** C2: in every summary the analysis returns, [successful] and [failed]
    count the outcomes with status 200 and the others, and add up to
    [total_requests]; this covers the summary of a run with successes and
    the degraded summary of a run without. *)
Theorem successful_plus_failed (results : list outcome) (total_time : Qc) :
  total_time ≠ 0 ∨ successful_latencies results = [] →
  ∃ stats (s f : nat),
    analyze results total_time = Ok stats ∧
    s = length (filter (λ r, status r = 200%Z) results) ∧
    f = length (filter (λ r, status r ≠ 200%Z) results) ∧
    stats !! "successful" = Some (PNum (Qc_of_nat s)) ∧
    stats !! "failed" = Some (PNum (Qc_of_nat f)) ∧
    stats !! "total_requests" = Some (PNum (Qc_of_nat (s + f))) ∧
    (successful_latencies results = [] →
     stats !! "error" = Some (PStr "No successful requests")).
Proof.
  intros Hcase.
  assert (length (filter (λ r, status r = 200%Z) results) +
          length (filter (λ r, status r ≠ 200%Z) results) = length results)%nat
    as Hsum.
  { rewrite <-length_app. apply Permutation_length, filter_app_complement. }
  destruct (decide (successful_latencies results = [])) as [Hnil|Hne].
  - unfold successful_latencies in Hnil. apply fmap_nil_inv in Hnil.
    rewrite Hnil in Hsum. simpl in Hsum.
    eexists _, 0%nat, _. unfold analyze. cbv zeta. rewrite Hnil. simpl.
    split; [reflexivity|]. rewrite Hsum.
    change (Qc_of_nat 0) with (Qc_of_Z 0). rewrite Z2Qc_inj_0.
    repeat split; try done.
  - destruct Hcase as [Ht|]; [|done].
    destruct (analyze_success results total_time Ht Hne)
      as (stats & mn & mx & p50 & p90 & p95 & p99 & Hs & _ & _ &
          _ & _ & _ & _ & Lt & Ls & Lf & _).
    eexists stats, _, _. rewrite Hsum. by repeat (split; [done|]).
Qed.

(** C3: with at least one success (and a non-zero elapsed time), the
    summary satisfies min <= p50 <= p90 <= p95 <= p99 <= max, and each of
    the four percentiles is the latency of a successful outcome. *)
Theorem percentiles_ordered (results : list outcome) (total_time : Qc) :
  total_time ≠ 0 → successful_latencies results ≠ [] →
  ∃ stats mn p50 p90 p95 p99 mx,
    analyze results total_time = Ok stats ∧
    stats !! "latency_min" = Some (PNum mn) ∧
    stats !! "latency_p50" = Some (PNum p50) ∧
    stats !! "latency_p90" = Some (PNum p90) ∧
    stats !! "latency_p95" = Some (PNum p95) ∧
    stats !! "latency_p99" = Some (PNum p99) ∧
    stats !! "latency_max" = Some (PNum mx) ∧
    mn ≤ p50 ∧ p50 ≤ p90 ∧ p90 ≤ p95 ∧ p95 ≤ p99 ∧ p99 ≤ mx ∧
    Forall (λ v, v ∈ successful_latencies results) [p50; p90; p95; p99].
Proof.
  intros Ht Hne.
  destruct (analyze_success results total_time Ht Hne)
    as (stats & mn & mx & p50 & p90 & p95 & p99 & Hs & Hmn & Hmx &
        H50 & H90 & H95 & H99 & _ & _ & _ & _ & Lmn & Lmx & L50 & L90 & L95 & L99 & _).
  exists stats, mn, p50, p90, p95, p99, mx.
  repeat (split; [done|]).
  pose proof (sorted_StronglySorted (successful_latencies results)) as Hsorted.
  set (lat := sorted (successful_latencies results)) in *.
  assert (∀ i v, lat !! i = Some v → v ∈ lat) as Hin
    by (intros; by eapply list_elem_of_lookup_2).
  assert (∀ v, v ∈ lat → v ∈ successful_latencies results) as Hperm.
  { intros v. unfold lat, sorted. by rewrite merge_sort_Permutation. }
  split; [eapply py_min_le; eauto|].
  split; [refine (StronglySorted_lookup_le lat _ _ _ _ Hsorted _ H50 H90);
          apply percentile_index_mono; lia|].
  split; [refine (StronglySorted_lookup_le lat _ _ _ _ Hsorted _ H90 H95);
          apply percentile_index_mono; lia|].
  split; [refine (StronglySorted_lookup_le lat _ _ _ _ Hsorted _ H95 H99);
          apply percentile_index_mono; lia|].
  split; [eapply py_max_ge; eauto|].
  repeat constructor; eauto.
Qed.

(** ** The request executor *)

Lemma elapsed_nonneg (t0 t1 : Qc) : t0 ≤ t1 → 0 ≤ (t1 - t0) * Qc_of_Z 1000.
Proof.
  intros H. apply Qcmult_nonneg_nonneg.
  - unfold Qcminus. by apply Qcle_minus_iff in H.
  - rewrite <-Z2Qc_inj_0. by apply Z2Qc_inj_le.
Qed.

(** C5: whatever the url and the timeout, when the clock does not run
    backwards and the transport raises instances of [Exception] only,
    [make_request] returns an outcome: the status and the size of the
    body when the transport succeeds, the HTTP status code with an error
    string and no bytes on an [HTTPError], and status 0, no bytes and the
    text of the exception on any other failure; the latency is never
    negative. *)
Theorem make_request_total (w : world) (url : string) (timeout : Z) :
  perf_counter_before w ≤ perf_counter_after w →
  transport_failure w url timeout ≠ Some NotAnException →
  ∃ r, make_request w url timeout = Ok r ∧
    0 ≤ latency_ms r ∧
    match transport_failure w url timeout with
    | None =>
      ∃ response body,
        urlopen w url timeout = Ok response ∧ read response = Ok body ∧
        status r = getcode response ∧ bytes r = length body ∧ error r = None
    | Some (HTTPError code reason) =>
      status r = code ∧ bytes r = 0%nat ∧
      error r = Some ("HTTP " +:+ pretty code +:+ ": " +:+ reason)
    | Some (OtherException message) =>
      status r = 0%Z ∧ bytes r = 0%nat ∧ error r = Some message
    | Some NotAnException => False
    end.
Proof.
  intros Hclock Hexc. pose proof (elapsed_nonneg _ _ Hclock) as Hlat.
  unfold make_request, transport_failure in *.
  destruct (urlopen w url timeout) as [response|e]; simpl.
  - destruct (read response) as [body|e] eqn:Hread; simpl.
    + eexists. split; [done|]. split; [done|]. by exists response, body.
    + destruct e; try done; eexists; (split; [done|]); by split.
  - destruct e; try done; eexists; (split; [done|]); by split.
Qed.

(** ** The scenario router *)

Lemma py_mod_ok (a b : Z) : b ≠ 0%Z → py_mod a b = Ok (a `mod` b)%Z.
Proof. intros Hb. unfold py_mod. by case_decide. Qed.

Lemma py_index_Z_lookup {A} (l : list A) (k : Z) (x : A) :
  (0 ≤ k)%Z → l !! Z.to_nat k = Some x → py_index_Z l k = Ok x.
Proof.
  intros Hk Hx. unfold py_index_Z, py_index.
  case_decide; [lia|]. by rewrite Hx.
Qed.

(** Picking [symbols[i % len(symbols)]] from a list that is not empty. *)
Lemma pick_symbol (symbols : list string) (i : Z) :
  symbols ≠ [] →
  ∃ symbol,
    symbols !! Z.to_nat (i `mod` Z.of_nat (length symbols)) = Some symbol ∧
    py_mod i (Z.of_nat (length symbols))
      = Ok (i `mod` Z.of_nat (length symbols))%Z ∧
    py_index_Z symbols (i `mod` Z.of_nat (length symbols)) = Ok symbol.
Proof.
  intros Hne.
  assert (0 < Z.of_nat (length symbols))%Z as Hlen
    by (destruct symbols; [done|simpl; lia]).
  pose proof (Z.mod_pos_bound i _ Hlen) as [Hlo Hhi].
  destruct (lookup_lt_is_Some_2 symbols
              (Z.to_nat (i `mod` Z.of_nat (length symbols)))) as [x Hx]; [lia|].
  exists x. split; [done|]. split; [apply py_mod_ok; lia|].
  by apply py_index_Z_lookup.
Qed.

(** C4: in mixed mode with the symbols [A; B], request [i] goes to the
    symbols endpoint when [i mod 3 = 0], to the status endpoint when
    [i mod 3 = 1], and otherwise to the data query of the symbol at
    position [i mod 2]; the requests 0..5 go to Symbols, Status, Data A,
    Symbols, Status, Data B, and request [i + 3] goes to the same kind of
    endpoint as request [i]. *)
Theorem mixed_three_cycle (base_url A B : string) (now : Z) :
  (∀ i : Z, ∃ e,
     mixed_route [A; B] i = Some e ∧
     worker_url base_url "mixed" [A; B] now i
       = Ok (endpoint_url base_url now "time,best_bid" e)) ∧
  mixed_route [A; B] <$> [0; 1; 2; 3; 4; 5]%Z
    = Some <$> [Symbols; Status; Data A; Symbols; Status; Data B] ∧
  (∀ i : Z,
     (mixed_route [A; B] i = Some Symbols ↔ i `mod` 3 = 0)%Z ∧
     (mixed_route [A; B] i = Some Status ↔ i `mod` 3 = 1)%Z ∧
     ((∃ s, mixed_route [A; B] i = Some (Data s)) ↔ i `mod` 3 = 2)%Z ∧
     ((i + 3) `mod` 3 = i `mod` 3)%Z).
Proof.
  split; [|split; [done|]].
  - intros i. unfold worker_url, mixed_route.
    destruct (decide ("mixed" = "symbols")) as [?|_]; [done|].
    destruct (decide ("mixed" = "api")) as [?|_]; [done|].
    destruct (decide ("mixed" = "data")) as [?|_]; [done|].
    case_decide; [by eexists|]. case_decide; [by eexists|].
    destruct (pick_symbol [A; B] i) as (s & Hs & -> & Hk); [done|].
    rewrite bind_Ok, Hk, bind_Ok.
    exists (Data s). by rewrite Hs.
  - intros i. unfold mixed_route.
    pose proof (Z.mod_pos_bound i 3 ltac:(lia)) as Hi.
    destruct (pick_symbol [A; B] i) as (s & Hs & _); [done|].
    rewrite Hs.
    repeat split; repeat case_decide; try done; try lia; try (by eexists).
    + intros [? [=]].
    + intros [? [=]].
    + by rewrite <-(Z.mul_1_l 3) at 1; rewrite Z.mod_add by lia.
Qed.

(** ** Symbol discovery *)

(** The loops only append: the list they return starts with the list they
    were given. *)
Lemma collect_symbols_prefix (infos symbols : list pyval) :
  symbols `prefix_of` (collect_symbols infos symbols).2.
Proof.
  revert symbols. induction infos as [|info rest IH]; intros symbols; simpl.
  - done.
  - destruct (py_get info "symbol" info) as [symbol|e]; simpl; [|done].
    set (symbols' := if existsb (py_eq symbol) symbols then symbols
                     else symbols ++ [symbol]).
    assert (symbols `prefix_of` symbols') as Hpre.
    { unfold symbols'. destruct (existsb _ _); [done|]. by apply prefix_app_r. }
    case_decide; simpl; [done|]. by etrans.
Qed.

Lemma scan_exchanges_prefix (items : list (string * pyval)) (symbols : list pyval) :
  symbols `prefix_of` (scan_exchanges items symbols).2.
Proof.
  revert symbols. induction items as [|[exchange symbol_list] rest IH];
    intros symbols; simpl; [done|].
  destruct (py_slice3 symbol_list) as [infos|e]; simpl; [|done].
  pose proof (collect_symbols_prefix infos symbols) as Hpre.
  destruct (collect_symbols infos symbols) as [[[]|e] symbols']; simpl in *;
    [|done].
  case_decide; simpl; [done|]. by etrans.
Qed.

Lemma discovery_body_prefix (result : outcome) (symbols : list pyval) :
  symbols `prefix_of` (discovery_body result symbols).2.
Proof.
  unfold discovery_body.
  destruct (match content result with
            | Some c => json_loads c
            | None => Raise TypeError
            end) as [data|e]; simpl; [|done].
  destruct (py_contains "exchanges" data) as [[]|e]; simpl; [|done..].
  destruct (py_getitem data "exchanges" ≫= py_items) as [items|e]; simpl; [|done].
  apply scan_exchanges_prefix.
Qed.

Lemma discover_symbols_head (result : outcome) :
  ∃ rest, discover_symbols result = PStr "BTC-USD" :: rest.
Proof.
  unfold discover_symbols. case_decide; [|by exists []].
  destruct (discovery_body_prefix result [PStr "BTC-USD"]) as [rest ->].
  by exists rest.
Qed.

Lemma str_items_nonempty (symbols : list pyval) (names : list string) :
  str_items symbols = Ok names → symbols ≠ [] → names ≠ [].
Proof.
  destruct symbols as [|[] rest]; try done. simpl.
  destruct (str_items rest); simpl; [|done]. by intros [= <-].
Qed.

(** Exchanges that list no symbol change nothing and raise nothing. *)
Lemma scan_no_symbols (items : list (string * pyval)) (symbols : list pyval) :
  (length symbols < 5)%nat →
  Forall (λ p : string * pyval, p.2 = PList []) items →
  scan_exchanges items symbols = (Ok (), symbols).
Proof.
  intros Hlen Hall. induction Hall as [|[exchange v] rest Hv _ IH]; [done|].
  simpl in *. subst v. simpl. case_decide; [lia|done].
Qed.

(** Exchanges that list plain strings change nothing; the first string
    met raises [AttributeError]. *)
Lemma scan_string_lists (items : list (string * pyval)) (symbols : list pyval) :
  (length symbols < 5)%nat →
  Forall (λ p : string * pyval, string_list p.2) items →
  (scan_exchanges items symbols).2 = symbols ∧
  (Exists (λ p : string * pyval, p.2 ≠ PList []) items →
   (scan_exchanges items symbols).1 = Raise AttributeError).
Proof.
  intros Hlen Hall.
  induction Hall as [|[exchange v] rest Hv _ [IH1 IH2]]; simpl.
  - split; [done|]. by intros ?%Exists_nil.
  - destruct Hv as [names Hv]. simpl in Hv. subst v.
    destruct names as [|name names]; simpl.
    + case_decide; [lia|]. split; [done|].
      intros [?|?]%Exists_cons; [done|auto].
    + done.
Qed.

Lemma symbols_test_accepts_strings (items : list (string * pyval)) :
  Forall (λ p : string * pyval, string_list p.2) items →
  symbols_test_accepts items = true.
Proof.
  intros Hall. unfold symbols_test_accepts.
  induction Hall as [|[exchange v] rest Hv _ IH]; simpl; [done|].
  destruct Hv as [names Hv]. simpl in Hv. subst v. rewrite IH.
  by destruct names.
Qed.

(** The URLs of the timed phase when there is one symbol. *)
Lemma single_symbol_urls (base_url symbol : string) (now i : Z) :
  warmup_url base_url "data" [symbol] now i
    = Ok (data_url base_url symbol now "time,best_bid") ∧
  worker_url base_url "data" [symbol] now i
    = Ok (data_url base_url symbol now "time,best_bid,best_ask") ∧
  worker_url base_url "mixed" [symbol] now i
    = Ok (endpoint_url base_url now "time,best_bid"
            (if decide (i `mod` 3 = 0)%Z then Symbols
             else if decide (i `mod` 3 = 1)%Z then Status
             else Data symbol)).
Proof.
  destruct (pick_symbol [symbol] i) as (s & Hs & Hm & Hk); [done|].
  assert (s = symbol) as ->.
  { change (Z.of_nat (length [symbol])) with 1%Z in Hs.
    rewrite Z.mod_1_r in Hs. simpl in Hs. congruence. }
  unfold warmup_url, worker_url.
  destruct (decide ("data" = "symbols" ∨ _)) as [[?|[? _]]|_]; [done..|].
  destruct (decide ("data" = "symbols")) as [?|_]; [done|].
  destruct (decide ("data" = "api")) as [?|_]; [done|].
  destruct (decide ("data" = "data")) as [_|?]; [|done].
  destruct (decide ("mixed" = "symbols")) as [?|_]; [done|].
  destruct (decide ("mixed" = "api")) as [?|_]; [done|].
  destruct (decide ("mixed" = "data")) as [?|_]; [done|].
  rewrite Hm, !bind_Ok, Hk, !bind_Ok.
  repeat split. by repeat case_decide.
Qed.

(** Whatever the mode, a list of symbols that is not empty gives a URL for
    every warmup and every timed request. *)
Lemma urls_total (base_url mode : string) (symbols : list string) (now i : Z) :
  symbols ≠ [] →
  (∃ url, warmup_url base_url mode symbols now i = Ok url) ∧
  (∃ url, worker_url base_url mode symbols now i = Ok url).
Proof.
  intros Hne. destruct (pick_symbol symbols i Hne) as (s & _ & Hm & Hk).
  unfold warmup_url, worker_url. rewrite Hm, !bind_Ok, Hk, !bind_Ok.
  split; repeat case_decide; by eexists.
Qed.

Lemma finds_no_entry_default (result : outcome) :
  finds_no_entry result → discover_symbols result = [PStr "BTC-USD"].
Proof.
  intros H. unfold discover_symbols. case_decide; [|done].
  unfold discovery_body.
  destruct H as [?|Hc|c e Hc Hj|c data Hc Hj Hin|c data e Hc Hj Hex
                 |c data items Hc Hj Hex Hall]; [done|rewrite Hc..].
  - done.
  - by rewrite Hj.
  - rewrite Hj. by destruct (py_contains "exchanges" data) as [[]|].
  - rewrite Hj, Hex. by destruct (py_contains "exchanges" data) as [[]|].
  - rewrite Hj, Hex. destruct (py_contains "exchanges" data) as [[]|]; try done.
    by rewrite scan_no_symbols by (done || simpl; lia).
Qed.

(** Where the fallback works: the list of symbols always starts with the
    default symbol BTC-USD, so it is never empty, and when its entries are
    strings every warmup and every timed request of every mode gets a URL:
    the selection by index modulo length neither divides by zero nor
    leaves the list.  When discovery fails or meets no entry, the list is
    exactly the default symbol, and the data queries of the data mode and
    of the mixed mode are queries for BTC-USD at every request index. *)
Theorem default_symbol_fallback (result : outcome) :
  (∃ rest, discover_symbols result = PStr "BTC-USD" :: rest) ∧
  (∀ symbols base_url mode now i,
     str_items (discover_symbols result) = Ok symbols →
     (∃ url, warmup_url base_url mode symbols now i = Ok url) ∧
     (∃ url, worker_url base_url mode symbols now i = Ok url)) ∧
  (finds_no_entry result →
     discover_symbols result = [PStr "BTC-USD"] ∧
     str_items (discover_symbols result) = Ok ["BTC-USD"] ∧
     ∀ base_url now i,
       warmup_url base_url "data" ["BTC-USD"] now i
         = Ok (data_url base_url "BTC-USD" now "time,best_bid") ∧
       worker_url base_url "data" ["BTC-USD"] now i
         = Ok (data_url base_url "BTC-USD" now "time,best_bid,best_ask") ∧
       worker_url base_url "mixed" ["BTC-USD"] now i
         = Ok (endpoint_url base_url now "time,best_bid"
                 (if decide (i `mod` 3 = 0)%Z then Symbols
                  else if decide (i `mod` 3 = 1)%Z then Status
                  else Data "BTC-USD"))).
Proof.
  split; [apply discover_symbols_head|]. split.
  - intros symbols base_url mode now i Hstr. apply urls_total.
    eapply str_items_nonempty; [done|].
    by destruct (discover_symbols_head result) as [rest ->].
  - intros H. rewrite (finds_no_entry_default result H).
    split; [done|]. split; [done|].
    intros base_url now i. apply single_symbol_urls.
Qed.

(** An entry whose ['symbol'] is not read as a string: the value that
    [get] returns, the entry itself when the key is absent, is appended
    after the default symbol. *)
Lemma unusable_entry_kept (result : outcome) (c : list Byte.byte)
    (data entry symbol : pyval) (exchange : string) (infos : list pyval)
    (rest : list (string * pyval)) :
  status result = 200%Z →
  content result = Some c → json_loads c = Ok data →
  py_contains "exchanges" data = Ok true →
  (exchanges ← py_getitem data "exchanges"; py_items exchanges)
    = Ok ((exchange, PList (entry :: infos)) :: rest) →
  py_get entry "symbol" entry = Ok symbol →
  py_eq symbol (PStr "BTC-USD") = false →
  ∃ more, discover_symbols result = PStr "BTC-USD" :: symbol :: more.
Proof.
  intros Hst Hc Hj Hin Hex Hget Heq.
  unfold discover_symbols. rewrite decide_True by done.
  unfold discovery_body. rewrite Hc, Hj, Hin, Hex.
  cbn [scan_exchanges py_slice3 take collect_symbols].
  rewrite Hget. cbn [existsb]. rewrite Heq. cbn [orb app length].
  rewrite decide_False by lia.
  pose proof (collect_symbols_prefix (take 2 infos)
                [PStr "BTC-USD"; symbol]) as Hpre.
  destruct (collect_symbols (take 2 infos) [PStr "BTC-USD"; symbol])
    as [[[]|e] symbols] eqn:Hcollect; simpl in Hpre.
  - case_decide.
    + destruct Hpre as [more ->]. by exists more.
    + pose proof (scan_exchanges_prefix rest symbols) as [more' Hmore].
      destruct Hpre as [more ->]. rewrite Hmore. by eexists.
  - simpl. destruct Hpre as [more ->]. by exists more.
Qed.

Lemma str_items_unusable (symbol : pyval) (first : string) (more : list pyval) :
  (∀ s, symbol ≠ PStr s) →
  str_items (PStr first :: symbol :: more) = Raise TypeError.
Proof.
  clear py_sqrt json_loads py_eq.
  intros Hnot. simpl. destruct symbol; try done. by destruct (Hnot s).
Qed.

(** C10: when the symbols endpoint answers 200 with exchanges whose
    symbol lists are lists of plain strings, the format that
    [test_symbols_endpoint] accepts, the first string met makes the
    extraction raise [AttributeError], the bare [except] swallows it, and
    the list of symbols stays the single default BTC-USD: the data
    queries of the data mode and of the mixed mode are queries for
    BTC-USD at every request index. *)
Theorem string_symbols_keep_default (result : outcome) (c : list Byte.byte)
    (kv items : list (string * pyval)) :
  status result = 200%Z →
  content result = Some c →
  json_loads c = Ok (PDict kv) →
  assoc_get kv "exchanges" = Some (PDict items) →
  Forall (λ p : string * pyval, string_list p.2) items →
  symbols_test_accepts items = true ∧
  (Exists (λ p : string * pyval, p.2 ≠ PList []) items →
   (discovery_body result [PStr "BTC-USD"]).1 = Raise AttributeError) ∧
  discover_symbols result = [PStr "BTC-USD"] ∧
  str_items (discover_symbols result) = Ok ["BTC-USD"] ∧
  ∀ base_url now i,
    warmup_url base_url "data" ["BTC-USD"] now i
      = Ok (data_url base_url "BTC-USD" now "time,best_bid") ∧
    worker_url base_url "data" ["BTC-USD"] now i
      = Ok (data_url base_url "BTC-USD" now "time,best_bid,best_ask") ∧
    worker_url base_url "mixed" ["BTC-USD"] now i
      = Ok (endpoint_url base_url now "time,best_bid"
              (if decide (i `mod` 3 = 0)%Z then Symbols
               else if decide (i `mod` 3 = 1)%Z then Status
               else Data "BTC-USD")).
Proof.
  intros Hst Hc Hj Hex Hall.
  destruct (scan_string_lists items [PStr "BTC-USD"]) as [Hkeep Hraise];
    [simpl; lia|done|].
  assert (discovery_body result [PStr "BTC-USD"]
          = scan_exchanges items [PStr "BTC-USD"]) as Hbody.
  { unfold discovery_body. rewrite Hc, Hj. simpl. by rewrite Hex. }
  assert (discover_symbols result = [PStr "BTC-USD"]) as Hdef.
  { unfold discover_symbols. case_decide; [|done]. by rewrite Hbody. }
  split; [by apply symbols_test_accepts_strings|].
  split; [by rewrite Hbody|].
  rewrite Hdef. split; [done|]. split; [done|].
  intros base_url now i. apply single_symbol_urls.
Qed.

(** ** The comparator: skipped metrics and division *)

Lemma as_number_cases (v : pyval) :
  (∃ q, as_number v = Ok q) ∨ as_number v = Raise TypeError.
Proof. destruct v; simpl; eauto. Qed.

Lemma py_gt0_cases (v : pyval) :
  (∃ q, as_number v = Ok q ∧ py_gt0 v = Ok (bool_decide (0 < q))) ∨
  (as_number v = Raise TypeError ∧ py_gt0 v = Raise TypeError).
Proof.
  unfold py_gt0. destruct (as_number_cases v) as [[q Hq]| Hq]; rewrite Hq; eauto.
Qed.

Lemma Qc_of_nat_ne_0 (n : nat) : (0 < n)%nat → Qc_of_nat n ≠ 0.
Proof.
  intros Hn E. unfold Qc_of_nat in E. rewrite <-Z2Qc_inj_0 in E.
  apply Z2Qc_inj in E. lia.
Qed.

Lemma Qc_pos_ne_0 (q : Qc) : 0 < q → q ≠ 0.
Proof. intros Hq ->. by apply Qclt_not_eq in Hq. Qed.

Lemma analyze_degraded (results : list outcome) (total_time : Qc) :
  successful_latencies results = [] →
  analyze results total_time =
    Ok (<["total_requests" := PNum (Qc_of_nat (length results))]>
        (<["successful" := PNum 0]>
        (<["failed" := PNum (Qc_of_nat (length results))]>
        (<["error" := PStr "No successful requests"]> ∅)))).
Proof.
  intros Hnil. unfold analyze. cbv zeta.
  change (latency_ms <$> filter _ results) with (successful_latencies results).
  by rewrite Hnil.
Qed.

Lemma analyze_ok_time (results : list outcome) (total_time : Qc)
    (stats : gmap string pyval) :
  analyze results total_time = Ok stats →
  successful_latencies results ≠ [] → total_time ≠ 0.
Proof.
  intros Hs Hne ->. revert Hs. unfold analyze. cbv zeta.
  change (latency_ms <$> filter _ results) with (successful_latencies results).
  destruct (successful_latencies results); [done|].
  unfold py_truediv. destruct (decide (Q2Qc 0 = 0)) as [_|?]; [|done].
  by rewrite bind_Raise.
Qed.

(** The success rate of a summary made by [analyze] is defined. *)
Lemma success_rate_analyze (results : list outcome) (total_time : Qc)
    (stats : gmap string pyval) :
  analyze results total_time = Ok stats → ∃ q, success_rate stats = Ok q.
Proof.
  intros Hs. destruct (decide (successful_latencies results = [])) as [Hnil|Hne].
  - rewrite (analyze_degraded _ _ Hnil) in Hs. simplify_eq.
    unfold success_rate. rewrite decide_False by done. by eexists.
  - pose proof (analyze_ok_time _ _ _ Hs Hne) as Ht.
    destruct (analyze_success results total_time Ht Hne)
      as (stats' & mn & mx & p50 & p90 & p95 & p99 & Hs' & _ & _ &
          _ & _ & _ & _ & Lt & Ls & _ & _ & _ & _ & _ & _ & _ & _ & Le).
    rewrite Hs in Hs'. simplify_eq.
    unfold success_rate, dict_get. rewrite decide_True by done.
    rewrite Lt, Ls. simpl. rewrite py_truediv_ok; [by eexists|].
    apply Qc_of_nat_ne_0. destruct results; [done|simpl; lia].
Qed.

Lemma bind_no_zero_division {A B} (m : res A) (f : A → res B) :
  no_zero_division m →
  (∀ a, m = Ok a → no_zero_division (f a)) →
  no_zero_division (m ≫= f).
Proof.
  intros Hm Hf. destruct m as [a|e]; simpl; [by apply Hf|].
  intros [= ->]. by apply Hm.
Qed.

Lemma mapM_no_zero_division {A B} (f : A → res B) (l : list A) :
  (∀ x, x ∈ l → no_zero_division (f x)) → no_zero_division (mapM f l).
Proof.
  induction l as [|x l IH]; intros Hf; [done|]. simpl.
  apply bind_no_zero_division; [apply Hf; left|]. intros y _.
  apply bind_no_zero_division; [apply IH; intros; apply Hf; by right|].
  done.
Qed.

(** What one turn of the comparison loop does with two numbers. *)
Lemma compare_metric_numbers (prev_perf curr_perf : gmap string pyval)
    (is_baseline : bool) (name key unit : string) (lower : bool)
    (pv cv : pyval) (p c : Qc) :
  metric_values prev_perf curr_perf key = Ok (pv, cv) →
  as_number pv = Ok p → as_number cv = Ok c →
  (p ≤ 0 ∨ c ≤ 0 →
   compare_metric prev_perf curr_perf is_baseline (name, key, unit, lower)
     = Ok None) ∧
  (0 < p → 0 < c →
   ∃ line,
     compare_metric prev_perf curr_perf is_baseline (name, key, unit, lower)
       = Ok (Some line) ∧
     line_name line = name ∧ line_prev line = p ∧ line_curr line = c ∧
     line_change line = (c - p) / p * Qc_of_Z 100).
Proof.
  intros Hv Hp Hc. unfold compare_metric. rewrite Hv, bind_Ok.
  unfold py_gt0. rewrite Hp, Hc, !bind_Ok. split.
  - intros Hle. case_bool_decide as Hp0; [|done].
    case_bool_decide as Hc0; [|done].
    destruct Hle as [Hle|Hle]; by apply Qcle_not_lt in Hle.
  - intros Hp0 Hc0. rewrite !bool_decide_eq_true_2 by done.
    rewrite py_truediv_ok by by apply Qc_pos_ne_0.
    rewrite bind_Ok. by eexists.
Qed.

Lemma compare_metric_no_zero_division (prev_perf curr_perf : gmap string pyval)
    (is_baseline : bool) (m : string * string * string * bool) :
  (∃ q, success_rate curr_perf = Ok q) →
  no_zero_division (compare_metric prev_perf curr_perf is_baseline m).
Proof.
  intros [rate Hrate]. destruct m as [[[name key] unit] lower].
  assert (∃ pv cv, metric_values prev_perf curr_perf key = Ok (pv, cv))
    as (pv & cv & Hv).
  { unfold metric_values. case_decide; [rewrite Hrate|]; by eexists _, _. }
  destruct (py_gt0_cases pv) as [(p & Hp & Hgp)|[Hp Hgp]]; cycle 1.
  { unfold compare_metric. by rewrite Hv, bind_Ok, Hgp. }
  destruct (py_gt0_cases cv) as [(c & Hc & Hgc)|[Hc Hgc]]; cycle 1.
  { unfold compare_metric. rewrite Hv, bind_Ok, Hgp, bind_Ok.
    case_bool_decide; [by rewrite Hgc|done]. }
  destruct (compare_metric_numbers prev_perf curr_perf is_baseline
              name key unit lower pv cv p c Hv Hp Hc) as [Hskip Hline].
  destruct (decide (0 < p)) as [Hp0|Hp0]; cycle 1.
  { rewrite Hskip; [done|]. left. by apply Qcnot_lt_le. }
  destruct (decide (0 < c)) as [Hc0|Hc0]; cycle 1.
  { rewrite Hskip; [done|]. right. by apply Qcnot_lt_le. }
  destruct (Hline Hp0 Hc0) as (line & -> & _). done.
Qed.

Lemma baseline_change_no_zero_division (prev_perf curr_perf : gmap string pyval)
    (ck pk : string) :
  no_zero_division (baseline_change prev_perf curr_perf ck pk).
Proof.
  unfold baseline_change.
  destruct (py_gt0_cases (dict_get prev_perf pk (PNum 0)))
    as [(p & Hp & ->)|[_ ->]]; [|done].
  rewrite bind_Ok. case_bool_decide as Hp0; [|done].
  destruct (as_number_cases (dict_get curr_perf ck (PNum 0)))
    as [[c ->]| ->]; [|done].
  rewrite bind_Ok, Hp, bind_Ok.
  assert (as_number (dict_get prev_perf pk (PNum 1)) = Ok p) as ->.
  { unfold dict_get in *. destruct (prev_perf !! pk); [done|].
    simpl in Hp. simplify_eq. by apply Qclt_not_eq in Hp0. }
  rewrite bind_Ok, py_truediv_ok by by apply Qc_pos_ne_0. done.
Qed.

Lemma compare_body_no_zero_division (prev_perf curr_perf : gmap string pyval)
    (is_baseline : bool) :
  (∃ q, success_rate curr_perf = Ok q) →
  no_zero_division (compare_body prev_perf curr_perf is_baseline).
Proof.
  intros Hrate. unfold compare_body.
  apply bind_no_zero_division.
  { apply mapM_no_zero_division. intros m _.
    by apply compare_metric_no_zero_division. }
  intros lines _. apply bind_no_zero_division; [|done].
  destruct is_baseline; [|done].
  apply bind_no_zero_division; [apply baseline_change_no_zero_division|].
  intros a _.
  apply bind_no_zero_division; [apply baseline_change_no_zero_division|].
  done.
Qed.

Lemma metrics_cases (m : string * string * string * bool) :
  m ∈ metrics →
  m = ("P99 Latency", "latency_p99", "ms", true) ∨
  m = ("Mean Latency", "latency_mean", "ms", true) ∨
  m = ("Requests/sec", "requests_per_sec", "", false) ∨
  m = ("Success Rate", "successful", "%", false).
Proof.
  unfold metrics. rewrite !elem_of_cons, elem_of_nil. tauto.
Qed.

Lemma mapM_all_skipped {A B} (f : A → res (option B)) (l : list A) :
  (∀ x, x ∈ l → f x = Ok None) →
  ∃ ys, mapM f l = Ok ys ∧ omap id ys = [].
Proof.
  induction l as [|x l IH]; intros Hf; [by exists []|].
  destruct IH as (ys & Hys & Hnone); [intros; apply Hf; by right|].
  exists (None :: ys). simpl. rewrite Hf by left. simpl. by rewrite Hys.
Qed.

(** The summary of a run without a success, and what is stored for it. *)
Lemma degraded_summary (results : list outcome) (total_time : Qc) :
  successful_latencies results = [] →
  ∃ stats,
    analyze results total_time = Ok stats ∧
    stats !! "error" = Some (PStr "No successful requests") ∧
    stats !! "latency_p99" = None ∧
    stats !! "latency_mean" = None ∧
    stats !! "requests_per_sec" = None ∧
    performance_summary stats = Ok degraded_projection.
Proof.
  intros Hnil. eexists. split; [by apply analyze_degraded|].
  repeat split; try done.
Qed.

(** A degraded summary as the current side: no metric yields a line. *)
Lemma degraded_current_skipped (stats prev_perf : gmap string pyval)
    (is_baseline : bool) (m : string * string * string * bool)
    (line : metric_line) :
  is_Some (stats !! "error") →
  stats !! "latency_p99" = None →
  stats !! "latency_mean" = None →
  stats !! "requests_per_sec" = None →
  m ∈ metrics →
  compare_metric prev_perf stats is_baseline m ≠ Ok (Some line).
Proof.
  intros [e He] H99 Hmean Hrps Hm.
  assert (∃ name key unit lower pv,
            m = (name, key, unit, lower) ∧
            metric_values prev_perf stats key = Ok (pv, PNum 0))
    as (name & key & unit & lower & pv & -> & Hv).
  { apply metrics_cases in Hm as [-> | [-> | [-> | -> ]]];
      eexists _, _, _, _, _; (split; [done|]);
      unfold metric_values, success_rate, dict_get;
      rewrite ?He, ?H99, ?Hmean, ?Hrps; done. }
  destruct (py_gt0_cases pv) as [(p & Hp & Hgp)|[Hp Hgp]]; cycle 1.
  { unfold compare_metric. by rewrite Hv, bind_Ok, Hgp. }
  destruct (compare_metric_numbers prev_perf stats is_baseline
              name key unit lower pv (PNum 0) p 0 Hv Hp eq_refl) as [Hskip _].
  rewrite Hskip; [done|]. right. apply Qcle_refl.
Qed.

(** The stored projection of a degraded run as the previous side: every
    metric is skipped and the verdict is "similar". *)
Lemma degraded_previous_skipped (curr_perf : gmap string pyval)
    (is_baseline : bool) (m : string * string * string * bool) :
  (∃ q, success_rate curr_perf = Ok q) →
  m ∈ metrics →
  compare_metric degraded_projection curr_perf is_baseline m = Ok None.
Proof.
  intros [rate Hrate] Hm.
  assert (∃ name key unit lower cv,
            m = (name, key, unit, lower) ∧
            metric_values degraded_projection curr_perf key = Ok (PNum 0, cv))
    as (name & key & unit & lower & cv & -> & Hv).
  { apply metrics_cases in Hm as [-> | [-> | [-> | -> ]]];
      eexists _, _, _, _, _; (split; [done|]);
      unfold metric_values; rewrite ?Hrate; done. }
  unfold compare_metric. rewrite Hv, bind_Ok. done.
Qed.

Lemma degraded_previous_report (curr_perf : gmap string pyval) :
  (∃ q, success_rate curr_perf = Ok q) →
  compare_body degraded_projection curr_perf true
    = Ok {| report_lines := []; report_verdict := Some Similar |}.
Proof.
  intros Hrate. unfold compare_body.
  destruct (mapM_all_skipped
              (compare_metric degraded_projection curr_perf true) metrics)
    as (ys & Hys & Hnone).
  { intros m Hm. by apply degraded_previous_skipped. }
  rewrite Hys, bind_Ok, Hnone.
  assert (p99_change degraded_projection curr_perf = Ok 0) as -> by done.
  assert (rps_change degraded_projection curr_perf = Ok 0) as -> by done.
  done.
Qed.

(** The loop looks the previous latencies up under ["latency_p99_ms"] and
    ["latency_mean_ms"] (line 625), while [save_results] stores them under
    ["p99_latency_ms"] and ["mean_latency_ms"]: against a stored
    projection both latency metrics read 0 and are skipped, whatever the
    two runs measured.  The verdict (line 646) reads the stored key. *)
Remark stored_latency_metrics_skipped (perf_stats summary curr_perf : gmap string pyval)
    (is_baseline : bool) (name key unit : string) (lower : bool) :
  performance_summary perf_stats = Ok summary →
  key = "latency_p99" ∨ key = "latency_mean" →
  compare_metric summary curr_perf is_baseline (name, key, unit, lower) = Ok None.
Proof.
  intros Hsum Hkey. unfold performance_summary in Hsum.
  destruct (success_rate perf_stats) as [rate|e]; [|done].
  rewrite bind_Ok in Hsum. injection Hsum as <-.
  unfold compare_metric, metric_values.
  destruct Hkey as [-> | ->]; done.
Qed.

(** What the loop does with the two values it reads: for every metric of
    the comparator, when the two values read are
    numbers [p] (previous) and [c] (current), the metric is skipped if
    [p <= 0] or [c <= 0], and otherwise its line carries the change
    [(c - p) / p * 100].  Against a summary made by [analyze] the
    comparison never ends in a division by zero.  A run without a success
    is treated as absent data on either side: as the current summary it
    yields no metric line, and its stored projection (p99 -1, success
    rate 0) as the previous side makes every metric skipped. *)
Theorem metric_change_or_skip :
  (∀ prev_perf curr_perf is_baseline name key unit lower pv cv p c,
     (name, key, unit, lower) ∈ metrics →
     metric_values prev_perf curr_perf key = Ok (pv, cv) →
     as_number pv = Ok p → as_number cv = Ok c →
     (p ≤ 0 ∨ c ≤ 0 →
      compare_metric prev_perf curr_perf is_baseline (name, key, unit, lower)
        = Ok None) ∧
     (0 < p → 0 < c →
      ∃ line,
        compare_metric prev_perf curr_perf is_baseline (name, key, unit, lower)
          = Ok (Some line) ∧
        line_name line = name ∧ line_prev line = p ∧ line_curr line = c ∧
        line_change line = (c - p) / p * Qc_of_Z 100)) ∧
  (∀ results total_time stats prev_perf is_baseline,
     analyze results total_time = Ok stats →
     no_zero_division (compare_body prev_perf stats is_baseline)) ∧
  (∀ results total_time,
     successful_latencies results = [] →
     ∃ stats,
       analyze results total_time = Ok stats ∧
       performance_summary stats = Ok degraded_projection ∧
       (∀ prev_perf is_baseline m line,
          m ∈ metrics →
          compare_metric prev_perf stats is_baseline m ≠ Ok (Some line)) ∧
       (∀ results' total_time' curr is_baseline m,
          analyze results' total_time' = Ok curr →
          m ∈ metrics →
          compare_metric degraded_projection curr is_baseline m = Ok None) ∧
       (∀ results' total_time' curr,
          analyze results' total_time' = Ok curr →
          compare_body degraded_projection curr true
            = Ok {| report_lines := []; report_verdict := Some Similar |})).
Proof.
  split; [|split].
  - intros * _ Hv Hp Hc. by eapply compare_metric_numbers.
  - intros * Hs. eapply compare_body_no_zero_division, success_rate_analyze, Hs.
  - intros results total_time Hnil.
    destruct (degraded_summary results total_time Hnil)
      as (stats & Hs & He & H99 & Hmean & Hrps & Hsum).
    exists stats. split; [done|]. split; [done|]. split; [|split].
    + intros. by apply degraded_current_skipped.
    + intros * Hc Hm. apply degraded_previous_skipped; [|done].
      by eapply success_rate_analyze.
    + intros * Hc. apply degraded_previous_report.
      by eapply success_rate_analyze.
Qed.

Lemma mapM_Ok_elem_inv {A B} (f : A → res B) (l : list A) (ys : list B)
    (y : B) :
  mapM f l = Ok ys → y ∈ ys → ∃ x, x ∈ l ∧ f x = Ok y.
Proof.
  clear py_sqrt json_loads py_eq.
  revert ys. induction l as [|a l IH]; intros ys Hys Hy.
  - injection Hys as <-. by apply elem_of_nil in Hy.
  - simpl in Hys. destruct (f a) as [b|e] eqn:Hb; [|done].
    rewrite bind_Ok in Hys.
    destruct (mapM f l) as [bs|e] eqn:Hbs; [|done].
    rewrite bind_Ok in Hys. injection Hys as <-.
    apply elem_of_cons in Hy as [->|Hy].
    + exists a. split; [left|done].
    + destruct (IH bs eq_refl Hy) as (x & Hx & Hfx).
      exists x. split; [by right|done].
Qed.

Lemma compare_metric_name (prev_perf curr_perf : gmap string pyval)
    (is_baseline : bool) (name key unit : string) (lower : bool)
    (line : metric_line) :
  compare_metric prev_perf curr_perf is_baseline (name, key, unit, lower)
    = Ok (Some line) →
  line_name line = name.
Proof.
  clear py_sqrt json_loads py_eq.
  unfold compare_metric. intros H.
  destruct (metric_values prev_perf curr_perf key) as [[pv cv]|e]; [|done].
  rewrite bind_Ok in H.
  destruct (py_gt0 pv) as [[]|e]; [|done..]. rewrite bind_Ok in H.
  destruct (py_gt0 cv) as [[]|e]; [|done..]. rewrite bind_Ok in H.
  destruct (as_number pv) as [p|e]; [|done]. rewrite bind_Ok in H.
  destruct (as_number cv) as [c|e]; [|done]. rewrite bind_Ok in H.
  destruct (py_truediv (c - p) p) as [q|e]; [|done]. rewrite bind_Ok in H.
  by injection H as <-.
Qed.

(** C7: the comparator looks the previous latencies up under
    ["latency_p99_ms"] and ["latency_mean_ms"], keys that [save_results]
    never writes, so against anything [save_results] stored the P99 and
    the mean latency are never compared: every line of a report is about
    the requests per second or the success rate.  Against the stored
    record with p99 10, mean 4 and 1000 requests per second, the run with
    p99 12, mean 5 and 950 requests per second gets no latency line,
    although both sides of both latencies are positive; the change of the
    p99, read under the stored key for the verdict, is 20 and the verdict
    a regression. *)
Theorem stored_latencies_never_compared :
  (∀ perf_stats summary curr_perf is_baseline r line,
     performance_summary perf_stats = Ok summary →
     compare_body summary curr_perf is_baseline = Ok r →
     line ∈ report_lines r →
     line_name line = "Requests/sec" ∨ line_name line = "Success Rate") ∧
  ∃ prev r,
    stored_summary (example_file 10 4 1000) = Ok prev ∧
    prev !! "p99_latency_ms" = Some (PNum (Qc_of_Z 10)) ∧
    prev !! "mean_latency_ms" = Some (PNum (Qc_of_Z 4)) ∧
    example_run !! "latency_p99" = Some (PNum (Qc_of_Z 12)) ∧
    example_run !! "latency_mean" = Some (PNum (Qc_of_Z 5)) ∧
    compare_with_file example_run (Ok (example_file 10 4 1000)) true = Some r ∧
    line_name <$> report_lines r = ["Requests/sec"; "Success Rate"] ∧
    p99_change prev example_run = Ok (Qc_of_Z 20) ∧
    report_verdict r = Some Regression.
Proof.
  clear py_sqrt json_loads py_eq. split.
  - intros perf_stats summary curr_perf is_baseline r line Hsum Hr Hin.
    unfold compare_body in Hr.
    apply bind_Ok_inv in Hr as (lines & Hlines & Hr).
    apply bind_Ok_inv in Hr as (v & _ & [= <-]). simpl in Hin.
    apply list_elem_of_omap in Hin as (entry & Hentry & Hline).
    simpl in Hline. subst entry.
    destruct (mapM_Ok_elem_inv _ _ _ _ Hlines Hentry) as (m & Hm & Hcmp).
    unfold metrics in Hm. rewrite !elem_of_cons in Hm.
    destruct Hm as [-> | [-> | [-> | [-> | Hm]]]].
    + rewrite (stored_latency_metrics_skipped perf_stats) in Hcmp;
        [done|done|by left].
    + rewrite (stored_latency_metrics_skipped perf_stats) in Hcmp;
        [done|done|by right].
    + left. by eapply compare_metric_name.
    + right. by eapply compare_metric_name.
    + by apply elem_of_nil in Hm.
  - eexists _, _. split; [vm_compute; reflexivity|].
    split; [reflexivity|]. split; [reflexivity|].
    split; [reflexivity|]. split; [reflexivity|].
    split; [vm_compute; reflexivity|]. split; [reflexivity|].
    split; [|reflexivity].
    vm_compute. f_equal. by apply Qc_is_canon.
Qed.

(** ** The verdict against the baseline *)

Lemma verdict_of_spec (a b : Qc) :
  (verdict_of a b = Regression ↔ Qc_of_Z 10 < a ∨ b < Qc_of_Z (-10)) ∧
  (verdict_of a b = Improvement ↔
     ¬ (Qc_of_Z 10 < a ∨ b < Qc_of_Z (-10)) ∧
     (a < Qc_of_Z (-10) ∨ Qc_of_Z 10 < b)) ∧
  (verdict_of a b = Similar ↔
     ¬ (Qc_of_Z 10 < a ∨ b < Qc_of_Z (-10)) ∧
     ¬ (a < Qc_of_Z (-10) ∨ Qc_of_Z 10 < b)).
Proof.
  clear py_sqrt json_loads py_eq.
  unfold verdict_of. repeat case_decide; intuition congruence.
Qed.

Lemma compare_body_verdict (prev_perf curr_perf : gmap string pyval) (r : report) :
  compare_body prev_perf curr_perf true = Ok r →
  ∃ a b,
    p99_change prev_perf curr_perf = Ok a ∧
    rps_change prev_perf curr_perf = Ok b ∧
    report_verdict r = Some (verdict_of a b).
Proof.
  unfold compare_body.
  destruct (mapM _ metrics) as [lines|e]; [|done]. rewrite bind_Ok.
  destruct (p99_change prev_perf curr_perf) as [a|e]; [|done].
  destruct (rps_change prev_perf curr_perf) as [b|e]; [|done].
  simpl. intros [= <-]. by exists a, b.
Qed.

(** The change against the baseline is [(c - p) / p * 100] when the
    baseline holds a positive number [p], and 0 when it holds a number
    that is not positive. *)
Lemma baseline_change_formula (prev_perf curr_perf : gmap string pyval)
    (ck pk : string) (p c : Qc) :
  prev_perf !! pk = Some (PNum p) →
  curr_perf !! ck = Some (PNum c) →
  baseline_change prev_perf curr_perf ck pk
    = Ok (if decide (0 < p) then (c - p) / p * Qc_of_Z 100 else 0).
Proof.
  intros Hp Hc. unfold baseline_change, py_gt0, dict_get. rewrite Hp, Hc. simpl.
  case_bool_decide as Hp0.
  - rewrite decide_True by done.
    by rewrite py_truediv_ok by by apply Qc_pos_ne_0.
  - by rewrite decide_False by done.
Qed.

(** C8: the verdict of a comparison with the baseline is "regression"
    exactly when the p99 change is above 10 or the requests-per-second
    change is below -10, "improvement" when that does not hold and the p99
    change is below -10 or the requests-per-second change is above 10, and
    "similar" otherwise; both changes are [(c - p) / p * 100] for a
    positive baseline value [p].  For the baseline (p99 10, 1000 requests
    per second) and the run (p99 12, 950 requests per second), the p99
    change is 20 and the verdict is "regression"; the throughput change
    is -5, which alone gives no regression verdict but is flagged on its
    metric line under the baseline threshold of 3. *)
Theorem baseline_verdict :
  (∀ prev_perf curr_perf r,
     compare_body prev_perf curr_perf true = Ok r →
     ∃ a b,
       p99_change prev_perf curr_perf = Ok a ∧
       rps_change prev_perf curr_perf = Ok b ∧
       report_verdict r = Some (verdict_of a b) ∧
       (verdict_of a b = Regression ↔ Qc_of_Z 10 < a ∨ b < Qc_of_Z (-10)) ∧
       (verdict_of a b = Improvement ↔
          ¬ (Qc_of_Z 10 < a ∨ b < Qc_of_Z (-10)) ∧
          (a < Qc_of_Z (-10) ∨ Qc_of_Z 10 < b)) ∧
       (verdict_of a b = Similar ↔
          ¬ (Qc_of_Z 10 < a ∨ b < Qc_of_Z (-10)) ∧
          ¬ (a < Qc_of_Z (-10) ∨ Qc_of_Z 10 < b))) ∧
  (∀ prev_perf curr_perf p c,
     prev_perf !! "p99_latency_ms" = Some (PNum p) →
     curr_perf !! "latency_p99" = Some (PNum c) →
     0 < p →
     p99_change prev_perf curr_perf = Ok ((c - p) / p * Qc_of_Z 100)) ∧
  (∀ prev_perf curr_perf p c,
     prev_perf !! "requests_per_sec" = Some (PNum p) →
     curr_perf !! "requests_per_sec" = Some (PNum c) →
     0 < p →
     rps_change prev_perf curr_perf = Ok ((c - p) / p * Qc_of_Z 100)) ∧
  p99_change baseline_example current_example = Ok (Qc_of_Z 20) ∧
  rps_change baseline_example current_example = Ok (Qc_of_Z (-5)) ∧
  (∃ r line,
     compare_body baseline_example current_example true = Ok r ∧
     report_verdict r = Some Regression ∧
     report_lines r = [line] ∧
     line_name line = "Requests/sec" ∧
     line_change line = Qc_of_Z (-5) ∧
     line_symbol line = Worse) ∧
  (∀ a, a ≤ Qc_of_Z 10 → verdict_of a (Qc_of_Z (-5)) ≠ Regression).
Proof.
  split; [|split; [|split]].
  - intros prev_perf curr_perf r Hr.
    destruct (compare_body_verdict _ _ _ Hr) as (a & b & Ha & Hb & Hv).
    exists a, b. repeat (split; [done|]). apply verdict_of_spec.
  - intros * Hp Hc Hp0. unfold p99_change.
    rewrite (baseline_change_formula _ _ _ _ p c) by done.
    by rewrite decide_True by done.
  - intros * Hp Hc Hp0. unfold rps_change.
    rewrite (baseline_change_formula _ _ _ _ p c) by done.
    by rewrite decide_True by done.
  - split; [|split; [|split]].
    + vm_compute. f_equal. by apply Qc_is_canon.
    + vm_compute. f_equal. by apply Qc_is_canon.
    + eexists _, _. split; [vm_compute; reflexivity|]. simpl.
      repeat split. by apply Qc_is_canon.
    + intros a Ha [Hr|Hr]%verdict_of_spec.
      * by apply Qcle_not_lt in Ha.
      * done.
Qed.

(** ** The compare-only branch *)

(** With fewer than two benchmark files of any kind, the branch prints the
    usage error, exits with code 1 and compares nothing. *)
Lemma compare_only_usage_error (results_dir : string) (listing : list string)
    (fs : string → res pyval) :
  (length (glob_benchmarks results_dir listing) < 2)%nat →
  compare_only results_dir listing fs
    = Ok {| exit_code := 1; usage_error := true; table := [];
            comparison := None |}.
Proof.
  intros Hlen. unfold compare_only. cbv zeta.
  assert (length (merge_sort str_le (glob_benchmarks results_dir listing))
          = length (glob_benchmarks results_dir listing)) as Hsort
    by apply Permutation_length, merge_sort_Permutation.
  case_decide; [done|lia].
Qed.

(** C9: the compare-only branch counts the baseline file among the
    records.  In a results directory that holds one record and the
    baseline, there is one stored record only, and [compare_with_previous]
    sees that one record; the compare-only branch nevertheless prints no
    usage error, exits with code 0 and compares the baseline, as the last
    run, with the record. *)
Theorem compare_only_counts_baseline :
  stored_records "benchmark_results" example_listing
    = ["benchmark_results/benchmark_20240101_120000.json"] ∧
  previous_files "benchmark_results" example_listing
      "benchmark_results/benchmark_20240301_090000.json"
    = ["benchmark_results/benchmark_20240101_120000.json"] ∧
  ∃ run cmp,
    compare_only "benchmark_results" example_listing example_fs = Ok run ∧
    exit_code run = 0%Z ∧
    usage_error run = false ∧
    length (table run) = 2%nat ∧
    comparison run = Some cmp ∧
    last_p99_symbol cmp = Improved ∧
    last_rps_symbol cmp = Improved.
Proof.
  split; [by vm_compute|]. split; [by vm_compute|].
  eexists _, _. split; [vm_compute; reflexivity|]. done.
Qed.

(** * Further properties of the script *)

(** ** More on the analysis *)

(** The remaining fields of a summary with a success. *)
Lemma analyze_fields (results : list outcome) (total_time : Qc) :
  total_time ≠ 0 → successful_latencies results ≠ [] →
  let lat := sorted (successful_latencies results) in
  let n := length lat in
  ∃ stats mean med sd,
    analyze results total_time = Ok stats ∧
    statistics_mean lat = Ok mean ∧
    statistics_median lat = Ok med ∧
    (if decide (1 < n)%nat then statistics_stdev lat else Ok 0) = Ok sd ∧
    stats !! "latency_mean" = Some (PNum mean) ∧
    stats !! "latency_median" = Some (PNum med) ∧
    stats !! "latency_stdev" = Some (PNum sd) ∧
    stats !! "total_bytes"
      = Some (PNum (Qc_of_nat (sum_list (bytes <$> results)))) ∧
    stats !! "success_rate" = None ∧
    map_Forall (λ _ v, ∃ q, v = PNum q) stats.
Proof.
  intros Ht Hne lat n.
  assert (0 < n)%nat as Hn.
  { unfold n, lat. rewrite length_sorted.
    destruct (successful_latencies results); [done|simpl; lia]. }
  assert (lat ≠ []) as Hlne.
  { intros E. unfold n in Hn. rewrite E in Hn. simpl in Hn. lia. }
  destruct (py_min_ok lat Hlne) as [mn Hmn].
  destruct (py_max_ok lat Hlne) as [mx Hmx].
  destruct (statistics_mean_ok lat Hlne) as [mean Hmean].
  destruct (statistics_median_ok lat Hlne) as [med Hmed].
  destruct (py_index_lt lat _ (percentile_index_lt n 50 Hn)) as (p50 & E50 & H50).
  destruct (py_index_lt lat _ (percentile_index_lt n 90 Hn)) as (p90 & E90 & H90).
  destruct (py_index_lt lat _ (percentile_index_lt n 95 Hn)) as (p95 & E95 & H95).
  destruct (py_index_lt lat _ (percentile_index_lt n 99 Hn)) as (p99 & E99 & H99).
  rewrite <-(p50_index_clamped n Hn) in E50.
  assert (∃ sd, (if decide (1 < n)%nat then statistics_stdev lat else Ok 0)
                = Ok sd) as [sd Hsd].
  { case_decide; [by apply statistics_stdev_ok|by eexists]. }
  unfold analyze. cbv zeta.
  change (latency_ms <$> filter _ results) with (successful_latencies results).
  destruct (successful_latencies results) as [|x xs] eqn:Hlat; [done|].
  fold lat. fold n.
  rewrite !py_truediv_ok by done. rewrite !bind_Ok.
  rewrite Hmn, bind_Ok, Hmx, bind_Ok, Hmean, bind_Ok, Hmed, bind_Ok.
  rewrite E50, bind_Ok, E90, bind_Ok, E95, bind_Ok, E99, bind_Ok, Hsd, bind_Ok.
  eexists _, mean, med, sd.
  split; [reflexivity|]. repeat (split; [done|]).
  repeat (apply map_Forall_insert_2; [by eexists|]).
  apply map_Forall_empty.
Qed.

Lemma sorted_Permutation (l1 l2 : list Qc) : l1 ≡ₚ l2 → sorted l1 = sorted l2.
Proof.
  intros Hp. apply (StronglySorted_unique Qcle);
    [apply sorted_StronglySorted..|].
  unfold sorted. by rewrite !merge_sort_Permutation.
Qed.

Lemma sorted_idempotent (l : list Qc) : sorted (sorted l) = sorted l.
Proof. apply sorted_Permutation. unfold sorted. apply merge_sort_Permutation. Qed.

(** X1: the summary does not depend on the order in which the outcomes
    were collected. *)
Theorem analyze_order_independent (results results' : list outcome)
    (total_time : Qc) :
  results ≡ₚ results' →
  analyze results total_time = analyze results' total_time.
Proof.
  intros Hp. unfold analyze. cbv zeta.
  assert (latency_ms <$> filter (λ r, status r = 200%Z) results
          ≡ₚ latency_ms <$> filter (λ r, status r = 200%Z) results') as Hlat
    by (by rewrite Hp).
  pose proof (sorted_Permutation _ _ Hlat) as Hsorted.
  assert (length results = length results') as <- by (by rewrite Hp).
  assert (length (filter (λ r, status r = 200%Z) results)
          = length (filter (λ r, status r = 200%Z) results')) as <-
    by (by rewrite Hp).
  assert (length (filter (λ r, status r ≠ 200%Z) results)
          = length (filter (λ r, status r ≠ 200%Z) results')) as <-
    by (by rewrite Hp).
  assert (sum_list (bytes <$> results) = sum_list (bytes <$> results')) as <-
    by (by rewrite Hp).
  destruct (latency_ms <$> filter _ results) as [|x xs];
    destruct (latency_ms <$> filter _ results') as [|y ys].
  - done.
  - by apply Permutation_nil_cons in Hlat.
  - symmetry in Hlat. by apply Permutation_nil_cons in Hlat.
  - by rewrite Hsorted.
Qed.

Lemma py_index_Ok {A} (l : list A) (i : nat) (x : A) :
  py_index l i = Ok x → l !! i = Some x.
Proof. unfold py_index. destruct (l !! i); [|done]. by intros [= ->]. Qed.

Lemma foldl_max_in (xs : list Qc) (m : Qc) :
  foldl (λ m y, if decide (m < y) then y else m) m xs ∈ m :: xs.
Proof.
  revert m. induction xs as [|a xs IH]; intros m; simpl; [by left|].
  specialize (IH (if decide (m < a) then a else m)).
  apply elem_of_cons in IH as [->|IH]; [|by do 2 right].
  case_decide; [right; left|left].
Qed.

Lemma py_max_in (l : list Qc) (m : Qc) : py_max l = Ok m → m ∈ l.
Proof.
  destruct l as [|x xs]; [done|]. simpl. intros [= <-]. apply foldl_max_in.
Qed.

Lemma half_index (n : nat) : (n * 50 / 100 = n / 2)%nat.
Proof. change 100%nat with (2 * 50)%nat. by apply Nat.Div0.div_mul_cancel_r. Qed.

Lemma Qc_two : Qc_of_Z 2 = 1 + 1.
Proof. apply Z2Qc_inj_2. Qed.

Lemma Qc_midpoint (a b : Qc) :
  a ≤ b → a ≤ (a + b) / Qc_of_Z 2 ∧ (a + b) / Qc_of_Z 2 ≤ b.
Proof.
  intros Hab. rewrite Qc_two.
  assert (0 < 1 + 1) as H2 by done.
  split; apply (Qcmult_le_mono_pos_r _ _ (1 + 1) H2).
  - replace ((a + b) / (1 + 1) * (1 + 1)) with (a + b) by (by field).
    replace (a * (1 + 1)) with (a + a) by ring.
    by apply Qcplus_le_mono_l.
  - replace ((a + b) / (1 + 1) * (1 + 1)) with (a + b) by (by field).
    replace (b * (1 + 1)) with (b + b) by ring.
    by apply Qcplus_le_mono_r.
Qed.

Lemma Qc_of_nat_S (n : nat) : Qc_of_nat (S n) = Qc_of_nat n + 1.
Proof.
  unfold Qc_of_nat. rewrite Nat2Z.inj_succ, <-Z.add_1_r, Z2Qc_inj_add.
  by rewrite Z2Qc_inj_1.
Qed.

Lemma Qc_of_nat_pos (n : nat) : (0 < n)%nat → 0 < Qc_of_nat n.
Proof.
  intros Hn. unfold Qc_of_nat. rewrite <-Z2Qc_inj_0.
  apply (proj1 (Z2Qc_inj_lt 0 (Z.of_nat n))). lia.
Qed.

Lemma fsum_lower (l : list Qc) (m : Qc) :
  (∀ x, x ∈ l → m ≤ x) → Qc_of_nat (length l) * m ≤ fsum l.
Proof.
  induction l as [|x l IH]; intros Hm; simpl.
  - change (Qc_of_nat 0) with (Qc_of_Z 0). rewrite Z2Qc_inj_0.
    rewrite Qcmult_0_l. apply Qcle_refl.
  - rewrite Qc_of_nat_S.
    replace ((Qc_of_nat (length l) + 1) * m)
      with (m + Qc_of_nat (length l) * m) by ring.
    apply Qcplus_le_compat; [apply Hm; left|].
    apply IH. intros y Hy. apply Hm. by right.
Qed.

Lemma fsum_upper (l : list Qc) (m : Qc) :
  (∀ x, x ∈ l → x ≤ m) → fsum l ≤ Qc_of_nat (length l) * m.
Proof.
  induction l as [|x l IH]; intros Hm; simpl.
  - change (Qc_of_nat 0) with (Qc_of_Z 0). rewrite Z2Qc_inj_0.
    rewrite Qcmult_0_l. apply Qcle_refl.
  - rewrite Qc_of_nat_S.
    replace ((Qc_of_nat (length l) + 1) * m)
      with (m + Qc_of_nat (length l) * m) by ring.
    apply Qcplus_le_compat; [apply Hm; left|].
    apply IH. intros y Hy. apply Hm. by right.
Qed.

Lemma Qc_div_lower (s d m : Qc) : 0 < d → d * m ≤ s → m ≤ s / d.
Proof.
  intros Hd H. apply (Qcmult_le_mono_pos_r _ _ d Hd).
  replace (s / d * d) with s by (field; by apply Qc_pos_ne_0).
  by rewrite Qcmult_comm.
Qed.

Lemma Qc_div_upper (s d m : Qc) : 0 < d → s ≤ d * m → s / d ≤ m.
Proof.
  intros Hd H. apply (Qcmult_le_mono_pos_r _ _ d Hd).
  replace (s / d * d) with s by (field; by apply Qc_pos_ne_0).
  by rewrite (Qcmult_comm m).
Qed.

Lemma statistics_mean_Ok (l : list Qc) (m : Qc) :
  statistics_mean l = Ok m → m = fsum l / Qc_of_nat (length l).
Proof. destruct l; [done|]. by intros [= <-]. Qed.

(** X2: with at most 100 successes the p99 of the summary is the maximum
    latency. *)
Theorem p99_is_max_up_to_100 (results : list outcome) (total_time : Qc) :
  total_time ≠ 0 → successful_latencies results ≠ [] →
  (length (successful_latencies results) ≤ 100)%nat →
  ∃ stats v,
    analyze results total_time = Ok stats ∧
    stats !! "latency_p99" = Some (PNum v) ∧
    stats !! "latency_max" = Some (PNum v).
Proof.
  intros Ht Hne Hlen.
  destruct (analyze_success results total_time Ht Hne)
    as (stats & mn & mx & p50 & p90 & p95 & p99 & Hs & _ & Hmx &
        _ & _ & _ & H99 & _ & _ & _ & _ & _ & Lmx & _ & _ & _ & L99 & _).
  pose proof (sorted_StronglySorted (successful_latencies results)) as Hsorted.
  rewrite <-length_sorted in Hlen.
  set (lat := sorted (successful_latencies results)) in *.
  assert (((length lat * 99) `div` 100) `min` (length lat - 1)
          = length lat - 1)%nat as Hidx.
  { apply Nat.min_r, Nat.div_le_lower_bound; lia. }
  rewrite Hidx in H99.
  exists stats, mx. split; [done|]. split; [|done].
  rewrite L99. do 2 f_equal. apply (anti_symm Qcle).
  - eapply py_max_ge; [done|]. by eapply list_elem_of_lookup_2.
  - apply py_max_in in Hmx. apply list_elem_of_lookup in Hmx as [j Hj].
    refine (StronglySorted_lookup_le lat _ _ _ _ Hsorted _ Hj H99).
    apply lookup_lt_Some in Hj. lia.
Qed.

(** X3: the median of the summary lies between the minimum and the p50;
    with an odd number of successes the median is the p50. *)
Theorem median_le_p50 (results : list outcome) (total_time : Qc) :
  total_time ≠ 0 → successful_latencies results ≠ [] →
  ∃ stats mn med p50,
    analyze results total_time = Ok stats ∧
    stats !! "latency_min" = Some (PNum mn) ∧
    stats !! "latency_median" = Some (PNum med) ∧
    stats !! "latency_p50" = Some (PNum p50) ∧
    mn ≤ med ∧ med ≤ p50 ∧
    ((length (successful_latencies results) `mod` 2 = 1)%nat → med = p50).
Proof.
  intros Ht Hne.
  destruct (analyze_success results total_time Ht Hne)
    as (stats & mn & mx & p50 & p90 & p95 & p99 & Hs & Hmn & _ &
        H50 & _ & _ & _ & _ & _ & _ & _ & Lmn & _ & L50 & _).
  destruct (analyze_fields results total_time Ht Hne)
    as (stats' & mean & med & sd & Hs' & _ & Hmed & _ & _ & Lmed & _).
  rewrite Hs in Hs'. injection Hs' as <-.
  pose proof (sorted_StronglySorted (successful_latencies results)) as Hsorted.
  rewrite <-(length_sorted (successful_latencies results)).
  set (lat := sorted (successful_latencies results)) in *.
  assert (0 < length lat)%nat as Hn.
  { unfold lat. rewrite length_sorted.
    destruct (successful_latencies results); [done|simpl; lia]. }
  rewrite <-p50_index_clamped, half_index in H50 by done.
  exists stats, mn, med, p50. repeat (split; [done|]).
  unfold statistics_median in Hmed. unfold lat in Hmed.
  rewrite sorted_idempotent in Hmed. fold lat in Hmed.
  destruct (decide (length lat = 0)%nat) as [|_]; [lia|].
  destruct (decide (length lat `mod` 2 = 1)%nat) as [Hodd|Heven].
  - apply py_index_Ok in Hmed. assert (med = p50) as -> by congruence.
    split; [|split; [apply Qcle_refl|done]].
    eapply py_min_le; [done|]. by eapply list_elem_of_lookup_2.
  - destruct (py_index lat (length lat / 2 - 1)) as [a|] eqn:Ha; [|done].
    destruct (py_index lat (length lat / 2)) as [b|] eqn:Hb; [|done].
    rewrite !bind_Ok in Hmed. injection Hmed as <-.
    apply py_index_Ok in Ha, Hb. assert (b = p50) as -> by congruence.
    assert (a ≤ p50) as Hab.
    { refine (StronglySorted_lookup_le lat _ _ _ _ Hsorted _ Ha Hb). lia. }
    destruct (Qc_midpoint a p50 Hab) as [Hlo Hhi].
    split; [|split; [done|done]].
    eapply Qcle_trans; [|exact Hlo].
    eapply py_min_le; [done|]. by eapply list_elem_of_lookup_2.
Qed.

(** X4: the mean of the summary lies between the minimum and the
    maximum. *)
Theorem mean_between_min_and_max (results : list outcome) (total_time : Qc) :
  total_time ≠ 0 → successful_latencies results ≠ [] →
  ∃ stats mn mean mx,
    analyze results total_time = Ok stats ∧
    stats !! "latency_min" = Some (PNum mn) ∧
    stats !! "latency_mean" = Some (PNum mean) ∧
    stats !! "latency_max" = Some (PNum mx) ∧
    mn ≤ mean ∧ mean ≤ mx.
Proof.
  intros Ht Hne.
  destruct (analyze_success results total_time Ht Hne)
    as (stats & mn & mx & p50 & p90 & p95 & p99 & Hs & Hmn & Hmx &
        _ & _ & _ & _ & _ & _ & _ & _ & Lmn & Lmx & _).
  destruct (analyze_fields results total_time Ht Hne)
    as (stats' & mean & med & sd & Hs' & Hmean & _ & _ & Lmean & _).
  rewrite Hs in Hs'. injection Hs' as <-.
  set (lat := sorted (successful_latencies results)) in *.
  exists stats, mn, mean, mx. repeat (split; [done|]).
  assert (0 < Qc_of_nat (length lat)) as Hpos.
  { apply Qc_of_nat_pos. unfold lat. rewrite length_sorted.
    destruct (successful_latencies results); [done|simpl; lia]. }
  apply statistics_mean_Ok in Hmean as ->. split.
  - apply Qc_div_lower; [done|]. apply fsum_lower.
    intros x Hx. by eapply py_min_le.
  - apply Qc_div_upper; [done|]. apply fsum_upper.
    intros x Hx. by eapply py_max_ge.
Qed.

(** X5: a run whose elapsed time is zero and that has a success gives no
    summary: the analysis raises [ZeroDivisionError]. *)
Theorem zero_time_no_summary (results : list outcome) :
  successful_latencies results ≠ [] →
  analyze results 0 = Raise ZeroDivisionError.
Proof.
  intros Hne. unfold analyze. cbv zeta.
  change (latency_ms <$> filter _ results) with (successful_latencies results).
  destruct (successful_latencies results); [done|].
  unfold py_truediv. destruct (decide (Q2Qc 0 = 0)) as [_|?]; [|done].
  by rewrite bind_Raise.
Qed.

Lemma sorted_singleton (x : Qc) : sorted [x] = [x].
Proof. apply Permutation_singleton_r. unfold sorted. apply merge_sort_Permutation. Qed.

(** X6: with exactly one success, the standard deviation of the summary
    is 0 and the minimum, maximum, mean, median and the four percentiles
    are all the latency of that success. *)
Theorem single_success_summary (results : list outcome) (total_time x : Qc) :
  total_time ≠ 0 → successful_latencies results = [x] →
  ∃ stats,
    analyze results total_time = Ok stats ∧
    stats !! "latency_stdev" = Some (PNum 0) ∧
    Forall (λ key, stats !! key = Some (PNum x))
      ["latency_min"; "latency_max"; "latency_mean"; "latency_median";
       "latency_p50"; "latency_p90"; "latency_p95"; "latency_p99"].
Proof.
  intros Ht Hx.
  assert (successful_latencies results ≠ []) as Hne by (by rewrite Hx).
  destruct (analyze_success results total_time Ht Hne)
    as (stats & mn & mx & p50 & p90 & p95 & p99 & Hs & Hmn & Hmx &
        H50 & H90 & H95 & H99 & _ & _ & _ & _ & Lmn & Lmx &
        L50 & L90 & L95 & L99 & _).
  destruct (analyze_fields results total_time Ht Hne)
    as (stats' & mean & med & sd & Hs' & Hmean & Hmed & Hsd &
        Lmean & Lmed & Lsd & _).
  rewrite Hs in Hs'. injection Hs' as <-.
  rewrite Hx, sorted_singleton in *. simpl in *.
  unfold statistics_median in Hmed. rewrite sorted_singleton in Hmed.
  unfold py_index in Hmed. simpl in Hmed.
  assert (mean = x) as ->.
  { injection Hmean as <-. change (Qc_of_nat 1) with (Qc_of_Z 1).
    rewrite Z2Qc_inj_1, Qcplus_0_r. by rewrite (right_id 1 Qcdiv). }
  simplify_eq. exists stats. split; [done|]. split; [done|].
  repeat constructor; done.
Qed.

(** ** More on the warmup, the discovery and the URLs *)

(** X7: the number of warmup requests is a tenth of the requests clamped
    to the range 10..50: it is 10 below 100 requests, [requests // 10]
    from 100 to 509, and 50 from 510 on. *)
Theorem warmup_count_bounds (requests : Z) :
  (10 ≤ warmup_count requests ≤ 50)%Z ∧
  (requests < 100 → warmup_count requests = 10)%Z ∧
  (100 ≤ requests < 510 → warmup_count requests = requests `div` 10)%Z ∧
  (510 ≤ requests → warmup_count requests = 50)%Z.
Proof.
  unfold warmup_count.
  pose proof (Z.div_mod requests 10 ltac:(done)) as Hdm.
  pose proof (Z.mod_pos_bound requests 10 ltac:(done)) as Hm.
  lia.
Qed.

Lemma collect_symbols_cap (infos symbols : list pyval) :
  (length symbols < 5)%nat →
  (length (collect_symbols infos symbols).2 ≤ 5)%nat.
Proof.
  revert symbols. induction infos as [|info rest IH]; intros symbols Hlen; simpl.
  - lia.
  - destruct (py_get info "symbol" info) as [symbol|e]; simpl; [|lia].
    set (symbols' := if existsb (py_eq symbol) symbols then symbols
                     else symbols ++ [symbol]).
    assert (length symbols' ≤ 5)%nat as Hlen'.
    { unfold symbols'. destruct (existsb _ _); [lia|].
      rewrite length_app. simpl. lia. }
    case_decide; simpl; [done|]. apply IH. lia.
Qed.

Lemma scan_exchanges_cap (items : list (string * pyval)) (symbols : list pyval) :
  (length symbols < 5)%nat →
  (length (scan_exchanges items symbols).2 ≤ 5)%nat.
Proof.
  revert symbols. induction items as [|[exchange symbol_list] rest IH];
    intros symbols Hlen; simpl; [lia|].
  destruct (py_slice3 symbol_list) as [infos|e]; simpl; [|lia].
  pose proof (collect_symbols_cap infos symbols Hlen) as Hcap.
  destruct (collect_symbols infos symbols) as [[[]|e] symbols']; simpl in *;
    [|done].
  case_decide; simpl; [done|]. apply IH. lia.
Qed.

(** X8: discovery keeps between one and five symbols, whatever the symbols
    endpoint answers. *)
Theorem discover_symbols_at_most_five (result : outcome) :
  (1 ≤ length (discover_symbols result) ≤ 5)%nat.
Proof.
  split.
  - destruct (discover_symbols_head result) as [rest ->]. simpl. lia.
  - unfold discover_symbols. case_decide; [|simpl; lia].
    unfold discovery_body.
    destruct (match content result with
              | Some c => json_loads c
              | None => Raise TypeError
              end) as [data|e]; simpl; [|lia].
    destruct (py_contains "exchanges" data) as [[]|e]; simpl; [|lia..].
    destruct (exchanges ← py_getitem data "exchanges"; py_items exchanges)
      as [items|e]; simpl; [|lia].
    apply scan_exchanges_cap. simpl. lia.
Qed.

Lemma pairwise_unequal_snoc (l : list pyval) (s : pyval) :
  pairwise_unequal l → existsb (py_eq s) l = false →
  pairwise_unequal (l ++ [s]).
Proof.
  intros Hl Hs i j x y Hij Hi Hj.
  assert (j < length (l ++ [s]))%nat as Hjlen by (by eapply lookup_lt_Some).
  rewrite length_app in Hjlen. simpl in Hjlen.
  rewrite lookup_app_l in Hi by lia.
  destruct (decide (j < length l)%nat) as [Hjl|Hjl].
  - rewrite lookup_app_l in Hj by done. exact (Hl i j x y Hij Hi Hj).
  - assert (j = length l) as -> by lia.
    rewrite list_lookup_middle in Hj by done. injection Hj as <-.
    destruct (py_eq s x) eqn:E; [|done].
    assert (existsb (py_eq s) l = true) as Hex; [|congruence].
    apply existsb_exists. exists x. split; [|done].
    apply list_elem_of_In. by eapply list_elem_of_lookup_2.
Qed.

Lemma collect_symbols_unequal (infos symbols : list pyval) :
  pairwise_unequal symbols →
  pairwise_unequal (collect_symbols infos symbols).2.
Proof.
  revert symbols. induction infos as [|info rest IH]; intros symbols Hl; simpl.
  - done.
  - destruct (py_get info "symbol" info) as [symbol|e]; simpl; [|done].
    set (symbols' := if existsb (py_eq symbol) symbols then symbols
                     else symbols ++ [symbol]).
    assert (pairwise_unequal symbols') as Hl'.
    { unfold symbols'. destruct (existsb _ _) eqn:E; [done|].
      by apply pairwise_unequal_snoc. }
    case_decide; simpl; [done|]. by apply IH.
Qed.

Lemma scan_exchanges_unequal (items : list (string * pyval)) (symbols : list pyval) :
  pairwise_unequal symbols →
  pairwise_unequal (scan_exchanges items symbols).2.
Proof.
  revert symbols. induction items as [|[exchange symbol_list] rest IH];
    intros symbols Hl; simpl; [done|].
  destruct (py_slice3 symbol_list) as [infos|e]; simpl; [|done].
  pose proof (collect_symbols_unequal infos symbols Hl) as Hl'.
  destruct (collect_symbols infos symbols) as [[[]|e] symbols']; simpl in *;
    [|done].
  case_decide; simpl; [done|]. by apply IH.
Qed.

(** X9: discovery never keeps a symbol that is equal, for Python's [==],
    to a symbol it kept before. *)
Theorem discover_symbols_unequal (result : outcome) :
  pairwise_unequal (discover_symbols result).
Proof.
  assert (pairwise_unequal [PStr "BTC-USD"]) as Hdef.
  { intros i j x y Hij Hi Hj. apply lookup_lt_Some in Hj. simpl in Hj. lia. }
  unfold discover_symbols. case_decide; [|done].
  unfold discovery_body.
  destruct (match content result with
            | Some c => json_loads c
            | None => Raise TypeError
            end) as [data|e]; simpl; [|done].
  destruct (py_contains "exchanges" data) as [[]|e]; simpl; [|done..].
  destruct (exchanges ← py_getitem data "exchanges"; py_items exchanges)
    as [items|e]; simpl; [|done].
  by apply scan_exchanges_unequal.
Qed.

(** X10: in mixed mode the data queries are the requests with index 2
    modulo 3; when the number of symbols is a multiple of 3, every data
    query is for a symbol whose position is 2 modulo 3, and with exactly
    three symbols every data query is for the third one. *)
Theorem mixed_mode_skips_symbols (base_url : string) (symbols : list string)
    (now : Z) (k : nat) (i : Z) :
  length symbols = (3 * k)%nat → (0 < k)%nat → (i `mod` 3 = 2)%Z →
  ∃ pos symbol,
    symbols !! pos = Some symbol ∧
    (Z.of_nat pos `mod` 3 = 2)%Z ∧
    (k = 1%nat → pos = 2%nat) ∧
    worker_url base_url "mixed" symbols now i
      = Ok (data_url base_url symbol now "time,best_bid").
Proof.
  intros Hlen Hk Hi.
  assert (symbols ≠ []) as Hne by (destruct symbols; [simpl in Hlen; lia|done]).
  destruct (pick_symbol symbols i Hne) as (symbol & Hs & Hm & Hidx).
  assert (0 < Z.of_nat (length symbols))%Z as Hpos by lia.
  pose proof (Z.mod_pos_bound i _ Hpos) as [Hlo Hhi].
  exists (Z.to_nat (i `mod` Z.of_nat (length symbols))), symbol.
  split; [done|]. rewrite Z2Nat.id by done.
  assert ((i `mod` Z.of_nat (length symbols)) `mod` 3 = 2)%Z as Hthird.
  { rewrite Z.mod_mod_divide; [done|]. exists (Z.of_nat k). lia. }
  split; [done|]. split.
  - intros ->. simpl in Hlen. rewrite Hlen.
    change (Z.of_nat 3) with 3%Z. by rewrite Hi.
  - unfold worker_url.
    destruct (decide ("mixed" = "symbols")) as [?|_]; [done|].
    destruct (decide ("mixed" = "api")) as [?|_]; [done|].
    destruct (decide ("mixed" = "data")) as [?|_]; [done|].
    rewrite Hi. simpl. by rewrite Hm, bind_Ok, Hidx, bind_Ok.
Qed.



(** X12: the warmup never requests the status endpoint; in every mode
    other than "symbols" and "mixed" (so in "api" mode too) each warmup
    request is a data query. *)
Theorem warmup_never_status (base_url mode : string) (symbols : list string)
    (now i : Z) :
  symbols ≠ [] →
  ∃ e,
    warmup_url base_url mode symbols now i
      = Ok (endpoint_url base_url now "time,best_bid" e) ∧
    e ≠ Status ∧
    (mode ≠ "symbols" → mode ≠ "mixed" → ∃ symbol, e = Data symbol).
Proof.
  intros Hne. destruct (pick_symbol symbols i Hne) as (s & _ & Hm & Hk).
  unfold warmup_url. rewrite Hm, !bind_Ok, Hk, !bind_Ok.
  case_decide as Hmode.
  - exists Symbols. split; [done|]. split; [done|].
    intros Hs Hx. by destruct Hmode as [?|[? _]].
  - exists (Data s). split; [done|]. split; [done|]. by eexists.
Qed.

(** ** More on the stored records *)

Lemma str_le_lt_eq (a b : string) :
  str_le a b ↔ OrderedTypeEx.String_as_OT.lt a b ∨ a = b.
Proof.
  unfold str_le, String.leb.
  pose proof (OrderedTypeEx.String_as_OT.cmp_lt a b) as Hlt.
  pose proof (OrderedTypeEx.String_as_OT.cmp_eq a b) as Heq.
  pose proof (OrderedTypeEx.String_as_OT.cmp_antisym a b) as Hanti.
  unfold OrderedTypeEx.String_as_OT.cmp in *.
  destruct (String.compare a b) eqn:E.
  - split; [intros _; right; by apply Heq|done].
  - split; [intros _; left; by apply Hlt|done].
  - split; [done|]. intros [Hl| ->].
    + apply Hlt in Hl. congruence.
    + assert (Gt = Eq) as Hbb by (by apply Heq). done.
Qed.

Global Instance str_le_trans : Transitive str_le.
Proof.
  intros a b c [Hab| ->]%str_le_lt_eq [Hbc| ->]%str_le_lt_eq;
    apply str_le_lt_eq; auto.
  left. by eapply OrderedTypeEx.String_as_OT.lt_trans.
Qed.

Global Instance str_le_total : Total str_le.
Proof. intros a b. apply String.leb_total. Qed.

Lemma length_omap_le {A B} (f : A → option B) (l : list A) :
  (length (omap f l) ≤ length l)%nat.
Proof. induction l as [|x l IH]; csimpl; [done|]. destruct (f x); csimpl; lia. Qed.

Lemma mapM_Ok_length {A B} (f : A → res B) (l : list A) (ys : list B) :
  mapM f l = Ok ys → length ys = length l.
Proof.
  revert ys. induction l as [|x l IH]; intros ys; simpl; [by intros [= <-]|].
  destruct (f x) as [y|e]; [|done]. rewrite bind_Ok.
  destruct (mapM f l) as [ys'|e]; [|done]. rewrite bind_Ok.
  intros [= <-]. simpl. by rewrite (IH ys').
Qed.

(** X13: a compare-only run that ends without an exception either prints
    the usage error and exits with code 1, which happens exactly when
    fewer than two benchmark files are found, or exits with code 0 after
    a table of at most five records; the last two records are compared
    only when the table has two rows at least. *)
Theorem compare_only_outcomes (results_dir : string) (listing : list string)
    (fs : string → res pyval) (run : compare_only_run) :
  compare_only results_dir listing fs = Ok run →
  (usage_error run = true ↔
   (length (glob_benchmarks results_dir listing) < 2)%nat) ∧
  (usage_error run = true →
   exit_code run = 1%Z ∧ table run = [] ∧ comparison run = None) ∧
  (usage_error run = false → exit_code run = 0%Z) ∧
  (length (table run) ≤ 5)%nat ∧
  (is_Some (comparison run) → (2 ≤ length (table run))%nat).
Proof.
  unfold compare_only. cbv zeta.
  assert (length (merge_sort str_le (glob_benchmarks results_dir listing))
          = length (glob_benchmarks results_dir listing)) as Hsort
    by apply Permutation_length, merge_sort_Permutation.
  set (files := merge_sort str_le (glob_benchmarks results_dir listing)) in *.
  case_decide as Hfew.
  { intros [= <-]. simpl. repeat split; try done; try lia; try (by intros [? ?]). }
  assert (length (load_all fs (drop (length files - 5) files)) ≤ 5)%nat as Hfive.
  { unfold load_all. etrans; [apply length_omap_le|].
    rewrite length_drop. lia. }
  destruct (load_all fs (drop (length files - 5) files)) as [|r all] eqn:Hall.
  { intros [= <-]. simpl. repeat split; try done; try lia; try (by intros [? ?]). }
  rewrite <-Hall in *.
  destruct (mapM table_row _) as [rows|e] eqn:Hrows; [|done]. rewrite bind_Ok.
  apply mapM_Ok_length in Hrows.
  case_decide as Htwo.
  - intros (cmp & _ & [= <-])%bind_Ok_inv. simpl.
    repeat split; try done; try lia; try (by intros [? ?]).
  - rewrite bind_Ok. intros [= <-]. simpl.
    repeat split; try done; try lia; try (by intros [? ?]).
Qed.

Lemma previous_files_elem (results_dir : string) (listing : list string)
    (filename f : string) :
  f ∈ previous_files results_dir listing filename ↔
  f ∈ glob_benchmarks results_dir listing ∧ f ≠ filename ∧
  is_substring "baseline" f = false.
Proof.
  unfold previous_files. rewrite merge_sort_Permutation, list_elem_of_filter.
  tauto.
Qed.

Lemma StronglySorted_last_greatest {A} (R : relation A) `{!Reflexive R}
    (l : list A) (x y : A) :
  StronglySorted R l → last l = Some x → y ∈ l → R y x.
Proof.
  intros Hs [l' ->]%last_Some Hy.
  apply elem_of_app in Hy as [Hy|Hy%list_elem_of_singleton]; [|by subst].
  eapply StronglySorted_app_1_elem_of; [done..|]. by apply list_elem_of_singleton.
Qed.

Global Instance str_le_refl : Reflexive str_le.
Proof. intros a. apply str_le_lt_eq. by right. Qed.

(** X14: the record that [compare_with_previous] takes as the previous
    run is a benchmark file of the results directory other than the
    current file and other than a baseline, and it is the greatest such
    file name; without such a file there is neither a comparison with a
    previous run nor a trend. *)
Theorem latest_previous_is_greatest (exists_ : string → bool)
    (listing : string → list string) (fs : string → res pyval)
    (current_stats : gmap string pyval) (filename : string) :
  let out := compare_with_previous exists_ listing fs current_stats filename in
  let results_dir :=
    if exists_ "server/benchmark_results" then "server/benchmark_results"
    else "benchmark_results" in
  let candidate f :=
    f ∈ glob_benchmarks results_dir (listing results_dir) ∧ f ≠ filename ∧
    is_substring "baseline" f = false in
  match latest_previous out with
  | Some latest => candidate latest ∧ ∀ f, candidate f → str_le f latest
  | None =>
    (∀ f, ¬ candidate f) ∧ previous_report out = None ∧ trend out = None
  end.
Proof.
  intros out results_dir candidate. unfold out, compare_with_previous.
  fold results_dir.
  set (previous := previous_files results_dir (listing results_dir) filename).
  assert (∀ f, f ∈ previous ↔ candidate f) as Hcand
    by (intros f; apply previous_files_elem).
  destruct (last previous) as [latest|] eqn:Hlast; simpl.
  - split; [by apply Hcand, last_Some_elem_of|].
    intros f Hf%Hcand.
    eapply (StronglySorted_last_greatest str_le previous); [|done..].
    apply StronglySorted_merge_sort; apply _.
  - split; [|done]. intros f Hf%Hcand.
    apply last_None in Hlast. rewrite Hlast in Hf. by apply elem_of_nil in Hf.
Qed.

(** ** The historical trend *)

Lemma trend_point_within (fs : string → res pyval) (t : trends)
    (file : string) (n : nat) :
  trend_within n (p99_trend t) → trend_within n (rps_trend t) →
  trend_within (S n) (p99_trend (trend_point fs t file)) ∧
  trend_within (S n) (rps_trend (trend_point fs t file)).
Proof.
  intros [Hl1 Hp1] [Hl2 Hp2].
  assert (trend_within (S n) (p99_trend t) ∧ trend_within (S n) (rps_trend t))
    as Hsame by (repeat split; (lia || done)).
  assert (∀ l (v : Qc), (length l ≤ n)%nat →
            Forall (λ point : string * Qc, 0 < point.2) l → 0 < v →
            trend_within (S n) (l ++ [(file, v)])) as Hsnoc.
  { intros l v Hl Hp Hv. split; [rewrite length_app; simpl; lia|].
    apply Forall_app. split; [done|]. by repeat constructor. }
  unfold trend_point.
  destruct (_ ≫= _) as [[p99 rps]|e]; [|done].
  destruct (as_number p99) as [p|e]; [|done].
  destruct (as_number rps) as [r|e]; repeat case_decide; simpl;
    repeat split; auto; try lia; by apply Hsnoc.
Qed.

Lemma foldl_trend_point_within (fs : string → res pyval) (files : list string)
    (t : trends) (n : nat) :
  trend_within n (p99_trend t) → trend_within n (rps_trend t) →
  trend_within (n + length files) (p99_trend (foldl (trend_point fs) t files)) ∧
  trend_within (n + length files) (rps_trend (foldl (trend_point fs) t files)).
Proof.
  revert t n. induction files as [|f files IH]; intros t n H1 H2; simpl.
  - by rewrite Nat.add_0_r.
  - destruct (trend_point_within fs t f n H1 H2) as [H1' H2'].
    replace (n + S (length files))%nat with (S n + length files)%nat by lia.
    by apply IH.
Qed.

Lemma mapM_Ok_Forall {A B} (f : A → res B) (P : B → Prop) (l : list A) :
  (∀ x, x ∈ l → ∃ y, f x = Ok y ∧ P y) →
  ∃ ys, mapM f l = Ok ys ∧ length ys = length l ∧ Forall P ys.
Proof.
  induction l as [|x l IH]; intros Hf; [by exists []|].
  destruct IH as (ys & Hys & Hlen & HP); [intros; apply Hf; by right|].
  destruct (Hf x) as (y & Hy & Py); [left|].
  exists (y :: ys). simpl. rewrite Hy, bind_Ok, Hys. simpl.
  split; [done|]. split; [by rewrite Hlen|by constructor].
Qed.

Lemma mapM_Ok_elem {A B} (f : A → res B) (l : list A) (ys : list B)
    (x : A) (y : B) :
  mapM f l = Ok ys → x ∈ l → f x = Ok y → y ∈ ys.
Proof.
  revert ys. induction l as [|a l IH]; intros ys Hys Hx Hy.
  - by apply elem_of_nil in Hx.
  - simpl in Hys. apply bind_Ok_inv in Hys as (b & Hb & Hys).
    apply bind_Ok_inv in Hys as (bs & Hbs & [= <-]).
    apply elem_of_cons in Hx as [->|Hx].
    + rewrite Hy in Hb. injection Hb as <-. left.
    + right. by eapply IH.
Qed.

Lemma trend_point_spec (fs : string → res pyval) (t : trends) (file : string) :
  trend_point fs t file
    = {| p99_trend := p99_trend t ++ option_list (p99_point fs file);
         rps_trend := rps_trend t ++ option_list (rps_point fs file) |}.
Proof.
  clear py_sqrt json_loads py_eq.
  destruct t as [p99s rpss].
  unfold trend_point, p99_point, rps_point, stored_metric. simpl.
  destruct (fs file) as [data|e]; simpl; [|by rewrite !app_nil_r].
  destruct (py_get data "performance_summary" (PDict [])) as [perf|e]; simpl;
    [|by rewrite !app_nil_r].
  destruct perf as [| | | | |kv]; simpl; try by rewrite !app_nil_r.
  destruct (as_number (default (PNum (Qc_of_Z (-1)))
                         (assoc_get kv "p99_latency_ms"))) as [p|e] eqn:Hp,
           (as_number (default (PNum 0) (assoc_get kv "requests_per_sec")))
             as [r|e'] eqn:Hr;
    unfold py_get; destruct (assoc_get kv "p99_latency_ms") as [v|],
      (assoc_get kv "requests_per_sec") as [v'|]; simpl in *;
    rewrite ?Hp, ?Hr; simpl; repeat case_decide; simpl;
    by rewrite ?app_nil_r.
Qed.

Lemma foldl_trend_point_spec (fs : string → res pyval) (files : list string)
    (t : trends) :
  foldl (trend_point fs) t files
    = {| p99_trend := p99_trend t ++ omap (p99_point fs) files;
         rps_trend := rps_trend t ++ omap (rps_point fs) files |}.
Proof.
  clear py_sqrt json_loads py_eq.
  revert t. induction files as [|file files IH]; intros t.
  - destruct t. simpl. by rewrite !app_nil_r.
  - simpl foldl. rewrite IH, trend_point_spec. simpl. f_equal.
    + rewrite <-app_assoc. f_equal. csimpl. by destruct (p99_point fs file).
    + rewrite <-app_assoc. f_equal. csimpl. by destruct (rps_point fs file).
Qed.

(** X15: the historical trend is read from the last four previous files
    and the current file, in that order.  A file gives a point to the
    p99 trend exactly when it stores a positive p99, and a point to the
    throughput trend exactly when it stores a positive number of requests
    per second and its p99 is a number; a file that cannot be read gives
    no point and does not stop the loop.  So each trend holds at most
    five points, all positive. *)
Theorem trend_points (fs : string → res pyval) (previous_files : list string)
    (current_file : string) :
  let t := collect_trends fs previous_files current_file in
  let recent_files :=
    drop (length previous_files - 4) previous_files ++ [current_file] in
  p99_trend t = omap (p99_point fs) recent_files ∧
  rps_trend t = omap (rps_point fs) recent_files ∧
  trend_within 5 (p99_trend t) ∧ trend_within 5 (rps_trend t).
Proof.
  intros t recent_files.
  assert (trend_within (0 + length recent_files) (p99_trend t) ∧
          trend_within (0 + length recent_files) (rps_trend t))
    as [[Hl1 Hp1] [Hl2 Hp2]]
    by (apply foldl_trend_point_within; by split).
  assert (length recent_files ≤ 5)%nat as Hrecent.
  { unfold recent_files. rewrite length_app, length_drop. simpl. lia. }
  assert (t = {| p99_trend := omap (p99_point fs) recent_files;
                 rps_trend := omap (rps_point fs) recent_files |}) as Ht.
  { unfold t, collect_trends. fold recent_files.
    by rewrite foldl_trend_point_spec. }
  split; [by rewrite Ht|]. split; [by rewrite Ht|].
  split; (split; [lia|done]).
Qed.

(** ** The functional test of the error handling *)

Lemma make_request_returns (w : world) (url : string) (timeout : Z) :
  transport_failure w url timeout ≠ Some NotAnException →
  ∃ r, make_request w url timeout = Ok r.
Proof.
  unfold make_request, transport_failure.
  destruct (urlopen w url timeout) as [response|e]; simpl.
  - destruct (read response) as [body|e]; simpl; [by eexists|].
    destruct e; intros He; try done; by eexists.
  - destruct e; intros He; try done; by eexists.
Qed.

Lemma make_request_unreachable (w : world) (url : string) (timeout : Z) :
  unreachable w → ∃ r, make_request w url timeout = Ok r ∧ status r = 0%Z.
Proof.
  intros Hw. destruct (Hw url timeout) as [message Hm].
  unfold make_request. rewrite Hm. simpl. by eexists.
Qed.

Lemma run_error_cases_counts (w : world) (cases : list (string * string * Z))
    (all_passed : bool) (tr : test_results) :
  exceptions_only w 5 →
  ∃ ok tr',
    run_error_cases w cases all_passed tr = Ok (ok, tr') ∧
    (length (passed tr') + length (failed tr')
     = length (passed tr) + length (failed tr) + length cases)%nat ∧
    passed tr `prefix_of` passed tr' ∧
    failed tr `prefix_of` failed tr' ∧
    test_mode tr' = test_mode tr ∧
    (ok = true ↔ all_passed = true ∧ length (failed tr') = length (failed tr)).
Proof.
  intros Hw. revert all_passed tr.
  induction cases as [|[[test_name url] expected] rest IH]; intros all_passed tr.
  - exists all_passed, tr. simpl.
    split; [done|]. split; [lia|]. split; [done|]. split; [done|].
    split; [done|]. tauto.
  - simpl. destruct (make_request_returns w url 5 (Hw url)) as [r ->].
    rewrite bind_Ok. case_decide.
    + destruct (IH all_passed
                  {| passed := passed tr ++ ["error_handling_" +:+ test_name];
                     failed := failed tr; test_mode := test_mode tr |})
        as (ok & tr' & -> & Hlen & Hp & Hf & Hm & Hok).
      simpl in *. rewrite length_app in Hlen. simpl in Hlen.
      exists ok, tr'. split; [done|]. split; [lia|].
      split; [etrans; [apply prefix_app_r; reflexivity|exact Hp]|].
      split; [done|]. split; [done|]. exact Hok.
    + destruct (IH false
                  {| passed := passed tr;
                     failed := failed tr ++ ["error_handling_" +:+ test_name];
                     test_mode := test_mode tr |})
        as (ok & tr' & -> & Hlen & Hp & Hf & Hm & Hok).
      simpl in *. rewrite length_app in Hlen. simpl in Hlen.
      exists ok, tr'. split; [done|]. split; [lia|]. split; [done|].
      split; [etrans; [apply prefix_app_r; reflexivity|exact Hf]|].
      split; [done|]. split.
      * intros Hk. by apply Hok in Hk as [? _].
      * intros [_ Hl]. apply prefix_length in Hf.
        rewrite length_app in Hf. simpl in Hf. lia.
Qed.

(** X16: when the transport raises instances of [Exception] only, the
    error-handling test returns; it appends exactly three entries to the
    two lists of passed and failed tests, keeps what the lists held, and
    returns [True] exactly when it appended no failure. *)
Theorem error_handling_counts (w : world) (base_url : string)
    (tr : test_results) :
  exceptions_only w 5 →
  ∃ ok tr',
    test_error_handling w base_url tr = Ok (ok, tr') ∧
    (length (passed tr') + length (failed tr')
     = length (passed tr) + length (failed tr) + 3)%nat ∧
    passed tr `prefix_of` passed tr' ∧
    failed tr `prefix_of` failed tr' ∧
    (ok = true ↔ failed tr' = failed tr).
Proof.
  intros Hw.
  destruct (run_error_cases_counts w (error_test_cases base_url) true tr Hw)
    as (ok & tr' & Hrun & Hlen & Hp & Hf & _ & Hok).
  exists ok, tr'. repeat (split; [done|]). rewrite Hok. split.
  - intros [_ Hl]. symmetry. apply prefix_length_eq; [done|lia].
  - intros ->. done.
Qed.

(** X17: against a server that cannot be reached, the error-handling test
    passes the two cases that expect status 400 and fails the case that
    expects status 404. *)
Theorem unreachable_server_passes_two (w : world) (base_url : string)
    (tr : test_results) :
  unreachable w →
  test_error_handling w base_url tr
    = Ok (false,
          {| passed := passed tr ++ ["error_handling_Missing symbol";
                                     "error_handling_Invalid time range"];
             failed := failed tr ++ ["error_handling_Invalid endpoint"];
             test_mode := test_mode tr |}).
Proof.
  intros Hw. unfold test_error_handling, error_test_cases. simpl.
  destruct (make_request_unreachable w (base_url +:+ "/api/invalid") 5 Hw)
    as (r1 & -> & H1).
  rewrite bind_Ok, H1. rewrite decide_False by (intros [?|[_ ?]]; done).
  destruct (make_request_unreachable w
              (base_url +:+ "/api/data?type=MD&start=1&end=2") 5 Hw)
    as (r2 & -> & H2).
  rewrite bind_Ok, H2. rewrite decide_True by (by right).
  destruct (make_request_unreachable w
              (base_url +:+ "/api/data?symbol=TEST&type=MD&start=2&end=1") 5 Hw)
    as (r3 & -> & H3).
  rewrite bind_Ok, H3. rewrite decide_True by (by right).
  simpl. by rewrite <-app_assoc.
Qed.

(** ** The requirement check and the stored success rate *)

Lemma Qc_div_lt_upper (a d m : Qc) : 0 < d → a < d * m → a / d < m.
Proof.
  intros Hd H. apply (Qcmult_lt_mono_pos_r _ _ d Hd).
  replace (a / d * d) with a by (field; by apply Qc_pos_ne_0).
  by rewrite (Qcmult_comm m).
Qed.

Lemma Qc_of_nat_le (a b : nat) : (a ≤ b)%nat → Qc_of_nat a ≤ Qc_of_nat b.
Proof. intros H. unfold Qc_of_nat. apply (proj1 (Z2Qc_inj_le _ _)). lia. Qed.

Lemma Qc_of_nat_lt (a b : nat) : (a < b)%nat → Qc_of_nat a < Qc_of_nat b.
Proof. intros H. unfold Qc_of_nat. apply (proj1 (Z2Qc_inj_lt _ _)). lia. Qed.

Lemma Qc_100_pos : 0 < Qc_of_Z 100.
Proof. done. Qed.

(** The rate [a / b * 100] of [a] successes among [b] requests. *)
Lemma rate_range (a b : nat) :
  (a ≤ b)%nat → (0 < b)%nat →
  let rate := Qc_of_nat a / Qc_of_nat b * Qc_of_Z 100 in
  0 ≤ rate ∧ rate ≤ Qc_of_Z 100 ∧
  ((a < b)%nat → rate < Qc_of_Z 100) ∧
  (a = b → rate = Qc_of_Z 100).
Proof.
  intros Hab Hb rate. pose proof (Qc_of_nat_pos b Hb) as Hbpos.
  assert (0 ≤ Qc_of_nat a) as Ha.
  { unfold Qc_of_nat. rewrite <-Z2Qc_inj_0.
    apply (proj1 (Z2Qc_inj_le 0 (Z.of_nat a))). lia. }
  unfold rate. repeat split.
  - apply Qcmult_nonneg_nonneg; [|by apply Qclt_le_weak, Qc_100_pos].
    apply Qc_div_lower; [done|]. by rewrite Qcmult_0_r.
  - rewrite <-(Qcmult_1_l (Qc_of_Z 100)) at 2.
    apply Qcmult_le_mono_nonneg_r; [by apply Qclt_le_weak, Qc_100_pos|].
    apply Qc_div_upper; [done|]. rewrite Qcmult_1_r. by apply Qc_of_nat_le.
  - intros Hlt. rewrite <-(Qcmult_1_l (Qc_of_Z 100)) at 2.
    apply Qcmult_lt_mono_pos_r; [apply Qc_100_pos|].
    apply Qc_div_lt_upper; [done|]. rewrite Qcmult_1_r. by apply Qc_of_nat_lt.
  - intros ->. unfold Qcdiv. rewrite Qcmult_inv_r by by apply Qc_pos_ne_0.
    by rewrite Qcmult_1_l.
Qed.

Lemma filter_all_length {A} (P : A → Prop) `{!∀ x, Decision (P x)} (l : list A) :
  length (filter P l) = length l ↔ Forall P l.
Proof.
  split.
  - intros Hlen. apply Forall_forall. intros x Hx.
    destruct (decide (P x)) as [|Hn]; [done|].
    pose proof (length_filter_lt P l x Hx Hn). lia.
  - intros Hall. induction Hall as [|x l Hx _ IH]; [done|].
    rewrite filter_cons_True by done. simpl. by rewrite IH.
Qed.

(** A summary with a success, as far as the success rate goes. *)
Lemma analyze_counts (results : list outcome) (total_time : Qc)
    (stats : gmap string pyval) :
  analyze results total_time = Ok stats →
  successful_latencies results ≠ [] →
  let s := length (filter (λ r, status r = 200%Z) results) in
  stats !! "error" = None ∧
  stats !! "success_rate" = None ∧
  stats !! "successful" = Some (PNum (Qc_of_nat s)) ∧
  stats !! "total_requests" = Some (PNum (Qc_of_nat (length results))) ∧
  map_Forall (λ _ v, ∃ q, v = PNum q) stats ∧
  (0 < s ≤ length results)%nat.
Proof.
  intros Hs Hne s.
  pose proof (analyze_ok_time _ _ _ Hs Hne) as Ht.
  destruct (analyze_success results total_time Ht Hne)
    as (stats' & mn & mx & p50 & p90 & p95 & p99 & Hs' & _ & _ &
        _ & _ & _ & _ & Lt & Ls & _ & _ & _ & _ & _ & _ & _ & _ & Le).
  rewrite Hs in Hs'. injection Hs' as <-.
  destruct (analyze_fields results total_time Ht Hne)
    as (stats' & mean & med & sd & Hs' & _ & _ & _ & _ & _ & _ & _ & Lr & Hnum).
  rewrite Hs in Hs'. injection Hs' as <-.
  repeat (split; [done|]). split.
  - unfold s. unfold successful_latencies in Hne.
    destruct (filter _ results); [done|simpl; lia].
  - apply length_filter.
Qed.

(** X18: after a run with a success and a failed request, the requirement
    check of [print_results] reports an issue in every mode: the success
    rate, shown as 0 whatever the rate was.  For a summary without a
    success the check is not made at all. *)
Theorem failure_fails_performance_check (tr : test_results)
    (results : list outcome) (total_time : Qc) (stats : gmap string pyval) :
  analyze results total_time = Ok stats →
  (successful_latencies results = [] → performance_check tr stats = Ok None) ∧
  (successful_latencies results ≠ [] →
   Exists (λ r, status r ≠ 200%Z) results →
   ∃ issues,
     performance_check tr stats = Ok (Some issues) ∧
     {| issue_name := "Success rate %"; issue_value := 0;
        issue_threshold := Qc_of_Z 100; issue_above := false |} ∈ issues).
Proof.
  intros Hs. split.
  - intros Hnil. rewrite (analyze_degraded _ _ Hnil) in Hs. injection Hs as <-.
    unfold performance_check. by rewrite decide_False by done.
  - intros Hne Hfail.
    destruct (analyze_counts _ _ _ Hs Hne) as (Le & Lr & Ls & Lt & Hnum & Hpos).
    set (s := length (filter (λ r, status r = 200%Z) results)) in *.
    assert (s < length results)%nat as Hlt.
    { apply Exists_exists in Hfail as (r & Hr & Hst).
      by apply (length_filter_lt _ _ r). }
    destruct (rate_range s (length results)) as (_ & _ & Hrate & _); [lia..|].
    unfold performance_check, dict_get.
    rewrite decide_True by done. rewrite Ls, Lt. simpl.
    rewrite py_truediv_ok by (apply Qc_of_nat_ne_0; lia). rewrite bind_Ok.
    rewrite decide_True by (by apply Hrate).
    destruct (mapM_Ok_Forall (check_requirement stats) (λ _, True)
                (requirements (test_mode tr) ++
                 [("success_rate", (Qc_of_Z 100, "Success rate %", None))]))
      as (issues & Hissues & _ & _).
    { intros [metric [[threshold name] lower]] _. unfold check_requirement, dict_get.
      destruct (stats !! metric) as [v|] eqn:Hv.
      - destruct (Hnum metric v Hv) as [q ->]. simpl.
        destruct (default false lower); case_decide; by eexists.
      - simpl. destruct (default false lower); case_decide; by eexists. }
    rewrite Hissues, bind_Ok. eexists. split; [done|].
    apply list_elem_of_omap. eexists (Some _). split; [|done].
    eapply (mapM_Ok_elem _ _ _
              ("success_rate", (Qc_of_Z 100, "Success rate %", None)));
      [done|apply elem_of_app; right; by left|].
    unfold check_requirement, dict_get. by rewrite Lr.
Qed.

(** X19: the success rate stored with a run made by [analyze] lies
    between 0 and 100, and it is 100 exactly when there is at least one
    outcome and every outcome has status 200. *)
Theorem stored_success_rate_range (results : list outcome)
    (total_time : Qc) (stats : gmap string pyval) :
  analyze results total_time = Ok stats →
  ∃ summary rate,
    performance_summary stats = Ok summary ∧
    summary !! "success_rate" = Some (PNum rate) ∧
    0 ≤ rate ∧ rate ≤ Qc_of_Z 100 ∧
    (rate = Qc_of_Z 100 ↔
     results ≠ [] ∧ Forall (λ r, status r = 200%Z) results).
Proof.
  intros Hs. destruct (decide (successful_latencies results = [])) as [Hnil|Hne].
  - rewrite (analyze_degraded _ _ Hnil) in Hs. injection Hs as <-.
    eexists _, 0. unfold performance_summary, success_rate.
    rewrite decide_False by done. rewrite bind_Ok.
    split; [done|]. split; [done|]. split; [done|]. split; [done|].
    split; [done|]. intros [Hres Hall].
    unfold successful_latencies in Hnil. apply fmap_nil_inv in Hnil.
    apply (proj2 (filter_all_length _ _)) in Hall. rewrite Hnil in Hall.
    destruct results; [done|simpl in Hall; lia].
  - destruct (analyze_counts _ _ _ Hs Hne) as (Le & Lr & Ls & Lt & Hnum & Hpos).
    set (s := length (filter (λ r, status r = 200%Z) results)) in *.
    destruct (rate_range s (length results)) as (H0 & H100 & Hlt & Heq);
      [lia..|].
    eexists _, _. unfold performance_summary, success_rate, dict_get.
    rewrite decide_True by done. rewrite Ls, Lt. simpl.
    rewrite py_truediv_ok by (apply Qc_of_nat_ne_0; lia). rewrite !bind_Ok.
    split; [done|]. split; [done|]. split; [done|]. split; [done|]. split.
    + intros Hr. split; [destruct results; [simpl in Hpos; lia|done]|].
      apply (proj1 (filter_all_length _ _)). fold s.
      destruct (decide (s = length results)) as [|Hn]; [done|].
      assert (s < length results)%nat as Hs' by lia.
      apply Hlt in Hs'. rewrite Hr in Hs'. by apply Qclt_not_eq in Hs'.
    + intros [_ Hall]. apply Heq. by apply (proj2 (filter_all_length _ _)).
Qed.

(** ** The brace scan *)

Lemma find_json_end_found (text : string) (i0 : nat) (prev : option ascii)
    (brace_count : Z) (in_string : bool) (i : nat) :
  find_json_end text i0 prev brace_count in_string = Some i →
  (i0 ≤ i)%nat ∧
  (i = i0 → brace_count = 1%Z) ∧
  String.get (i - i0) text = Some "}"%char ∧
  ∀ more, find_json_end (text +:+ more) i0 prev brace_count in_string = Some i.
Proof.
  clear py_sqrt json_loads py_eq.
  revert i0 prev brace_count in_string.
  induction text as [|char rest IH]; intros i0 prev brace_count in_string; [done|].
  assert (∀ prev' bc ins,
    find_json_end rest (S i0) prev' bc ins = Some i →
    (i0 ≤ i)%nat ∧ (i = i0 → brace_count = 1%Z) ∧
    String.get (i - i0) (String char rest) = Some "}"%char ∧
    ∀ more, find_json_end (rest +:+ more) (S i0) prev' bc ins = Some i) as Hrec.
  { intros prev' bc ins H. destruct (IH _ _ _ _ H) as (Hle & _ & Hget & Hmore).
    split; [lia|]. split; [lia|]. split; [|done].
    replace (i - i0)%nat with (S (i - S i0)) by lia. done. }
  simpl. destruct (decide (char = "034"%char ∧ prev ≠ Some "\"%char)); [by apply Hrec|].
  destruct in_string; simpl; [by apply Hrec|].
  destruct (decide (char = "{"%char)); [by apply Hrec|].
  destruct (decide (char = "}"%char)) as [->|]; [|by apply Hrec].
  destruct (decide (brace_count - 1 = 0)%Z); [|by apply Hrec].
  intros [= <-]. rewrite Nat.sub_diag. split; [done|]. split; [lia|]. done.
Qed.

(** X20: when the brace scan of [test_data_endpoint] finds the end of the
    JSON header, the index found is positive, so that the test
    [json_end > 0] accepts it, the character there is a closing brace, and
    whatever follows the header in the body does not change the index. *)
Theorem json_end_found (text : string) (i : nat) :
  json_end text = Some i →
  (0 < i)%nat ∧
  String.get i text = Some "}"%char ∧
  ∀ more, json_end (text +:+ more) = Some i.
Proof.
  clear py_sqrt json_loads py_eq.
  intros H. destruct (find_json_end_found _ _ _ _ _ _ H) as (_ & H0 & Hget & Hmore).
  rewrite Nat.sub_0_r in Hget. split; [|done].
  destruct i; [|lia]. by specialize (H0 eq_refl).
Qed.

(** ** A saved run read back *)

Lemma mapM_Ok_cons {A B} (f : A → res B) (x : A) (l : list A) (y : B)
    (ys : list B) :
  f x = Ok y → mapM f l = Ok ys → mapM f (x :: l) = Ok (y :: ys).
Proof. clear py_sqrt json_loads py_eq. intros Hx Hl. simpl. by rewrite Hx, Hl. Qed.

Lemma save_record_stored_summary (base_url : string) (tr : test_results)
    (timestamp : string) (perf_stats test_config summary : gmap string pyval) :
  performance_summary perf_stats = Ok summary →
  ∃ record,
    save_record base_url tr timestamp perf_stats test_config = Ok record ∧
    stored_summary record = Ok summary.
Proof.
  clear py_sqrt json_loads py_eq.
  intros Hsum. unfold save_record. rewrite Hsum, bind_Ok.
  eexists. split; [done|].
  unfold stored_summary, as_dict. rewrite bind_Ok. unfold dict_get.
  rewrite !list_to_map_cons.
  rewrite !lookup_insert_ne by done. rewrite lookup_insert_eq.
  by rewrite list_to_map_to_list.
Qed.

Lemma Qc_no_change (v : Qc) : (v - v) / v * Qc_of_Z 100 = 0.
Proof. unfold Qcdiv, Qcminus. rewrite Qcplus_opp_r. by rewrite !Qcmult_0_l. Qed.

Lemma compare_metric_same (prev_perf curr_perf : gmap string pyval)
    (is_baseline : bool) (name key unit : string) (lower : bool) (v : Qc) :
  metric_values prev_perf curr_perf key = Ok (PNum v, PNum v) →
  0 < v →
  compare_metric prev_perf curr_perf is_baseline (name, key, unit, lower)
    = Ok (Some (unchanged_line name unit v)).
Proof.
  clear py_sqrt json_loads py_eq.
  intros Hv Hpos. unfold compare_metric. rewrite Hv, bind_Ok.
  unfold py_gt0. simpl. rewrite !bool_decide_eq_true_2 by done.
  rewrite py_truediv_ok by by apply Qc_pos_ne_0.
  rewrite bind_Ok, Qc_no_change. by destruct lower, is_baseline.
Qed.

(** X21: a run with a success, measured over a positive time, is saved
    by [save_results]; when a run with the same summary is compared with
    that file, the report has exactly two lines, requests per second and
    success rate, both unchanged with change 0, no line for the two
    latencies, and against a baseline the verdict is "similar". *)
Theorem saved_run_compares_unchanged (base_url : string) (tr : test_results)
    (timestamp results_dir stamp : string) (test_config : gmap string pyval)
    (fs : string → res pyval) (results : list outcome) (total_time : Qc)
    (stats : gmap string pyval) (is_baseline : bool) :
  analyze results total_time = Ok stats →
  successful_latencies results ≠ [] →
  0 < total_time →
  ∃ record,
    save_record base_url tr timestamp stats test_config = Ok record ∧
    let saved := save_results results_dir stamp record fs in
    let rps := Qc_of_nat (length results) / total_time in
    let rate :=
      Qc_of_nat (length (filter (λ r, status r = 200%Z) results))
        / Qc_of_nat (length results) * Qc_of_Z 100 in
    compare_with_file stats (saved.2 saved.1) is_baseline
      = Some {| report_lines :=
                  [ unchanged_line "Requests/sec" "" rps;
                    unchanged_line "Success Rate" "%" rate ];
                report_verdict := if is_baseline then Some Similar else None |}.
Proof.
  intros Hs Hne Htime.
  pose proof (analyze_ok_time _ _ _ Hs Hne) as Ht.
  destruct (analyze_success results total_time Ht Hne)
    as (stats' & mn & mx & p50 & p90 & p95 & p99 & Hs' & _ & _ &
        _ & _ & _ & _ & Lt & Ls & _ & Lrps & _ & _ & _ & _ & _ & L99 & Le).
  rewrite Hs in Hs'. injection Hs' as <-.
  destruct (analyze_counts _ _ _ Hs Hne) as (_ & Lr & _ & _ & _ & Hpos).
  set (s := length (filter (λ r, status r = 200%Z) results)) in *.
  set (rps := Qc_of_nat (length results) / total_time).
  set (rate := Qc_of_nat s / Qc_of_nat (length results) * Qc_of_Z 100).
  assert (0 < rps) as Hrps.
  { unfold rps. apply (Qcmult_lt_mono_pos_r _ _ total_time Htime).
    rewrite Qcmult_0_l.
    replace (Qc_of_nat (length results) / total_time * total_time)
      with (Qc_of_nat (length results)) by (by field).
    apply Qc_of_nat_pos. lia. }
  assert (0 < rate) as Hrate.
  { unfold rate. rewrite <-(Qcmult_0_l (Qc_of_Z 100)) at 1.
    apply Qcmult_lt_mono_pos_r; [apply Qc_100_pos|].
    pose proof (Qc_of_nat_pos (length results) ltac:(lia)) as Hn.
    apply (Qcmult_lt_mono_pos_r _ _ _ Hn). rewrite Qcmult_0_l.
    replace (Qc_of_nat s / Qc_of_nat (length results) * Qc_of_nat (length results))
      with (Qc_of_nat s) by (field; by apply Qc_pos_ne_0).
    apply Qc_of_nat_pos. lia. }
  assert (success_rate stats = Ok rate) as Hsr.
  { unfold success_rate, dict_get. rewrite decide_True by done.
    rewrite Ls, Lt. simpl.
    by rewrite py_truediv_ok by (apply Qc_of_nat_ne_0; lia). }
  set (mean := dict_get stats "latency_mean" (PNum (Qc_of_Z (-1)))).
  set (summary :=
    <["p99_latency_ms" := PNum p99]>
      (<["mean_latency_ms" := mean]>
      (<["requests_per_sec" := PNum rps]>
      (<["success_rate" := PNum rate]> (∅ : gmap string pyval))))).
  assert (performance_summary stats = Ok summary) as Hsum.
  { unfold performance_summary. rewrite Hsr, bind_Ok. unfold dict_get at 1 3.
    by rewrite L99, Lrps. }
  destruct (save_record_stored_summary base_url tr timestamp stats test_config
              summary Hsum) as (record & Hrec & Hstored).
  exists record. split; [done|]. cbv zeta.
  unfold save_results. simpl. rewrite decide_True by done.
  unfold compare_with_file. rewrite bind_Ok, Hstored, bind_Ok.
  assert (compare_metric summary stats is_baseline
            ("P99 Latency", "latency_p99", "ms", true) = Ok None) as H1.
  { by apply (stored_latency_metrics_skipped stats); [|left]. }
  assert (compare_metric summary stats is_baseline
            ("Mean Latency", "latency_mean", "ms", true) = Ok None) as H2.
  { by apply (stored_latency_metrics_skipped stats); [|right]. }
  assert (compare_metric summary stats is_baseline
            ("Requests/sec", "requests_per_sec", "", false)
          = Ok (Some (unchanged_line "Requests/sec" "" rps))) as H3.
  { apply compare_metric_same; [|done]. unfold metric_values, dict_get.
    by rewrite Lrps. }
  assert (compare_metric summary stats is_baseline
            ("Success Rate", "successful", "%", false)
          = Ok (Some (unchanged_line "Success Rate" "%" rate))) as H4.
  { apply compare_metric_same; [|done]. unfold metric_values.
    rewrite decide_True by done. by rewrite Hsr. }
  unfold compare_body, metrics.
  assert (mapM (compare_metric summary stats is_baseline) [] = Ok []) as H5
    by done.
  rewrite (mapM_Ok_cons _ _ _ _ _ H1
            (mapM_Ok_cons _ _ _ _ _ H2
              (mapM_Ok_cons _ _ _ _ _ H3 (mapM_Ok_cons _ _ _ _ _ H4 H5)))).
  rewrite bind_Ok. csimpl.
  destruct is_baseline; [|done].
  unfold p99_change, rps_change.
  assert (summary !! "p99_latency_ms" = Some (PNum p99)) as S99.
  { unfold summary. by rewrite lookup_insert_eq. }
  assert (summary !! "requests_per_sec" = Some (PNum rps)) as Srps.
  { unfold summary. rewrite !lookup_insert_ne by done.
    by rewrite lookup_insert_eq. }
  rewrite (baseline_change_formula summary stats _ _ p99 p99 S99 L99).
  rewrite (baseline_change_formula summary stats _ _ rps rps Srps Lrps).
  rewrite !bind_Ok, !Qc_no_change.
  by destruct (decide (0 < p99)), (decide (0 < rps)).
Qed.

End benchmark.

(** * The fallback on unusable entries *)

(** C6: when the symbols endpoint answers 200 with a first entry whose
    ['symbol'] is not a string (an object without the key, a null or a
    number under it), discovery does not fall back to the default symbol:
    the value is appended after BTC-USD, the [join] of line 389 raises
    [TypeError], and no URL is built in any mode for any request.  So it
    is for the answer whose only entry is the object with the single key
    ["id"]. *)
Theorem unusable_entries_no_url :
  (∀ json_loads py_eq result c data exchange entry infos rest symbol,
     status result = 200%Z →
     content result = Some c → json_loads c = Ok data →
     py_contains py_eq "exchanges" data = Ok true →
     (exchanges ← py_getitem data "exchanges"; py_items exchanges)
       = Ok ((exchange, PList (entry :: infos)) :: rest) →
     py_get entry "symbol" entry = Ok symbol →
     (∀ s, symbol ≠ PStr s) →
     py_eq symbol (PStr "BTC-USD") = false →
     (∃ more,
        discover_symbols json_loads py_eq result
          = PStr "BTC-USD" :: symbol :: more) ∧
     ∀ base_url mode now requests,
       benchmark_urls json_loads py_eq base_url mode result now requests
         = Raise TypeError) ∧
  (∀ py_eq,
     py_eq (PDict [("id", PStr "x")]) (PStr "BTC-USD") = false →
     discover_symbols loads_unusable py_eq answer_200
       = [PStr "BTC-USD"; PDict [("id", PStr "x")]] ∧
     ∀ base_url mode now requests,
       benchmark_urls loads_unusable py_eq base_url mode answer_200 now requests
         = Raise TypeError).
Proof.
  assert (∀ json_loads py_eq result c data exchange entry infos rest symbol,
     status result = 200%Z →
     content result = Some c → json_loads c = Ok data →
     py_contains py_eq "exchanges" data = Ok true →
     (exchanges ← py_getitem data "exchanges"; py_items exchanges)
       = Ok ((exchange, PList (entry :: infos)) :: rest) →
     py_get entry "symbol" entry = Ok symbol →
     (∀ s, symbol ≠ PStr s) →
     py_eq symbol (PStr "BTC-USD") = false →
     (∃ more,
        discover_symbols json_loads py_eq result
          = PStr "BTC-USD" :: symbol :: more) ∧
     ∀ base_url mode now requests,
       benchmark_urls json_loads py_eq base_url mode result now requests
         = Raise TypeError) as Hgeneral.
  { intros json_loads py_eq result c data exchange entry infos rest symbol
      Hst Hc Hj Hin Hex Hget Hnot Heq.
    destruct (unusable_entry_kept json_loads py_eq result c data entry symbol
                exchange infos rest Hst Hc Hj Hin Hex Hget Heq) as [more Hmore].
    split; [by exists more|].
    intros base_url mode now requests. unfold benchmark_urls.
    by rewrite Hmore, (str_items_unusable symbol "BTC-USD" more Hnot). }
  split; [exact Hgeneral|].
  intros py_eq Heq.
  destruct (Hgeneral loads_unusable py_eq answer_200 []
              unusable_document "coinbase" (PDict [("id", PStr "x")]) [] []
              (PDict [("id", PStr "x")])) as [_ Hurls]; try done.
  split; [|exact Hurls].
  unfold discover_symbols, discovery_body. simpl. by rewrite Heq.
Qed.

(** * Instances

    The theorems above at concrete inputs; the square root, the JSON
    decoder and the equality of values are fixed to simple functions. *)

Lemma percentile_at_rank_witness :
  Qc_of_Z 1 ≠ 0 ∧ successful_latencies ten_outcomes ≠ [] ∧
  ∃ stats,
    analyze identity_sqrt ten_outcomes (Qc_of_Z 1) = Ok stats ∧
    stats !! "latency_p90" = Some (PNum (Qc_of_Z 10)) ∧
    stats !! "latency_p50" = Some (PNum (Qc_of_Z 6)).
Proof.
  assert (Qc_of_Z 1 ≠ 0) as H1 by done.
  assert (successful_latencies ten_outcomes ≠ []) as H2 by done.
  split; [exact H1|]. split; [exact H2|].
  destruct (percentile_at_rank identity_sqrt ten_outcomes (Qc_of_Z 1) H1 H2)
    as (stats & v50 & v90 & v95 & v99 & Hs & _ & _ & _ & _ &
        L50 & L90 & _ & _ & Hten).
  destruct Hten as [-> ->]; [by vm_compute|].
  by exists stats.
Defined.

Lemma successful_plus_failed_witness :
  (Qc_of_Z 1 ≠ 0 ∨ successful_latencies mixed_outcomes = []) ∧
  ∃ stats,
    analyze identity_sqrt mixed_outcomes (Qc_of_Z 1) = Ok stats ∧
    stats !! "successful" = Some (PNum (Qc_of_nat 1)) ∧
    stats !! "failed" = Some (PNum (Qc_of_nat 2)) ∧
    stats !! "total_requests" = Some (PNum (Qc_of_nat 3)).
Proof.
  assert (Qc_of_Z 1 ≠ 0 ∨ successful_latencies mixed_outcomes = []) as H
    by (by left).
  split; [exact H|].
  destruct (successful_plus_failed identity_sqrt mixed_outcomes (Qc_of_Z 1) H)
    as (stats & s & f & Hs & -> & -> & Ls & Lf & Lt & _).
  by exists stats.
Defined.

Lemma percentiles_ordered_witness :
  Qc_of_Z 1 ≠ 0 ∧ successful_latencies ten_outcomes ≠ [] ∧
  ∃ stats mn p50 p99 mx,
    analyze identity_sqrt ten_outcomes (Qc_of_Z 1) = Ok stats ∧
    stats !! "latency_min" = Some (PNum mn) ∧
    stats !! "latency_p50" = Some (PNum p50) ∧
    stats !! "latency_p99" = Some (PNum p99) ∧
    stats !! "latency_max" = Some (PNum mx) ∧
    (mn ≤ p50)%Qc ∧ (p50 ≤ p99)%Qc ∧ (p99 ≤ mx)%Qc.
Proof.
  assert (Qc_of_Z 1 ≠ 0) as H1 by done.
  assert (successful_latencies ten_outcomes ≠ []) as H2 by done.
  split; [exact H1|]. split; [exact H2|].
  destruct (percentiles_ordered identity_sqrt ten_outcomes (Qc_of_Z 1) H1 H2)
    as (stats & mn & p50 & p90 & p95 & p99 & mx & Hs & Lmn & L50 & _ & _ &
        L99 & Lmx & H01 & H12 & H23 & H34 & H45 & _).
  exists stats, mn, p50, p99, mx. repeat (split; [done|]).
  split; [|done].
  eapply Qcle_trans; [exact H12|]. eapply Qcle_trans; [exact H23|exact H34].
Defined.

Lemma make_request_total_witness :
  (perf_counter_before refusing_world ≤ perf_counter_after refusing_world)%Qc ∧
  transport_failure refusing_world "http://localhost:8443/api/symbols" 30
    ≠ Some NotAnException ∧
  ∃ r,
    make_request refusing_world "http://localhost:8443/api/symbols" 30 = Ok r ∧
    status r = 0%Z ∧ bytes r = 0%nat ∧ error r = Some "Connection refused" ∧
    (0 ≤ latency_ms r)%Qc.
Proof.
  assert (perf_counter_before refusing_world ≤ perf_counter_after refusing_world)%Qc
    as H1 by done.
  assert (transport_failure refusing_world "http://localhost:8443/api/symbols" 30
          ≠ Some NotAnException) as H2 by done.
  split; [exact H1|]. split; [exact H2|].
  destruct (make_request_total refusing_world
              "http://localhost:8443/api/symbols" 30 H1 H2)
    as (r & Hr & Hlat & Hcase).
  exists r. simpl in Hcase. destruct Hcase as (Hst & Hb & He).
  by repeat split.
Defined.

Lemma default_symbol_fallback_witness :
  finds_no_entry loads_nothing never_equal (outcome_of 500 3) ∧
  discover_symbols loads_nothing never_equal (outcome_of 500 3)
    = [PStr "BTC-USD"] ∧
  worker_url "http://h" "data" ["BTC-USD"] 5000 7
    = Ok (data_url "http://h" "BTC-USD" 5000 "time,best_bid,best_ask") ∧
  ∃ url, worker_url "http://h" "mixed" ["BTC-USD"] 5000 8 = Ok url.
Proof.
  assert (finds_no_entry loads_nothing never_equal (outcome_of 500 3)) as H
    by (by apply bad_status).
  split; [exact H|].
  destruct (default_symbol_fallback loads_nothing never_equal (outcome_of 500 3))
    as (_ & Htotal & Hfail).
  destruct (Hfail H) as (Hdef & Hstr & Hurls).
  split; [exact Hdef|]. split; [apply Hurls|].
  rewrite Hdef in Htotal.
  by destruct (Htotal ["BTC-USD"] "http://h" "mixed" 5000%Z 8%Z Hstr) as [_ ?].
Defined.

Lemma string_symbols_keep_default_witness :
  status answer_200 = 200%Z ∧
  content answer_200 = Some [] ∧
  loads_strings [] = Ok strings_document ∧
  discover_symbols loads_strings never_equal answer_200 = [PStr "BTC-USD"] ∧
  (discovery_body loads_strings never_equal answer_200 [PStr "BTC-USD"]).1
    = Raise AttributeError.
Proof.
  split; [done|]. split; [done|]. split; [done|].
  assert (Forall (λ p : string * pyval, string_list p.2)
            [("coinbase", PList (PStr <$> ["BTC-USD"; "ETH-USD"; "SOL-USD"]));
             ("kraken", PList (PStr <$> ["XBT/USD"]))]) as Hstrings
    by (repeat constructor; by eexists).
  destruct (string_symbols_keep_default loads_strings never_equal answer_200 []
              [("exchanges",
                PDict [("coinbase",
                        PList (PStr <$> ["BTC-USD"; "ETH-USD"; "SOL-USD"]));
                       ("kraken", PList (PStr <$> ["XBT/USD"]))])]
              _ eq_refl eq_refl eq_refl eq_refl Hstrings)
    as (_ & Hraise & Hdef & _).
  split; [exact Hdef|]. apply Hraise. by left.
Defined.

Lemma metric_change_or_skip_witness :
  ("Requests/sec", "requests_per_sec", "", false) ∈ metrics ∧
  metric_values baseline_example current_example "requests_per_sec"
    = Ok (PNum (Qc_of_Z 1000), PNum (Qc_of_Z 950)) ∧
  (0 < Qc_of_Z 1000)%Qc ∧ (0 < Qc_of_Z 950)%Qc ∧
  (∃ line,
     compare_metric baseline_example current_example true
       ("Requests/sec", "requests_per_sec", "", false) = Ok (Some line) ∧
     line_change line
       = ((Qc_of_Z 950 - Qc_of_Z 1000) / Qc_of_Z 1000 * Qc_of_Z 100)%Qc) ∧
  successful_latencies failed_outcomes = [] ∧
  ∃ stats,
    analyze identity_sqrt failed_outcomes (Qc_of_Z 0) = Ok stats ∧
    performance_summary stats = Ok degraded_projection ∧
    no_zero_division (compare_body baseline_example stats true) ∧
    compare_metric degraded_projection stats true
      ("P99 Latency", "latency_p99", "ms", true) = Ok None.
Proof.
  assert (("Requests/sec", "requests_per_sec", "", false) ∈ metrics) as Hin
    by (unfold metrics; rewrite !elem_of_cons; tauto).
  assert (("P99 Latency", "latency_p99", "ms", true) ∈ metrics) as Hin99
    by (unfold metrics; rewrite !elem_of_cons; tauto).
  assert (metric_values baseline_example current_example "requests_per_sec"
          = Ok (PNum (Qc_of_Z 1000), PNum (Qc_of_Z 950))) as Hv by done.
  assert (0 < Qc_of_Z 1000)%Qc as Hp by done.
  assert (0 < Qc_of_Z 950)%Qc as Hc by done.
  assert (successful_latencies failed_outcomes = []) as Hnil by done.
  destruct (metric_change_or_skip identity_sqrt) as (Hmetric & Hzero & Hdeg).
  destruct (Hmetric baseline_example current_example true
              "Requests/sec" "requests_per_sec" "" false
              _ _ _ _ Hin Hv eq_refl eq_refl) as [_ Hline].
  destruct (Hline Hp Hc) as (line & Hl & _ & _ & _ & Hchange).
  destruct (Hdeg failed_outcomes (Qc_of_Z 0) Hnil)
    as (stats & Hs & Hsum & _ & Hprev & _).
  repeat (split; [done|]). split; [by exists line|]. split; [done|].
  exists stats. repeat (split; [done|]).
  split; [by eapply Hzero|]. by eapply Hprev.
Defined.

Lemma baseline_verdict_witness :
  baseline_example !! "p99_latency_ms" = Some (PNum (Qc_of_Z 10)) ∧
  current_example !! "latency_p99" = Some (PNum (Qc_of_Z 12)) ∧
  (0 < Qc_of_Z 10)%Qc ∧
  p99_change baseline_example current_example
    = Ok ((Qc_of_Z 12 - Qc_of_Z 10) / Qc_of_Z 10 * Qc_of_Z 100)%Qc ∧
  ∃ r a b,
    compare_body baseline_example current_example true = Ok r ∧
    p99_change baseline_example current_example = Ok a ∧
    rps_change baseline_example current_example = Ok b ∧
    a = Qc_of_Z 20 ∧ b = Qc_of_Z (-5) ∧
    report_verdict r = Some (verdict_of a b) ∧
    verdict_of a b = Regression.
Proof.
  assert (baseline_example !! "p99_latency_ms" = Some (PNum (Qc_of_Z 10)))
    as Hp by done.
  assert (current_example !! "latency_p99" = Some (PNum (Qc_of_Z 12)))
    as Hc by done.
  assert (0 < Qc_of_Z 10)%Qc as Hp0 by done.
  destruct baseline_verdict
    as (Hverdict & H99 & _ & E99 & Erps & (r & line & Hr & _) & _).
  destruct (Hverdict _ _ r Hr) as (a & b & Ha & Hb & Hrv & Hreg & _).
  assert (a = Qc_of_Z 20) as Ea by congruence.
  assert (b = Qc_of_Z (-5)) as Eb by congruence.
  split; [exact Hp|]. split; [exact Hc|]. split; [exact Hp0|].
  split; [exact (H99 _ _ _ _ Hp Hc Hp0)|].
  exists r, a, b.
  split; [exact Hr|]. split; [exact Ha|]. split; [exact Hb|].
  split; [exact Ea|]. split; [exact Eb|]. split; [exact Hrv|].
  apply Hreg. left. rewrite Ea. reflexivity.
Defined.

Lemma analyze_order_independent_witness :
  mixed_outcomes ≡ₚ swapped_outcomes ∧
  analyze identity_sqrt mixed_outcomes (Qc_of_Z 1)
    = analyze identity_sqrt swapped_outcomes (Qc_of_Z 1).
Proof.
  assert (mixed_outcomes ≡ₚ swapped_outcomes) as H by apply perm_swap.
  split; [exact H|].
  exact (analyze_order_independent identity_sqrt _ _ (Qc_of_Z 1) H).
Defined.

Lemma p99_is_max_up_to_100_witness :
  Qc_of_Z 1 ≠ 0 ∧ successful_latencies ten_outcomes ≠ [] ∧
  (length (successful_latencies ten_outcomes) ≤ 100)%nat ∧
  ∃ stats v,
    analyze identity_sqrt ten_outcomes (Qc_of_Z 1) = Ok stats ∧
    stats !! "latency_p99" = Some (PNum v) ∧
    stats !! "latency_max" = Some (PNum v).
Proof.
  assert (Qc_of_Z 1 ≠ 0) as H1 by done.
  assert (successful_latencies ten_outcomes ≠ []) as H2 by done.
  assert (length (successful_latencies ten_outcomes) ≤ 100)%nat as H3
    by (simpl; lia).
  split; [exact H1|]. split; [exact H2|]. split; [exact H3|].
  exact (p99_is_max_up_to_100 identity_sqrt ten_outcomes (Qc_of_Z 1) H1 H2 H3).
Defined.

Lemma median_le_p50_witness :
  Qc_of_Z 1 ≠ 0 ∧ successful_latencies mixed_outcomes ≠ [] ∧
  ∃ stats med,
    analyze identity_sqrt mixed_outcomes (Qc_of_Z 1) = Ok stats ∧
    stats !! "latency_median" = Some (PNum med) ∧
    stats !! "latency_p50" = Some (PNum med).
Proof.
  assert (Qc_of_Z 1 ≠ 0) as H1 by done.
  assert (successful_latencies mixed_outcomes ≠ []) as H2 by done.
  split; [exact H1|]. split; [exact H2|].
  destruct (median_le_p50 identity_sqrt mixed_outcomes (Qc_of_Z 1) H1 H2)
    as (stats & mn & med & p50 & Hs & _ & Lmed & L50 & _ & _ & Hodd).
  exists stats, med. split; [exact Hs|]. split; [exact Lmed|].
  rewrite (Hodd eq_refl). exact L50.
Defined.

Lemma mean_between_min_and_max_witness :
  Qc_of_Z 1 ≠ 0 ∧ successful_latencies ten_outcomes ≠ [] ∧
  ∃ stats mn mean mx,
    analyze identity_sqrt ten_outcomes (Qc_of_Z 1) = Ok stats ∧
    stats !! "latency_min" = Some (PNum mn) ∧
    stats !! "latency_mean" = Some (PNum mean) ∧
    stats !! "latency_max" = Some (PNum mx) ∧
    (mn ≤ mean)%Qc ∧ (mean ≤ mx)%Qc.
Proof.
  assert (Qc_of_Z 1 ≠ 0) as H1 by done.
  assert (successful_latencies ten_outcomes ≠ []) as H2 by done.
  split; [exact H1|]. split; [exact H2|].
  exact (mean_between_min_and_max identity_sqrt ten_outcomes (Qc_of_Z 1) H1 H2).
Defined.

Lemma zero_time_no_summary_witness :
  successful_latencies mixed_outcomes ≠ [] ∧
  analyze identity_sqrt mixed_outcomes 0 = Raise ZeroDivisionError.
Proof.
  assert (successful_latencies mixed_outcomes ≠ []) as H by done.
  split; [exact H|].
  exact (zero_time_no_summary identity_sqrt mixed_outcomes H).
Defined.

Lemma single_success_summary_witness :
  Qc_of_Z 1 ≠ 0 ∧ successful_latencies mixed_outcomes = [Qc_of_Z 7] ∧
  ∃ stats,
    analyze identity_sqrt mixed_outcomes (Qc_of_Z 1) = Ok stats ∧
    stats !! "latency_stdev" = Some (PNum 0) ∧
    stats !! "latency_p99" = Some (PNum (Qc_of_Z 7)).
Proof.
  assert (Qc_of_Z 1 ≠ 0) as H1 by done.
  assert (successful_latencies mixed_outcomes = [Qc_of_Z 7]) as H2
    by reflexivity.
  split; [exact H1|]. split; [exact H2|].
  destruct (single_success_summary identity_sqrt mixed_outcomes (Qc_of_Z 1)
              (Qc_of_Z 7) H1 H2) as (stats & Hs & Hsd & Hall).
  exists stats. split; [exact Hs|]. split; [exact Hsd|].
  apply (proj1 (Forall_forall _ _) Hall). rewrite !elem_of_cons. tauto.
Defined.

Lemma mixed_mode_skips_symbols_witness :
  length ["A"; "B"; "C"] = (3 * 1)%nat ∧ (0 < 1)%nat ∧ (5 `mod` 3 = 2)%Z ∧
  worker_url "http://h" "mixed" ["A"; "B"; "C"] 5000 5
    = Ok (data_url "http://h" "C" 5000 "time,best_bid").
Proof.
  assert (length ["A"; "B"; "C"] = (3 * 1)%nat) as H1 by reflexivity.
  assert (0 < 1)%nat as H2 by lia.
  assert (5 `mod` 3 = 2)%Z as H3 by reflexivity.
  split; [exact H1|]. split; [exact H2|]. split; [exact H3|].
  destruct (mixed_mode_skips_symbols "http://h" ["A"; "B"; "C"] 5000 1 5
              H1 H2 H3) as (pos & symbol & Hpos & _ & Hthird & Hurl).
  rewrite (Hthird eq_refl) in Hpos. injection Hpos as <-. exact Hurl.
Defined.


Lemma warmup_never_status_witness :
  ["BTC-USD"] ≠ [] ∧
  ∃ symbol,
    warmup_url "http://h" "api" ["BTC-USD"] 5000 1
      = Ok (endpoint_url "http://h" 5000 "time,best_bid" (Data symbol)).
Proof.
  assert (["BTC-USD"] ≠ []) as H by done.
  split; [exact H|].
  destruct (warmup_never_status "http://h" "api" ["BTC-USD"] 5000 1 H)
    as (e & Hurl & _ & Hdata).
  destruct Hdata as [symbol ->]; [done|done|]. by exists symbol.
Defined.

Lemma compare_only_outcomes_witness :
  ∃ run,
    compare_only "benchmark_results" example_listing example_fs = Ok run ∧
    usage_error run = false ∧ exit_code run = 0%Z ∧
    (length (table run) ≤ 5)%nat.
Proof.
  destruct (compare_only "benchmark_results" example_listing example_fs)
    as [run|e] eqn:Hrun; [|by vm_compute in Hrun].
  exists run. split; [reflexivity|].
  destruct (compare_only_outcomes "benchmark_results" example_listing
              example_fs run Hrun) as (Husage & _ & Hexit & Htable & _).
  assert (usage_error run = false) as Hno.
  { destruct (usage_error run); [|reflexivity].
    pose proof (proj1 Husage eq_refl) as Hlen. vm_compute in Hlen. lia. }
  split; [exact Hno|]. split; [exact (Hexit Hno)|exact Htable].
Defined.

Lemma error_handling_counts_witness :
  exceptions_only refusing_world 5 ∧
  ∃ ok tr',
    test_error_handling refusing_world "http://h" fresh_results = Ok (ok, tr') ∧
    (length (passed tr') + length (failed tr') = 3)%nat.
Proof.
  assert (exceptions_only refusing_world 5) as H by (by intros url).
  split; [exact H|].
  destruct (error_handling_counts refusing_world "http://h" fresh_results H)
    as (ok & tr' & Hrun & Hlen & _).
  exists ok, tr'. split; [exact Hrun|exact Hlen].
Defined.

Lemma unreachable_server_passes_two_witness :
  unreachable refusing_world ∧
  test_error_handling refusing_world "http://h" fresh_results
    = Ok (false,
          {| passed := ["error_handling_Missing symbol";
                        "error_handling_Invalid time range"];
             failed := ["error_handling_Invalid endpoint"];
             test_mode := Some "data" |}).
Proof.
  assert (unreachable refusing_world) as H by (intros url timeout; by eexists).
  split; [exact H|].
  exact (unreachable_server_passes_two refusing_world "http://h" fresh_results H).
Defined.

Lemma failure_fails_performance_check_witness :
  successful_latencies mixed_outcomes ≠ [] ∧
  Exists (λ r, status r ≠ 200%Z) mixed_outcomes ∧
  ∃ stats issues,
    analyze identity_sqrt mixed_outcomes (Qc_of_Z 1) = Ok stats ∧
    performance_check fresh_results stats = Ok (Some issues) ∧
    {| issue_name := "Success rate %"; issue_value := 0;
       issue_threshold := Qc_of_Z 100; issue_above := false |} ∈ issues.
Proof.
  assert (Qc_of_Z 1 ≠ 0) as H1 by done.
  assert (successful_latencies mixed_outcomes ≠ []) as H2 by done.
  assert (Exists (λ r, status r ≠ 200%Z) mixed_outcomes) as H3
    by (apply Exists_cons_tl, Exists_cons_hd; done).
  split; [exact H2|]. split; [exact H3|].
  destruct (analyze_success identity_sqrt mixed_outcomes (Qc_of_Z 1) H1 H2)
    as (stats & _ & _ & _ & _ & _ & _ & Hs & _).
  destruct (failure_fails_performance_check identity_sqrt fresh_results
              mixed_outcomes (Qc_of_Z 1) stats Hs) as [_ Hissue].
  destruct (Hissue H2 H3) as (issues & Hcheck & Hin).
  by exists stats, issues.
Defined.

Lemma stored_success_rate_range_witness :
  ∃ stats summary rate,
    analyze identity_sqrt mixed_outcomes (Qc_of_Z 1) = Ok stats ∧
    performance_summary stats = Ok summary ∧
    summary !! "success_rate" = Some (PNum rate) ∧
    (0 ≤ rate)%Qc ∧ (rate ≤ Qc_of_Z 100)%Qc ∧ rate ≠ Qc_of_Z 100.
Proof.
  assert (Qc_of_Z 1 ≠ 0) as H1 by done.
  assert (successful_latencies mixed_outcomes ≠ []) as H2 by done.
  destruct (analyze_success identity_sqrt mixed_outcomes (Qc_of_Z 1) H1 H2)
    as (stats & _ & _ & _ & _ & _ & _ & Hs & _).
  destruct (stored_success_rate_range identity_sqrt mixed_outcomes (Qc_of_Z 1)
              stats Hs) as (summary & rate & Hsum & Lrate & H0 & H100 & Hall).
  exists stats, summary, rate. repeat (split; [done|]).
  intros Hr. destruct (proj1 Hall Hr) as [_ Hok].
  apply Forall_cons in Hok as [_ Hok]. by apply Forall_cons in Hok as [Hok _].
Defined.

Lemma json_end_found_witness :
  json_end quoted_brace = Some 4%nat ∧
  String.get 4 quoted_brace = Some "}"%char ∧
  json_end (quoted_brace +:+ "}{binary") = Some 4%nat.
Proof.
  assert (json_end quoted_brace = Some 4%nat) as H by reflexivity.
  split; [exact H|].
  destruct (json_end_found quoted_brace 4 H) as (_ & Hget & Hmore).
  split; [exact Hget|exact (Hmore "}{binary")].
Defined.

Lemma saved_run_compares_unchanged_witness :
  successful_latencies mixed_outcomes ≠ [] ∧ (0 < Qc_of_Z 1)%Qc ∧
  ∃ stats record r,
    analyze identity_sqrt mixed_outcomes (Qc_of_Z 1) = Ok stats ∧
    save_record "http://h" fresh_results "2024-03-01T09:00:00" stats ∅
      = Ok record ∧
    compare_with_file stats
      ((save_results "benchmark_results" "20240301_090000" record example_fs).2
         "benchmark_results/benchmark_20240301_090000.json") true = Some r ∧
    length (report_lines r) = 2%nat ∧
    report_verdict r = Some Similar.
Proof.
  assert (Qc_of_Z 1 ≠ 0) as H1 by done.
  assert (successful_latencies mixed_outcomes ≠ []) as H2 by done.
  assert (0 < Qc_of_Z 1)%Qc as H3 by done.
  split; [exact H2|]. split; [exact H3|].
  destruct (analyze_success identity_sqrt mixed_outcomes (Qc_of_Z 1) H1 H2)
    as (stats & _ & _ & _ & _ & _ & _ & Hs & _).
  destruct (saved_run_compares_unchanged identity_sqrt "http://h" fresh_results
              "2024-03-01T09:00:00" "benchmark_results" "20240301_090000" ∅
              example_fs mixed_outcomes (Qc_of_Z 1) stats true Hs H2 H3)
    as (record & Hrec & Hcmp).
  exists stats, record. eexists. split; [exact Hs|]. split; [exact Hrec|].
  split; [exact Hcmp|]. split; reflexivity.
Defined.

Lemma warmup_count_bounds_witness :
  (100 ≤ 250 < 510)%Z ∧ warmup_count 250 = 25%Z.
Proof.
  assert (100 ≤ 250 < 510)%Z as H by lia.
  split; [exact H|].
  destruct (warmup_count_bounds 250) as (_ & _ & Hdiv & _).
  rewrite (Hdiv H). reflexivity.
Defined.

Lemma latest_previous_is_greatest_witness :
  ∃ latest,
    latest_previous
      (compare_with_previous (λ _, false) (λ _, example_listing) example_fs ∅
         "benchmark_results/benchmark_20240301_090000.json") = Some latest ∧
    latest ∈ glob_benchmarks "benchmark_results" example_listing ∧
    is_substring "baseline" latest = false.
Proof.
  pose proof (latest_previous_is_greatest (λ _, false) (λ _, example_listing)
                example_fs ∅ "benchmark_results/benchmark_20240301_090000.json")
    as H.
  cbv zeta in H.
  destruct (latest_previous _) as [latest|] eqn:E; [|by vm_compute in E].
  exists latest. split; [reflexivity|].
  destruct H as [(Hin & _ & Hbase) _]. split; [exact Hin|exact Hbase].
Defined.
